(** * Form versioning and submission validation (backend/forms)

    A shallow embedding of the Django application [backend/forms]:
    [models.py] (the tables and [Form.create_new_version]),
    [serializers.py] (schema compilation, payload validation, submission
    creation) and [views.py] (the [submit], [review] and file upload
    actions), followed by the properties proved about them.

    Conventions of the embedding.
    - A Python exception is a value of [Exn]; a function that may raise
      returns a [Result].  [Raise e] carries no world: what the
      statements before the exception wrote is recorded only in the
      trace of [FormSubmissionCreateSerializer.create].  The [submit]
      and [review] actions return the answer of the server, which for
      [review] is [Unhandled e] with status 500 when the exception [e]
      leaves the action.
    - The database is a record of tables, each table a list of rows in
      insertion order.  [uuid.uuid4()] draws from a supply of fresh values
      and [timezone.now()] reads a clock that advances at every reading.
      The database is PostgreSQL ([models.py] uses its [ArrayField]): a
      value that does not fit its column is refused with [DataError].
      The attributes of a model instance and the data a serializer has
      validated fit their columns; the values checked here are those the
      application computes (the next version number, the name of a copy)
      or takes from a request without validation (the review notes, the
      name, size and content type of an uploaded file).
    - JSON values are the Python objects [json.loads] builds.  A finite
      float is represented by the rational it denotes: Python compares
      [int] and [float] values exactly, and multiplying by 1024 is exact
      in binary floating point.
    - One character of a [string] stands for one code point. *)

From Stdlib Require Import Bool List String Ascii NArith ZArith QArith Lia Lqa.
From Stdlib Require Import Sorted Permutation.
Import ListNotations.
Local Open Scope string_scope.
Local Open Scope Z_scope.

(** ** Python values *)

Set Warnings "-register-all".

Inductive JSON : Type :=
| JNull
| JBool (b : bool)
| JInt (z : Z)
| JFloat (q : Q)
| JStr (s : string)
| JList (l : list JSON)
| JObj (kv : list (string * JSON)).

(** A Python [dict] with string keys: the entries in insertion order,
    keys pairwise distinct. *)
Definition Dict (A : Type) : Type := list (string * A).

Fixpoint dict_get {A} (d : Dict A) (k : string) : option A :=
  match d with
  | [] => None
  | (k', v) :: d' => if String.eqb k' k then Some v else dict_get d' k
  end.

(** [k in d] *)
Definition dict_has {A} (d : Dict A) (k : string) : bool :=
  match dict_get d k with Some _ => true | None => false end.

(** [d.get(k, default)] *)
Definition dict_get_default {A} (d : Dict A) (k : string) (default : A) : A :=
  match dict_get d k with Some v => v | None => default end.

(** [d[k] = v]: an existing key keeps its position and takes the new
    value, a new key goes last. *)
Fixpoint dict_set {A} (d : Dict A) (k : string) (v : A) : Dict A :=
  match d with
  | [] => [(k, v)]
  | (k', v') :: d' =>
      if String.eqb k' k then (k', v) :: d' else (k', v') :: dict_set d' k v
  end.

(** [isinstance(v, (int, float))]; [bool] is a subclass of [int]. *)
Definition num_of (v : JSON) : option Q :=
  match v with
  | JBool b => Some (if b then 1%Q else 0%Q)
  | JInt z => Some (inject_Z z)
  | JFloat q => Some q
  | _ => None
  end.

(** Truth value of an object, as tested by [if v] and [v and ...]. *)
Definition truthy (v : JSON) : bool :=
  match v with
  | JNull => false
  | JBool b => b
  | JInt z => negb (Z.eqb z 0)
  | JFloat q => negb (Qeq_bool q 0)
  | JStr s => negb (String.eqb s "")
  | JList l => match l with [] => false | _ => true end
  | JObj kv => match kv with [] => false | _ => true end
  end.

(** [a == b] *)
Fixpoint py_eq (a b : JSON) {struct a} : bool :=
  match a, b with
  | JNull, JNull => true
  | JStr s, JStr t => String.eqb s t
  | JList l, JList m =>
      (fix all2 (l : list JSON) (m : list JSON) {struct l} : bool :=
         match l, m with
         | [], [] => true
         | x :: l', y :: m' => py_eq x y && all2 l' m'
         | _, _ => false
         end) l m
  | JObj kv, JObj kv' =>
      Nat.eqb (List.length kv) (List.length kv') &&
      (fix sub (kv : list (string * JSON)) {struct kv} : bool :=
         match kv with
         | [] => true
         | (k, v) :: r =>
             match dict_get kv' k with
             | Some v' => py_eq v v'
             | None => false
             end && sub r
         end) kv
  | JBool _, _ | JInt _, _ | JFloat _, _ =>
      match num_of a, num_of b with
      | Some x, Some y => Qeq_bool x y
      | _, _ => false
      end
  | _, _ => false
  end.

Inductive FieldType : Type :=
| text | textarea | number | email | phone | date
| select | multi_select | radio | checkbox | file | multi_file.

Inductive Status : Type :=
| draft | submitted | under_review | approved | rejected.

(** ** Exceptions and results *)

(** The [detail] of a [serializers.ValidationError] raised by this
    application, one constructor per message template. *)
Inductive Detail : Type :=
| FormNotFoundOrInactive            (* "Form not found or inactive" *)
| FormHasNoActiveVersion            (* "Form has no active version" *)
| FieldRequired (label : string)    (* f"Field '{field.label}' is required" *)
| ExpectedText (label : string)     (* f"{field.label}: Expected text value" *)
| MinimumLength (label : string) (min_length : JSON)
                                    (* f"{field.label}: Minimum length is {min_length}" *)
| MaximumLength (label : string) (max_length : JSON)
                                    (* f"{field.label}: Maximum length is {max_length}" *)
| ExpectedNumber (label : string)   (* f"{field.label}: Expected number value" *)
| MinimumValue (label : string) (min_value : JSON)
                                    (* f"{field.label}: Minimum value is {min_value}" *)
| MaximumValue (label : string) (max_value : JSON)
                                    (* f"{field.label}: Maximum value is {max_value}" *)
| InvalidOptionSelected (label : string)
                                    (* f"{field.label}: Invalid option selected" *)
| ExpectedList (label : string)     (* f"{field.label}: Expected list of values" *)
| InvalidOption (label : string) (v : JSON).
                                    (* f"{field.label}: Invalid option '{v}'" *)

Inductive Exn : Type :=
| ValidationError (detail : Detail)
| TypeError
| AttributeError
| IntegrityError
| DoesNotExist
| DatabaseError
| DataError                         (* a value that does not fit its column *)
| NulCharacter                      (* a text with a NUL character, which
                                       PostgreSQL refuses: [ValueError] from
                                       psycopg2, [DataError] from psycopg 3 *)
| SuspiciousFileOperation.          (* raised by the file storage *)

Inductive Result (A : Type) : Type :=
| Ok (a : A)
| Raise (e : Exn).
Arguments Ok {A} a.
Arguments Raise {A} e.

Definition bind {A B} (r : Result A) (k : A -> Result B) : Result B :=
  match r with
  | Ok a => k a
  | Raise e => Raise e
  end.

Notation "x <- r ;; k" := (bind r (fun x => k))
  (at level 61, r at next level, right associativity).
Notation "r ;;; k" := (bind r (fun _ => k))
  (at level 61, right associativity).

(** [raise e] when [c] holds, otherwise carry on. *)
Definition raise_if (c : bool) (e : Exn) : Result unit :=
  if c then Raise e else Ok tt.

(** ** Comparisons and membership on JSON values *)

(** [a < b] on two Python objects coming from JSON: defined on numbers,
    [TypeError] otherwise (the only left operands in this application are
    numbers). *)
Definition py_lt (a b : JSON) : Result bool :=
  match num_of a, num_of b with
  | Some x, Some y => Ok (match Qcompare x y with Lt => true | _ => false end)
  | _, _ => Raise TypeError
  end.

(** [a > b] *)
Definition py_gt (a b : JSON) : Result bool := py_lt b a.

(** [a >= b] *)
Definition py_ge (a b : JSON) : Result bool :=
  match num_of a, num_of b with
  | Some x, Some y => Ok (match Qcompare x y with Lt => false | _ => true end)
  | _, _ => Raise TypeError
  end.

(** [t in s] on strings: [t] occurs in [s]. *)
Definition str_contains (s t : string) : bool :=
  match String.index 0 t s with
  | Some _ => true
  | None => match t with EmptyString => true | _ => false end
  end.

(** [x in c]: list membership by [==]; substring test on a string (a
    non-string left operand is a [TypeError]); key membership on a dict
    (an unhashable left operand is a [TypeError]); any other container is
    not iterable. *)
Definition py_in (x c : JSON) : Result bool :=
  match c with
  | JList l => Ok (existsb (py_eq x) l)
  | JStr s =>
      match x with
      | JStr t => Ok (str_contains s t)
      | _ => Raise TypeError
      end
  | JObj kv =>
      match x with
      | JStr k => Ok (dict_has kv k)
      | JList _ | JObj _ => Raise TypeError
      | _ => Ok false
      end
  | _ => Raise TypeError
  end.

(** ** models.py: the tables *)

(** A [UUIDField] value, as the 128-bit number it encodes. *)
Definition UUID : Type := N.
(** The primary key of a [User]. *)
Definition UserId : Type := N.

Record User : Type := mkUser {
  user_pk : UserId;
  is_staff : bool
}.

Module Form.
Record t : Type := mk {
  id : UUID;
  name : string;
  description : string;
  created_by : option UserId;
  is_active : bool;
  current_version : option UUID;
  notification_emails : list string;
  webhook_url : option string
}.

Definition set_current_version (f : t) (v : option UUID) : t :=
  mk (id f) (name f) (description f) (created_by f) (is_active f) v
     (notification_emails f) (webhook_url f).
End Form.

Module FormVersion.
Record t : Type := mk {
  id : UUID;
  form : UUID;
  version_number : Z;
  schema_json : JSON
}.

Definition set_schema_json (v : t) (j : JSON) : t :=
  mk (id v) (form v) (version_number v) j.
End FormVersion.

(** [config] is the JSON object the help text of the model describes. *)
Module FormField.
Record t : Type := mk {
  id : UUID;
  form_version : UUID;
  name : string;
  label : string;
  field_type : FieldType;
  order : Z;
  config : Dict JSON;
  created_at : Z
}.
End FormField.

Module ValidationRule.
Record t : Type := mk {
  id : UUID;
  field : UUID;
  rule_type : string;
  config : JSON;
  error_message : string;
  created_at : Z
}.
End ValidationRule.

(** The value of a [TextField] column: a text, or [str(v)] of the
    object [v] that was assigned when [v] is neither a text nor [None]
    ([TextField.to_python] converts on the way to the database). *)
Inductive TextValue : Type :=
| Text (s : string)
| StrOf (v : JSON).

(** What a [TextField] sends to the database for an assigned object;
    [None] is the SQL [NULL]. *)
Definition TextField_get_prep_value (v : JSON) : option TextValue :=
  match v with
  | JNull => None
  | JStr s => Some (Text s)
  | _ => Some (StrOf v)
  end.

(** Whether a text holds the character NUL.  [str(v)] of an object that
    is not a text never does: the texts inside a list or a dict are shown
    by [repr], which writes NUL as an escape. *)
Definition str_has_nul (s : string) : bool :=
  match String.index 0 (String Ascii.zero EmptyString) s with
  | Some _ => true
  | None => false
  end.

Definition has_nul (t : TextValue) : bool :=
  match t with
  | Text s => str_has_nul s
  | StrOf _ => false
  end.

Module FormSubmission.
Record t : Type := mk {
  id : UUID;
  form_version : UUID;
  submitted_by : option UserId;
  status : Status;
  submitted_at : option Z;
  reviewed_by : option UserId;
  reviewed_at : option Z;
  review_notes : TextValue
}.
End FormSubmission.

Module FieldResponse.
Record t : Type := mk {
  id : UUID;
  submission : UUID;
  field : UUID;
  value : JSON
}.
End FieldResponse.

(** An uploaded file as the request carries it ([request.FILES]). *)
Record UploadedFile : Type := mkUploadedFile {
  upload_name : string;
  upload_size : Z;
  upload_content_type : string
}.

Module FileUpload.
Record t : Type := mk {
  id : UUID;
  field_response : UUID;
  original_filename : string;
  file_size : Z;
  mime_type : string
}.
End FileUpload.

(** The database, the identifier supply, the clock and the task queue
    [send_submission_notification.delay] appends to.  The columns of
    [TimeStampedModel] are kept on the two tables whose default ordering
    reads [created_at]. *)
Record World : Type := mkWorld {
  db_forms : list Form.t;
  db_versions : list FormVersion.t;
  db_fields : list FormField.t;
  db_rules : list ValidationRule.t;
  db_submissions : list FormSubmission.t;
  db_responses : list FieldResponse.t;
  db_files : list FileUpload.t;
  db_notifications : list UUID;
  next_uuid : UUID;
  clock : Z
}.

Definition set_forms (w : World) (x : list Form.t) : World :=
  mkWorld x (db_versions w) (db_fields w) (db_rules w) (db_submissions w) (db_responses w)
          (db_files w) (db_notifications w) (next_uuid w) (clock w).
Definition set_versions (w : World) (x : list FormVersion.t) : World :=
  mkWorld (db_forms w) x (db_fields w) (db_rules w) (db_submissions w) (db_responses w)
          (db_files w) (db_notifications w) (next_uuid w) (clock w).
Definition set_fields (w : World) (x : list FormField.t) : World :=
  mkWorld (db_forms w) (db_versions w) x (db_rules w) (db_submissions w) (db_responses w)
          (db_files w) (db_notifications w) (next_uuid w) (clock w).
Definition set_submissions (w : World) (x : list FormSubmission.t) : World :=
  mkWorld (db_forms w) (db_versions w) (db_fields w) (db_rules w) x (db_responses w)
          (db_files w) (db_notifications w) (next_uuid w) (clock w).
Definition set_responses (w : World) (x : list FieldResponse.t) : World :=
  mkWorld (db_forms w) (db_versions w) (db_fields w) (db_rules w) (db_submissions w) x
          (db_files w) (db_notifications w) (next_uuid w) (clock w).
Definition set_files (w : World) (x : list FileUpload.t) : World :=
  mkWorld (db_forms w) (db_versions w) (db_fields w) (db_rules w) (db_submissions w)
          (db_responses w) x (db_notifications w) (next_uuid w) (clock w).
Definition set_notifications (w : World) (x : list UUID) : World :=
  mkWorld (db_forms w) (db_versions w) (db_fields w) (db_rules w) (db_submissions w)
          (db_responses w) (db_files w) x (next_uuid w) (clock w).
Definition set_next_uuid (w : World) (x : UUID) : World :=
  mkWorld (db_forms w) (db_versions w) (db_fields w) (db_rules w) (db_submissions w)
          (db_responses w) (db_files w) (db_notifications w) x (clock w).
Definition set_clock (w : World) (x : Z) : World :=
  mkWorld (db_forms w) (db_versions w) (db_fields w) (db_rules w) (db_submissions w)
          (db_responses w) (db_files w) (db_notifications w) (next_uuid w) x.

(** [uuid.uuid4()] *)
Definition uuid4 (w : World) : UUID * World :=
  (next_uuid w, set_next_uuid w (N.succ (next_uuid w))).

(** [timezone.now()] *)
Definition timezone_now (w : World) : Z * World :=
  (clock w, set_clock w (clock w + 1)).

(** ** models.py: [Form.create_new_version] *)

(** [self.versions]: the versions whose [form] is this form. *)
Definition versions_of (form_id : UUID) (w : World) : list FormVersion.t :=
  filter (fun v => N.eqb (FormVersion.form v) form_id) (db_versions w).

(** [qs.order_by('-version_number').first()] *)
Fixpoint first_by_version_number_desc (vs : list FormVersion.t)
  : option FormVersion.t :=
  match vs with
  | [] => None
  | v :: vs' =>
      match first_by_version_number_desc vs' with
      | None => Some v
      | Some m =>
          if FormVersion.version_number m <? FormVersion.version_number v
          then Some v else Some m
      end
  end.

(** The largest value of a [PositiveIntegerField] column, a PostgreSQL
    [integer]. *)
Definition MAX_INTEGER : Z := 2147483647.

(** Whether a form row with this key is stored. *)
Definition form_exists (form_id : UUID) (w : World) : bool :=
  existsb (fun f => N.eqb (Form.id f) form_id) (db_forms w).

(** [FormVersion.objects.create(form=..., version_number=...)].  The
    insert raises [DataError] when [version_number] does not fit the
    column, and [IntegrityError] when the pair is taken
    ([unique_together = ['form', 'version_number']]) or when no form row
    has the key [form] refers to; [schema_json] defaults to [dict()]. *)
Definition FormVersion_objects_create (form_id : UUID) (version_number : Z)
    (w : World) : Result (FormVersion.t * World) :=
  if MAX_INTEGER <? version_number then Raise DataError
  else if existsb (fun v => FormVersion.version_number v =? version_number)
                  (versions_of form_id w)
  then Raise IntegrityError
  else if negb (form_exists form_id w) then Raise IntegrityError
  else
    let '(i, w1) := uuid4 w in
    let v := FormVersion.mk i form_id version_number (JObj []) in
    Ok (v, set_versions w1 (db_versions w1 ++ [v])).

(** [self.save()]: the row with this primary key is replaced by the
    instance's attributes, or inserted when there is none. *)
Fixpoint save_row {A} (pk : A -> UUID) (x : A) (rows : list A) : list A :=
  match rows with
  | [] => [x]
  | r :: rows' => if N.eqb (pk r) (pk x) then x :: rows' else r :: save_row pk x rows'
  end.

(** Whether another form row holds the name of this form. *)
Definition name_taken_by_other (self : Form.t) (w : World) : bool :=
  existsb (fun f => negb (N.eqb (Form.id f) (Form.id self))
                    && String.eqb (Form.name f) (Form.name self))
          (db_forms w).

(** [self.save()] on a form; [name] is unique, so the statement raises
    when another row holds the name. *)
Definition Form_save (self : Form.t) (w : World) : Result World :=
  if name_taken_by_other self w then Raise IntegrityError
  else Ok (set_forms w (save_row Form.id self (db_forms w))).

(** [Form.create_new_version]: returns the new version, the instance
    [self] as mutated, and the world. *)
Definition create_new_version (self : Form.t) (w : World)
  : Result (FormVersion.t * Form.t * World) :=
  let last_version :=
    first_by_version_number_desc (versions_of (Form.id self) w) in
  let version_number :=
    match last_version with
    | Some last => FormVersion.version_number last + 1
    | None => 1
    end in
  r <- FormVersion_objects_create (Form.id self) version_number w ;;
  let '(new_version, w1) := r in
  let self1 := Form.set_current_version self (Some (FormVersion.id new_version)) in
  w2 <- Form_save self1 w1 ;;
  Ok (new_version, self1, w2).

(** [Form.objects.get(id=...)] and friends: the row with a primary key. *)
Definition get_row {A} (pk : A -> UUID) (i : UUID) (rows : list A) : option A :=
  find (fun r => N.eqb (pk r) i) rows.

(** ** Query sets with a default ordering *)

(** Insertion into a list sorted by [le]; placed after the elements it
    ties with, so that [sort_by] is stable. *)
Fixpoint insert_by {A} (le : A -> A -> bool) (x : A) (l : list A) : list A :=
  match l with
  | [] => [x]
  | y :: l' => if le y x then y :: insert_by le x l' else x :: y :: l'
  end.

Definition sort_by {A} (le : A -> A -> bool) (l : list A) : list A :=
  fold_left (fun acc x => insert_by le x acc) l [].

(** [FormField.Meta.ordering = ['order', 'created_at']] *)
Definition field_le (a b : FormField.t) : bool :=
  (FormField.order a <? FormField.order b) ||
  ((FormField.order a =? FormField.order b) &&
   (FormField.created_at a <=? FormField.created_at b)).

(** [version.fields.all()] *)
Definition version_fields (version_id : UUID) (w : World) : list FormField.t :=
  sort_by field_le
    (filter (fun f => N.eqb (FormField.form_version f) version_id) (db_fields w)).

(** [ValidationRule.Meta.ordering = ['created_at']] *)
Definition rule_le (a b : ValidationRule.t) : bool :=
  ValidationRule.created_at a <=? ValidationRule.created_at b.

(** [field.validation_rules.all()] *)
Definition field_validation_rules (field_id : UUID) (w : World)
  : list ValidationRule.t :=
  sort_by rule_le
    (filter (fun r => N.eqb (ValidationRule.field r) field_id) (db_rules w)).

(** ** serializers.py: schema compilation *)

Definition hex_digit (n : N) : ascii :=
  match n with
  | 0 => "0" | 1 => "1" | 2 => "2" | 3 => "3" | 4 => "4" | 5 => "5"
  | 6 => "6" | 7 => "7" | 8 => "8" | 9 => "9" | 10 => "a" | 11 => "b"
  | 12 => "c" | 13 => "d" | 14 => "e" | _ => "f"
  end%N%char.

Fixpoint hex_digits (k : nat) (n : N) (acc : string) : string :=
  match k with
  | O => acc
  | S k' => hex_digits k' (N.div n 16) (String (hex_digit (N.modulo n 16)) acc)
  end.

(** [str(u)] for a UUID: 32 hexadecimal digits grouped 8-4-4-4-12. *)
Definition uuid_str (u : UUID) : string :=
  let h := hex_digits 32 u "" in
  substring 0 8 h ++ "-" ++ substring 8 4 h ++ "-" ++ substring 12 4 h ++ "-"
  ++ substring 16 4 h ++ "-" ++ substring 20 12 h.

(** The stored value of each choice of [FormField.FIELD_TYPES]. *)
Definition field_type_value (t : FieldType) : string :=
  match t with
  | text => "text" | textarea => "textarea" | number => "number"
  | email => "email" | phone => "phone" | date => "date"
  | select => "select" | multi_select => "multi_select" | radio => "radio"
  | checkbox => "checkbox" | file => "file" | multi_file => "multi_file"
  end.

(** What [FormFieldSerializer] hands to [FormField.objects.create] for one
    field, model defaults applied ([order] 0, [config] the empty dict). *)
Record FieldData : Type := mkFieldData {
  fd_name : string;
  fd_label : string;
  fd_field_type : FieldType;
  fd_order : Z;
  fd_config : Dict JSON
}.

(** [FormField.objects.create(form_version=version, **field_data)];
    [unique_together = ['form_version', 'name']]. *)
Definition FormField_objects_create (version_id : UUID) (d : FieldData)
    (w : World) : Result (FormField.t * World) :=
  if existsb (fun f => N.eqb (FormField.form_version f) version_id
                       && String.eqb (FormField.name f) (fd_name d))
             (db_fields w)
  then Raise IntegrityError
  else
    let '(i, w1) := uuid4 w in
    let '(now, w2) := timezone_now w1 in
    let f := FormField.mk i version_id (fd_name d) (fd_label d)
                          (fd_field_type d) (fd_order d) (fd_config d) now in
    Ok (f, set_fields w2 (db_fields w2 ++ [f])).

(** [for field_data in fields_data: FormField.objects.create(...)] *)
Fixpoint create_fields (version_id : UUID) (fields_data : list FieldData)
    (w : World) : Result World :=
  match fields_data with
  | [] => Ok w
  | d :: rest =>
      r <- FormField_objects_create version_id d w ;;
      create_fields version_id rest (snd r)
  end.

(** [version.save()] *)
Definition FormVersion_save (v : FormVersion.t) (w : World) : World :=
  set_versions w (save_row FormVersion.id v (db_versions w)).

Module FormCreateSerializer.

Record ValidatedData : Type := mkValidatedData {
  name : string;
  description : string;
  is_active : bool;
  notification_emails : list string;
  webhook_url : option string;
  created_by : option UserId;
  fields : list FieldData
}.

Definition rule_entry (rule : ValidationRule.t) : JSON :=
  JObj [("type", JStr (ValidationRule.rule_type rule));
        ("config", ValidationRule.config rule);
        ("error_message", JStr (ValidationRule.error_message rule))].

Definition field_entry (w : World) (field : FormField.t) : JSON :=
  JObj [("id", JStr (uuid_str (FormField.id field)));
        ("name", JStr (FormField.name field));
        ("label", JStr (FormField.label field));
        ("type", JStr (field_type_value (FormField.field_type field)));
        ("order", JInt (FormField.order field));
        ("config", JObj (FormField.config field));
        ("validation_rules",
         JList (map rule_entry
                    (field_validation_rules (FormField.id field) w)))].

Definition _build_schema_json (version : FormVersion.t) (w : World) : JSON :=
  let fields := version_fields (FormVersion.id version) w in
  JObj [("fields", JList (map (field_entry w) fields))].

(** [Form.objects.create] on the validated attributes; [name] is unique. *)
Definition Form_objects_create (d : ValidatedData) (w : World)
  : Result (Form.t * World) :=
  if existsb (fun f => String.eqb (Form.name f) (name d)) (db_forms w)
  then Raise IntegrityError
  else
    let '(i, w1) := uuid4 w in
    let form := Form.mk i (name d) (description d) (created_by d)
                        (is_active d) None (notification_emails d)
                        (webhook_url d) in
    Ok (form, set_forms w1 (db_forms w1 ++ [form])).

Definition create (validated_data : ValidatedData) (w : World)
  : Result (Form.t * World) :=
  let fields_data := fields validated_data in
  r <- Form_objects_create validated_data w ;;
  let '(form, w1) := r in
  r <- create_new_version form w1 ;;
  let '(version, form, w2) := r in
  w3 <- create_fields (FormVersion.id version) fields_data w2 ;;
  let version := FormVersion.set_schema_json version (_build_schema_json version w3) in
  Ok (form, FormVersion_save version w3).

End FormCreateSerializer.

Module FormUpdateSerializer.

(** The attributes present in the request; [fields] is optional
    ([required=False]). *)
Record ValidatedData : Type := mkValidatedData {
  name : option string;
  description : option string;
  is_active : option bool;
  notification_emails : option (list string);
  webhook_url : option (option string);
  fields : option (list FieldData)
}.

Definition field_entry (field : FormField.t) : JSON :=
  JObj [("id", JStr (uuid_str (FormField.id field)));
        ("name", JStr (FormField.name field));
        ("label", JStr (FormField.label field));
        ("type", JStr (field_type_value (FormField.field_type field)));
        ("order", JInt (FormField.order field));
        ("config", JObj (FormField.config field))].

Definition _build_schema_json (version : FormVersion.t) (w : World) : JSON :=
  let fields := version_fields (FormVersion.id version) w in
  JObj [("fields", JList (map field_entry fields))].

Definition or_keep {A} (new : option A) (old : A) : A :=
  match new with Some x => x | None => old end.

(** [for attr, value in validated_data.items(): setattr(instance, attr, value)] *)
Definition set_attrs (instance : Form.t) (d : ValidatedData) : Form.t :=
  Form.mk (Form.id instance)
          (or_keep (name d) (Form.name instance))
          (or_keep (description d) (Form.description instance))
          (Form.created_by instance)
          (or_keep (is_active d) (Form.is_active instance))
          (Form.current_version instance)
          (or_keep (notification_emails d) (Form.notification_emails instance))
          (or_keep (webhook_url d) (Form.webhook_url instance)).

Definition update (instance : Form.t) (validated_data : ValidatedData)
    (w : World) : Result (Form.t * World) :=
  let fields_data := fields validated_data in
  let instance := set_attrs instance validated_data in
  w1 <- Form_save instance w ;;
  match fields_data with
  | Some fields_data =>
      r <- create_new_version instance w1 ;;
      let '(version, instance, w2) := r in
      w3 <- create_fields (FormVersion.id version) fields_data w2 ;;
      let version :=
        FormVersion.set_schema_json version (_build_schema_json version w3) in
      Ok (instance, FormVersion_save version w3)
  | None => Ok (instance, w1)
  end.

End FormUpdateSerializer.

(** ** serializers.py: submission validation and creation *)

Module FormSubmissionCreateSerializer.

Record Data : Type := mkData {
  form_id : UUID;
  responses : Dict JSON;
  status : Status
}.

(** [validate_form_id]: [Form.objects.get(id=value, is_active=True)];
    the [ValidationError] raised inside the [try] is not a
    [Form.DoesNotExist] and passes through. *)
Definition validate_form_id (value : UUID) (w : World) : Result UUID :=
  match find (fun f => N.eqb (Form.id f) value && Form.is_active f) (db_forms w) with
  | Some form =>
      match Form.current_version form with
      | None => Raise (ValidationError FormHasNoActiveVersion)
      | Some _ => Ok value
      end
  | None => Raise (ValidationError FormNotFoundOrInactive)
  end.

(** [{field.name: field for field in version.fields.all()}] *)
Definition fields_by_name (fs : list FormField.t) : Dict FormField.t :=
  fold_left (fun d f => dict_set d (FormField.name f) f) fs [].

(** [min_length and len(value) < min_length]: the bound is consulted
    only when it is truthy. *)
Definition below_min_length (value : string) (min_length : JSON) : Result bool :=
  if truthy min_length
  then py_lt (JInt (Z.of_nat (String.length value))) min_length
  else Ok false.

(** [max_length and len(value) > max_length] *)
Definition above_max_length (value : string) (max_length : JSON) : Result bool :=
  if truthy max_length
  then py_gt (JInt (Z.of_nat (String.length value))) max_length
  else Ok false.

(** [min_value is not None and value < min_value] *)
Definition below_min_value (value min_value : JSON) : Result bool :=
  match min_value with
  | JNull => Ok false
  | _ => py_lt value min_value
  end.

(** [max_value is not None and value > max_value] *)
Definition above_max_value (value max_value : JSON) : Result bool :=
  match max_value with
  | JNull => Ok false
  | _ => py_gt value max_value
  end.

(** [for v in value: if v not in options: raise ...] *)
Fixpoint check_options (label : string) (options : JSON) (value : list JSON)
  : Result unit :=
  match value with
  | [] => Ok tt
  | v :: rest =>
      member <- py_in v options ;;
      raise_if (negb member) (ValidationError (InvalidOption label v)) ;;;
      check_options label options rest
  end.

(** The block guarded by [field.field_type in ['text', 'textarea', 'email']]. *)
Definition text_validations (field : FormField.t) (value : JSON) : Result unit :=
  let config := FormField.config field in
  let label := FormField.label field in
  match value with
  | JStr s =>
      let min_length := dict_get_default config "min_length" JNull in
      let max_length := dict_get_default config "max_length" JNull in
      short <- below_min_length s min_length ;;
      raise_if short (ValidationError (MinimumLength label min_length)) ;;;
      long <- above_max_length s max_length ;;
      raise_if long (ValidationError (MaximumLength label max_length))
  | _ => Raise (ValidationError (ExpectedText label))
  end.

(** The block guarded by [field.field_type == 'number']. *)
Definition number_validations (field : FormField.t) (value : JSON) : Result unit :=
  let config := FormField.config field in
  let label := FormField.label field in
  match num_of value with
  | Some _ =>
      let min_value := dict_get_default config "min_value" JNull in
      let max_value := dict_get_default config "max_value" JNull in
      low <- below_min_value value min_value ;;
      raise_if low (ValidationError (MinimumValue label min_value)) ;;;
      high <- above_max_value value max_value ;;
      raise_if high (ValidationError (MaximumValue label max_value))
  | None => Raise (ValidationError (ExpectedNumber label))
  end.

(** The block guarded by [field.field_type in ['select', 'radio']]. *)
Definition select_validations (field : FormField.t) (value : JSON) : Result unit :=
  let options := dict_get_default (FormField.config field) "options" (JList []) in
  member <- py_in value options ;;
  raise_if (negb member)
           (ValidationError (InvalidOptionSelected (FormField.label field))).

(** The block guarded by [field.field_type == 'multi_select']. *)
Definition multi_select_validations (field : FormField.t) (value : JSON)
  : Result unit :=
  match value with
  | JList vs =>
      let options :=
        dict_get_default (FormField.config field) "options" (JList []) in
      check_options (FormField.label field) options vs
  | _ => Raise (ValidationError (ExpectedList (FormField.label field)))
  end.

(** [_validate_field_value]: four [if] blocks in sequence, each guarded
    by the field type. *)
Definition _validate_field_value (field : FormField.t) (value : JSON)
  : Result unit :=
  let t := FormField.field_type field in
  (match t with
   | text | textarea | email => text_validations field value
   | _ => Ok tt
   end) ;;;
  (match t with
   | number => number_validations field value
   | _ => Ok tt
   end) ;;;
  (match t with
   | select | radio => select_validations field value
   | _ => Ok tt
   end) ;;;
  (match t with
   | multi_select => multi_select_validations field value
   | _ => Ok tt
   end).

(** One turn of the loop [for field_name, field in fields.items()]. *)
Definition validate_field (responses : Dict JSON)
    (item : string * FormField.t) : Result unit :=
  let '(field_name, field) := item in
  let is_required :=
    dict_get_default (FormField.config field) "required" (JBool false) in
  raise_if (truthy is_required && negb (dict_has responses field_name))
           (ValidationError (FieldRequired (FormField.label field))) ;;;
  match dict_get responses field_name with
  | Some value => _validate_field_value field value
  | None => Ok tt
  end.

(** The loop of [validate] over [fields.items()]. *)
Fixpoint validate_fields (items : Dict FormField.t) (responses : Dict JSON)
  : Result unit :=
  match items with
  | [] => Ok tt
  | item :: rest =>
      validate_field responses item ;;;
      validate_fields rest responses
  end.

(** [validate]: [version.fields] on the [None] a form without current
    version has is an [AttributeError]. *)
Definition validate (data : Data) (w : World) : Result Data :=
  match get_row Form.id (form_id data) (db_forms w) with
  | None => Raise DoesNotExist
  | Some form =>
      match Form.current_version form with
      | None => Raise AttributeError
      | Some version =>
          let fields := fields_by_name (version_fields version w) in
          validate_fields fields (responses data) ;;;
          Ok data
      end
  end.

(** [is_valid]: the field validators, then [validate]. *)
Definition run_validation (data : Data) (w : World) : Result Data :=
  validate_form_id (form_id data) w ;;;
  validate data w.

(** *** [create]

    No function of the application opens a transaction, so every
    statement [create] issues is committed on its own: the world after
    each statement is recorded in a trace.  The database may refuse a
    statement; [db_fails k] tells whether it refuses the [k]-th insert
    into the responses table issued by this call. *)

Record Run (A : Type) : Type := mkRun {
  result : Result A;
  final : World;
  trace : list World
}.
Arguments mkRun {A} result final trace.
Arguments result {A} r.
Arguments final {A} r.
Arguments trace {A} r.

(** [FieldResponse.objects.create(submission=..., field=..., value=...)];
    [unique_together = ['submission', 'field']]. *)
Definition FieldResponse_objects_create (refused : bool)
    (submission field : UUID) (value : JSON) (w : World) : Result World :=
  if refused then Raise DatabaseError
  else if existsb (fun r => N.eqb (FieldResponse.submission r) submission
                            && N.eqb (FieldResponse.field r) field)
                  (db_responses w)
  then Raise IntegrityError
  else
    let '(i, w1) := uuid4 w in
    Ok (set_responses w1 (db_responses w1
                          ++ [FieldResponse.mk i submission field value])).

(** [for field_name, value in validated_data['responses'].items(): ...] *)
Fixpoint create_responses (db_fails : nat -> bool) (k : nat)
    (submission : UUID) (fields : Dict FormField.t)
    (items : Dict JSON) (w : World) : Run unit :=
  match items with
  | [] => mkRun (Ok tt) w []
  | (field_name, value) :: rest =>
      match dict_get fields field_name with
      | Some field =>
          match FieldResponse_objects_create (db_fails k) submission
                  (FormField.id field) value w with
          | Ok w1 =>
              let r := create_responses db_fails (S k) submission fields rest w1 in
              mkRun (result r) (final r) (w1 :: trace r)
          | Raise e => mkRun (Raise e) w []
          end
      | None => create_responses db_fails k submission fields rest w
      end
  end.

(** [FormSubmission.objects.create(form_version=version,
    submitted_by=user, status=...)]; the other columns take their
    defaults. *)
Definition FormSubmission_objects_create (version : UUID) (user : User)
    (status : Status) (w : World) : FormSubmission.t * World :=
  let '(i, w1) := uuid4 w in
  let s := FormSubmission.mk i version (Some (user_pk user)) status
                             None None None (Text "") in
  (s, set_submissions w1 (db_submissions w1 ++ [s])).

(** [submission.save()] *)
Definition FormSubmission_save (s : FormSubmission.t) (w : World) : World :=
  set_submissions w (save_row FormSubmission.id s (db_submissions w)).

Definition set_submitted_at (s : FormSubmission.t) (t : option Z)
  : FormSubmission.t :=
  FormSubmission.mk (FormSubmission.id s) (FormSubmission.form_version s)
    (FormSubmission.submitted_by s) (FormSubmission.status s) t
    (FormSubmission.reviewed_by s) (FormSubmission.reviewed_at s)
    (FormSubmission.review_notes s).

Definition create (db_fails : nat -> bool) (validated_data : Data)
    (user : User) (w : World) : Run FormSubmission.t :=
  match get_row Form.id (form_id validated_data) (db_forms w) with
  | None => mkRun (Raise DoesNotExist) w []
  | Some form =>
      match Form.current_version form with
      | None =>
          (* [FormSubmission.objects.create(form_version=None, ...)]:
             the column is not nullable *)
          mkRun (Raise IntegrityError) w []
      | Some version =>
          let '(submission, w1) :=
            FormSubmission_objects_create version user (status validated_data) w in
          let '(submission, w2, tr) :=
            match status validated_data with
            | submitted =>
                let '(now, w') := timezone_now w1 in
                let s := set_submitted_at submission (Some now) in
                let w'' := FormSubmission_save s w' in
                (s, w'', [w1; w''])
            | _ => (submission, w1, [w1])
            end in
          let fields := fields_by_name (version_fields version w2) in
          let r := create_responses db_fails 0 (FormSubmission.id submission)
                                    fields (responses validated_data) w2 in
          mkRun (match result r with
                 | Ok _ => Ok submission
                 | Raise e => Raise e
                 end)
                (final r) (tr ++ trace r)
      end
  end.

End FormSubmissionCreateSerializer.

(** ** views.py *)

(** The body of an error response, one constructor per message. *)
Inductive Error : Type :=
| NotFound                          (* raised by [get_object] *)
| NotAuthorized                     (* refused by [permission_classes] *)
| PermissionDenied                  (* 'Permission denied' *)
| OnlyDraftCanBeSubmitted           (* 'Only draft submissions can be submitted' *)
| InvalidStatus                     (* 'Invalid status' *)
| UploadFieldsRequired              (* 'field_response_id and file are required' *)
| NoFileUploads                     (* 'Field does not support file uploads' *)
| FileSizeExceeds (max_size_mb : JSON)
                                    (* f'File size exceeds {max_size_mb}MB limit' *)
| FileTypeNotAllowed (accept : string)
                                    (* f'File type not allowed. Accepted: {accept}' *)
| MaximumFiles (max_files : JSON)   (* f'Maximum {max_files} files allowed' *)
| FieldResponseNotFound.            (* 'Field response not found' *)

(** What an action answers with.  [Unhandled e] is no answer of the
    action: the exception [e] leaves it, and the server answers 500. *)
Inductive Body : Type :=
| ErrorBody (e : Error)
| SubmissionBody (s : FormSubmission.t)
| FileUploadBody (f : FileUpload.t)
| Unhandled (e : Exn).

Record Response : Type := mkResponse {
  body : Body;
  status_code : Z
}.

Definition HTTP_200_OK : Z := 200.
Definition HTTP_201_CREATED : Z := 201.
Definition HTTP_400_BAD_REQUEST : Z := 400.
Definition HTTP_403_FORBIDDEN : Z := 403.
Definition HTTP_404_NOT_FOUND : Z := 404.
Definition HTTP_500_INTERNAL_SERVER_ERROR : Z := 500.

(** [submission.submitted_by != request.user] *)
Definition is_other_user (owner : option UserId) (user : User) : bool :=
  match owner with
  | Some o => negb (N.eqb o (user_pk user))
  | None => true
  end.

(** [send_submission_notification.delay(str(submission.id))] *)
Definition send_submission_notification_delay (submission : UUID) (w : World)
  : World :=
  set_notifications w (db_notifications w ++ [submission]).

Module FormSubmissionViewSet.

(** [get_queryset]: a user who is not staff sees their own submissions. *)
Definition get_queryset (user : User) (w : World) : list FormSubmission.t :=
  if negb (is_staff user)
  then filter (fun s => negb (is_other_user (FormSubmission.submitted_by s) user))
              (db_submissions w)
  else db_submissions w.

(** [get_object] *)
Definition get_object (user : User) (pk : UUID) (w : World)
  : option FormSubmission.t :=
  get_row FormSubmission.id pk (get_queryset user w).

(** [perform_create] behind a valid serializer. *)
Definition perform_create (db_fails : nat -> bool)
    (validated_data : FormSubmissionCreateSerializer.Data) (user : User)
    (w : World) : FormSubmissionCreateSerializer.Run FormSubmission.t :=
  let r := FormSubmissionCreateSerializer.create db_fails validated_data user w in
  match FormSubmissionCreateSerializer.result r with
  | Ok submission =>
      match FormSubmission.status submission with
      | submitted =>
          let w' := send_submission_notification_delay
                      (FormSubmission.id submission)
                      (FormSubmissionCreateSerializer.final r) in
          FormSubmissionCreateSerializer.mkRun (Ok submission) w'
            (FormSubmissionCreateSerializer.trace r)
      | _ => r
      end
  | Raise _ => r
  end.

Definition mark_submitted (s : FormSubmission.t) (now : Z) : FormSubmission.t :=
  FormSubmission.mk (FormSubmission.id s) (FormSubmission.form_version s)
    (FormSubmission.submitted_by s) submitted (Some now)
    (FormSubmission.reviewed_by s) (FormSubmission.reviewed_at s)
    (FormSubmission.review_notes s).

(** The [submit] action. *)
Definition submit (user : User) (pk : UUID) (w : World) : Response * World :=
  match get_object user pk w with
  | None => (mkResponse (ErrorBody NotFound) HTTP_404_NOT_FOUND, w)
  | Some submission =>
      if is_other_user (FormSubmission.submitted_by submission) user
         && negb (is_staff user)
      then (mkResponse (ErrorBody PermissionDenied) HTTP_403_FORBIDDEN, w)
      else
        match FormSubmission.status submission with
        | draft =>
            let '(now, w1) := timezone_now w in
            let submission := mark_submitted submission now in
            let w2 := FormSubmissionCreateSerializer.FormSubmission_save
                        submission w1 in
            let w3 := send_submission_notification_delay
                        (FormSubmission.id submission) w2 in
            (mkResponse (SubmissionBody submission) HTTP_200_OK, w3)
        | _ =>
            (mkResponse (ErrorBody OnlyDraftCanBeSubmitted)
                        HTTP_400_BAD_REQUEST, w)
        end
  end.

(** [new_status not in ['under_review', 'approved', 'rejected']]: the
    status the request names, when it is one of the three. *)
Definition review_status (new_status : JSON) : option Status :=
  match new_status with
  | JStr s =>
      if String.eqb s "under_review" then Some under_review
      else if String.eqb s "approved" then Some approved
      else if String.eqb s "rejected" then Some rejected
      else None
  | _ => None
  end.

Definition mark_reviewed (s : FormSubmission.t) (new_status : Status)
    (reviewer : User) (now : Z) (review_notes : TextValue) : FormSubmission.t :=
  FormSubmission.mk (FormSubmission.id s) (FormSubmission.form_version s)
    (FormSubmission.submitted_by s) new_status (FormSubmission.submitted_at s)
    (Some (user_pk reviewer)) (Some now) review_notes.

(** An exception leaves the action: nothing was written. *)
Definition unhandled (e : Exn) (w : World) : Response * World :=
  (mkResponse (Unhandled e) HTTP_500_INTERNAL_SERVER_ERROR, w).

(** The [review] action, [permission_classes=[IsAdminUser]];
    [data] is [request.data].  [review_notes] is a [TextField] that is
    not nullable: [submission.save()] raises [IntegrityError] on [None],
    stores a text as it is and [str(v)] for any other object; the
    database refuses a text with a NUL character.  The answer shows the
    submission through the serializer, with the notes as stored. *)
Definition review (user : User) (data : Dict JSON) (pk : UUID) (w : World)
  : Response * World :=
  if negb (is_staff user)
  then (mkResponse (ErrorBody NotAuthorized) HTTP_403_FORBIDDEN, w)
  else
    match get_object user pk w with
    | None => (mkResponse (ErrorBody NotFound) HTTP_404_NOT_FOUND, w)
    | Some submission =>
        let new_status := dict_get_default data "status" JNull in
        let review_notes := dict_get_default data "review_notes" (JStr "") in
        match review_status new_status with
        | None => (mkResponse (ErrorBody InvalidStatus) HTTP_400_BAD_REQUEST, w)
        | Some new_status =>
            let '(now, w1) := timezone_now w in
            match TextField_get_prep_value review_notes with
            | None => unhandled IntegrityError w
            | Some notes =>
                if has_nul notes then unhandled NulCharacter w
                else
                  let submission :=
                    mark_reviewed submission new_status user now notes in
                  let w2 := FormSubmissionCreateSerializer.FormSubmission_save
                              submission w1 in
                  (mkResponse (SubmissionBody submission) HTTP_200_OK, w2)
            end
        end
    end.

End FormSubmissionViewSet.

(** *** String helpers of the upload view *)

(** [s.split(sep)] for a one-character separator. *)
Fixpoint split_on (sep : ascii) (s : string) : list string :=
  match s with
  | EmptyString => [EmptyString]
  | String c s' =>
      if Ascii.eqb c sep then EmptyString :: split_on sep s'
      else match split_on sep s' with
           | [] => [String c EmptyString]
           | piece :: pieces => String c piece :: pieces
           end
  end.

(** [c.isspace()] for a code point below 256. *)
Definition is_space (c : ascii) : bool :=
  let n := nat_of_ascii c in
  ((9 <=? n) && (n <=? 13) || (28 <=? n) && (n <=? 32)
   || (n =? 133) || (n =? 160))%nat.

Fixpoint lstrip (s : string) : string :=
  match s with
  | EmptyString => EmptyString
  | String c s' => if is_space c then lstrip s' else s
  end.

Fixpoint rstrip (s : string) : string :=
  match s with
  | EmptyString => EmptyString
  | String c s' =>
      match rstrip s' with
      | EmptyString => if is_space c then EmptyString else String c EmptyString
      | r => String c r
      end
  end.

(** [s.strip()] *)
Definition strip (s : string) : string := rstrip (lstrip s).

(** [s.replace(c, '')] for a one-character [c]. *)
Fixpoint remove_char (c : ascii) (s : string) : string :=
  match s with
  | EmptyString => EmptyString
  | String c' s' =>
      if Ascii.eqb c' c then remove_char c s' else String c' (remove_char c s')
  end.

(** [s.endswith(t)] *)
Definition endswith (s t : string) : bool :=
  let n := String.length s in
  let m := String.length t in
  (m <=? n)%nat && String.eqb (substring (n - m) m s) t.

Module FileUploadViewSet.

(** [field_response_id] and [file] of the request, when present. *)
Record Request : Type := mkRequest {
  field_response_id : option UUID;
  file_obj : option UploadedFile
}.

(** [max_size_mb * 1024 * 1024] followed by [file_obj.size > max_size_bytes]:
    on a number the product is a number; on anything else either the
    product or the comparison is a [TypeError]. *)
Definition exceeds_max_size (size : Z) (max_size_mb : JSON) : Result bool :=
  match num_of max_size_mb with
  | Some q => py_gt (JInt size) (JFloat (q * 1024 * 1024))
  | None => Raise TypeError
  end.

(** [any(file_obj.name.endswith(t.replace('*', '')) for t in allowed_types)]
    with [allowed_types = [t.strip() for t in accept.split(',')]]. *)
Definition type_allowed (name accept : string) : bool :=
  let allowed_types := map strip (split_on "," accept) in
  existsb (fun t => endswith name (remove_char "*" t)) allowed_types.

(** The accept check; [accept.split] on a truthy value that is not a
    string is an [AttributeError]. *)
Definition accept_refuses (name : string) (accept : JSON) : Result (option string) :=
  if truthy accept
  then match accept with
       | JStr a => Ok (if type_allowed name a then None else Some a)
       | _ => Raise AttributeError
       end
  else Ok None.

(** [field_response.files.count()] *)
Definition files_count (field_response : UUID) (w : World) : Z :=
  Z.of_nat (List.length
    (filter (fun f => N.eqb (FileUpload.field_response f) field_response)
            (db_files w))).

(** [FieldResponse.objects.select_related('submission', 'field').get(id=...)]:
    the response joined with its submission and its field. *)
Definition get_field_response (i : UUID) (w : World)
  : option (FieldResponse.t * FormSubmission.t * FormField.t) :=
  match get_row FieldResponse.id i (db_responses w) with
  | Some r =>
      match get_row FormSubmission.id (FieldResponse.submission r)
                    (db_submissions w),
            get_row FormField.id (FieldResponse.field r) (db_fields w) with
      | Some s, Some f => Some (r, s, f)
      | _, _ => None
      end
  | None => None
  end.

Definition bad_request (e : Error) (w : World) : Result (Response * World) :=
  Ok (mkResponse (ErrorBody e) HTTP_400_BAD_REQUEST, w).

(** [FileUpload.objects.create(field_response=..., file=file_obj,
    original_filename=file_obj.name, file_size=file_obj.size,
    mime_type=file_obj.content_type)].  The file goes to the storage
    first, which is outside this application: [storage_refuses] tells
    whether it refuses the file (no valid name can be derived from the
    name of the file).  The insert then raises when a text holds a NUL
    character, and [DataError] when a value does not fit its column:
    [original_filename] has 255 characters, [file_size] is a
    [PositiveIntegerField], [mime_type] has 100 characters. *)
Definition FileUpload_objects_create (storage_refuses : UploadedFile -> bool)
    (field_response : UUID) (file_obj : UploadedFile) (w : World)
  : Result (FileUpload.t * World) :=
  if storage_refuses file_obj then Raise SuspiciousFileOperation
  else if str_has_nul (upload_name file_obj)
          || str_has_nul (upload_content_type file_obj)
  then Raise NulCharacter
  else if (255 <? String.length (upload_name file_obj))%nat
          || (MAX_INTEGER <? upload_size file_obj)
          || (100 <? String.length (upload_content_type file_obj))%nat
  then Raise DataError
  else
    let '(i, w1) := uuid4 w in
    let file_upload :=
      FileUpload.mk i field_response (upload_name file_obj)
                    (upload_size file_obj) (upload_content_type file_obj) in
    Ok (file_upload, set_files w1 (db_files w1 ++ [file_upload])).

(** [FileUploadViewSet.create] *)
Definition create (storage_refuses : UploadedFile -> bool) (user : User)
    (request : Request) (w : World) : Result (Response * World) :=
  match field_response_id request, file_obj request with
  | Some field_response_id, Some file_obj =>
      if String.eqb (upload_name file_obj) ""
      then bad_request UploadFieldsRequired w
      else
      match get_field_response field_response_id w with
      | None =>
          Ok (mkResponse (ErrorBody FieldResponseNotFound) HTTP_404_NOT_FOUND, w)
      | Some (field_response, submission, field) =>
          let config := FormField.config field in
          if is_other_user (FormSubmission.submitted_by submission) user
             && negb (is_staff user)
          then Ok (mkResponse (ErrorBody PermissionDenied) HTTP_403_FORBIDDEN, w)
          else
          match FormField.field_type field with
          | file | multi_file =>
              let max_size_mb := dict_get_default config "max_size_mb" (JInt 10) in
              too_big <- exceeds_max_size (upload_size file_obj) max_size_mb ;;
              if too_big then bad_request (FileSizeExceeds max_size_mb) w
              else
              let accept := dict_get_default config "accept" (JStr "") in
              refused <- accept_refuses (upload_name file_obj) accept ;;
              match refused with
              | Some a => bad_request (FileTypeNotAllowed a) w
              | None =>
                  let max_files := dict_get_default config "max_files" (JInt 5) in
                  full <- match FormField.field_type field with
                          | multi_file =>
                              py_ge (JInt (files_count
                                      (FieldResponse.id field_response) w))
                                    max_files
                          | _ => Ok false
                          end ;;
                  if full then bad_request (MaximumFiles max_files) w
                  else
                    r <- FileUpload_objects_create storage_refuses
                           (FieldResponse.id field_response) file_obj w ;;
                    let '(file_upload, w1) := r in
                    Ok (mkResponse (FileUploadBody file_upload) HTTP_201_CREATED,
                        w1)
              end
          | _ => bad_request NoFileUploads w
          end
      end
  | _, _ => bad_request UploadFieldsRequired w
  end.

End FileUploadViewSet.


(** ** serializers.py: [FormListSerializer] *)

Module FormListSerializer.

(** [get_submission_count]: the submissions of the current version. *)
Definition get_submission_count (obj : Form.t) (w : World) : Z :=
  match Form.current_version obj with
  | Some version =>
      Z.of_nat (List.length
        (filter (fun s => N.eqb (FormSubmission.form_version s) version)
                (db_submissions w)))
  | None => 0
  end.

End FormListSerializer.

(** ** views.py: [FormViewSet] *)

Module FormViewSet.

(** [get_queryset]: a user who is not staff sees the active forms. *)
Definition get_queryset (user : User) (w : World) : list Form.t :=
  if negb (is_staff user)
  then filter Form.is_active (db_forms w)
  else db_forms w.

(** [get_object] *)
Definition get_object (user : User) (pk : UUID) (w : World) : option Form.t :=
  get_row Form.id pk (get_queryset user w).

(** [FormSubmission.objects.filter(form_version__form=form)]: the
    submissions whose version belongs to the form. *)
Definition form_submissions (form : Form.t) (w : World) : list FormSubmission.t :=
  filter (fun s =>
            match get_row FormVersion.id (FormSubmission.form_version s)
                          (db_versions w) with
            | Some v => N.eqb (FormVersion.form v) (Form.id form)
            | None => false
            end)
         (db_submissions w).

(** ['total_submissions'] of the [analytics] action. *)
Definition total_submissions (form : Form.t) (w : World) : Z :=
  Z.of_nat (List.length (form_submissions form w)).

(** What the [duplicate] action ends in: a response, or an exception
    that leaves the view. *)
Inductive DuplicateResult : Type :=
| DuplicateNotAuthorized            (* 403, refused by [IsAdminOrReadOnly] *)
| DuplicateNotFound                 (* 404, raised by [get_object] *)
| DuplicateCreated (new_form : Form.t)
                                    (* 201 with the new form *)
| DuplicateIntegrityError           (* the name of the copy is taken *)
| DuplicateDataError                (* a value does not fit its column: the
                                       name of the copy exceeds 255
                                       characters *)
| DuplicateNameError.               (* [FormField] is not a name of views.py *)

(** [Form.objects.create(name=..., description=..., created_by=...,
    is_active=False)]: [name] is a unique [CharField(max_length=255)]. *)
Definition copy_form (original : Form.t) (user : User) (w : World)
  : Form.t * World :=
  let '(i, w1) := uuid4 w in
  let new_form := Form.mk i (Form.name original ++ " (Copy)")
                          (Form.description original) (Some (user_pk user))
                          false None [] None in
  (new_form, set_forms w1 (db_forms w1 ++ [new_form])).

(** The [duplicate] action.  views.py imports [Form], [FormVersion],
    [FormSubmission], [FieldResponse] and [FileUpload] from the models,
    not [FormField]: the first turn of the loop that copies the fields
    raises [NameError].  What was written before stays. *)
Definition duplicate (user : User) (pk : UUID) (w : World)
  : DuplicateResult * World :=
  if negb (is_staff user) then (DuplicateNotAuthorized, w)
  else
    match get_object user pk w with
    | None => (DuplicateNotFound, w)
    | Some original_form =>
        let name := (Form.name original_form ++ " (Copy)")%string in
        if (255 <? String.length name)%nat then (DuplicateDataError, w)
        else if existsb (fun f => String.eqb (Form.name f) name) (db_forms w)
        then (DuplicateIntegrityError, w)
        else
          let '(new_form, w1) := copy_form original_form user w in
          match create_new_version new_form w1 with
          | Raise DataError => (DuplicateDataError, w1)
          | Raise _ => (DuplicateIntegrityError, w1)
          | Ok (new_version, new_form, w2) =>
              match Form.current_version original_form with
              | Some version =>
                  match version_fields version w2 with
                  | [] => (DuplicateCreated new_form, w2)
                  | _ :: _ => (DuplicateNameError, w2)
                  end
              | None => (DuplicateCreated new_form, w2)
              end
          end
    end.

End FormViewSet.

(** ** tasks.py *)

Inductive Channel : Type := channel_email | channel_webhook | channel_slack.

Inductive LogStatus : Type := log_pending | log_sent | log_failed.

(** The exceptions met in the tasks.  A log keeps [str(e)] of one of
    them in [error_message]. *)
Inductive TaskExn : Type :=
| TaskDoesNotExist            (* [FormSubmission.DoesNotExist] *)
| TaskAttributeError          (* ['NoneType' object has no attribute 'get_full_name'] *)
| TaskDatabaseError           (* the database refuses a row *)
| TaskUnboundLocalError       (* [log] read before any assignment *)
| TaskDeliveryError (message : string).
                              (* raised by the templates, the mail backend
                                 or the request *)

Inductive TaskResult : Type :=
| Done
| Raised (e : TaskExn).

Module NotificationLog.
(** [error_message] is [None] for the empty text and [Some e] for
    [str(e)]. *)
Record t : Type := mk {
  id : UUID;
  submission : UUID;
  channel : Channel;
  recipient : string;
  status : LogStatus;
  attempts : Z;
  error_message : option TaskExn;
  sent_at : option Z;
  created_at : Z
}.

(** [log.status = 'sent'; log.sent_at = timezone.now(); log.attempts += 1] *)
Definition mark_sent (l : t) (now : Z) : t :=
  mk (id l) (submission l) (channel l) (recipient l) log_sent (attempts l + 1)
     (error_message l) (Some now) (created_at l).

(** [log.status = 'failed'; log.error_message = str(e); log.attempts += 1] *)
Definition mark_failed (l : t) (e : TaskExn) : t :=
  mk (id l) (submission l) (channel l) (recipient l) log_failed (attempts l + 1)
     (Some e) (sent_at l) (created_at l).
End NotificationLog.

(** The database of the tasks: the world and the notification logs. *)
Record TaskWorld : Type := mkTaskWorld {
  tw_world : World;
  tw_logs : list NotificationLog.t
}.

(** What the outside does during a task.  For a recipient, or a webhook
    address: [None] when the mail (the request) goes through and the text
    of the exception otherwise; and whether the database refuses to
    insert a log for a recipient ([recipient] is a
    [CharField(max_length=255)]). *)
Record Outside : Type := mkOutside {
  mail_error : string -> option string;
  webhook_error : string -> option string;
  log_refused : string -> bool
}.

Module Tasks.

(** [NotificationLog.objects.create(...)]; [None] when the database
    raises. *)
Definition NotificationLog_objects_create (env : Outside) (submission : UUID)
    (channel : Channel) (recipient : string) (status : LogStatus)
    (error : option TaskExn) (attempts : Z) (tw : TaskWorld)
  : option (NotificationLog.t * TaskWorld) :=
  if log_refused env recipient then None
  else
    let '(i, w1) := uuid4 (tw_world tw) in
    let '(now, w2) := timezone_now w1 in
    let log := NotificationLog.mk i submission channel recipient status attempts
                                  error None now in
    Some (log, mkTaskWorld w2 (tw_logs tw ++ [log])).

(** [log.save()] *)
Definition NotificationLog_save (log : NotificationLog.t) (tw : TaskWorld)
  : TaskWorld :=
  mkTaskWorld (tw_world tw) (save_row NotificationLog.id log (tw_logs tw)).

(** The end of a [try] body: the log is marked as sent and saved. *)
Definition log_sent_now (log : NotificationLog.t) (tw : TaskWorld)
  : NotificationLog.t * TaskWorld :=
  let '(now, w1) := timezone_now (tw_world tw) in
  let log' := NotificationLog.mark_sent log now in
  (log', NotificationLog_save log' (mkTaskWorld w1 (tw_logs tw))).

(** The [except] branches: the log is marked as failed and saved. *)
Definition log_failure (log : NotificationLog.t) (e : TaskExn) (tw : TaskWorld)
  : NotificationLog.t * TaskWorld :=
  let log' := NotificationLog.mark_failed log e in
  (log', NotificationLog_save log' tw).

(** What the body of the [try] of [send_email_notification] raises after
    the log is created, if anything:
    [submission.submitted_by.get_full_name()] on a submission without
    submitter, or what rendering and sending raise. *)
Definition email_failure (env : Outside) (submission : FormSubmission.t)
    (recipient : string) : option TaskExn :=
  match FormSubmission.submitted_by submission with
  | None => Some TaskAttributeError
  | Some _ => option_map TaskDeliveryError (mail_error env recipient)
  end.

(** One turn of the loop of [send_email_notification].  [log] is the
    local variable of that name: unbound before the first assignment, and
    bound to the log of an earlier turn afterwards. *)
Definition send_one_email (env : Outside) (submission : FormSubmission.t)
    (recipient : string) (log : option NotificationLog.t) (tw : TaskWorld)
  : TaskResult * option NotificationLog.t * TaskWorld :=
  match NotificationLog_objects_create env (FormSubmission.id submission)
          channel_email recipient log_pending None 0 tw with
  | Some (new_log, tw1) =>
      match email_failure env submission recipient with
      | None =>
          let '(log', tw2) := log_sent_now new_log tw1 in (Done, Some log', tw2)
      | Some e =>
          let '(log', tw2) := log_failure new_log e tw1 in (Done, Some log', tw2)
      end
  | None =>
      match log with
      | None => (Raised TaskUnboundLocalError, None, tw)
      | Some old =>
          let '(log', tw1) := log_failure old TaskDatabaseError tw in
          (Done, Some log', tw1)
      end
  end.

Fixpoint send_each_email (env : Outside) (submission : FormSubmission.t)
    (recipients : list string) (log : option NotificationLog.t) (tw : TaskWorld)
  : TaskResult * TaskWorld :=
  match recipients with
  | [] => (Done, tw)
  | recipient :: rest =>
      match send_one_email env submission recipient log tw with
      | (Done, log', tw1) => send_each_email env submission rest log' tw1
      | (Raised e, _, tw1) => (Raised e, tw1)
      end
  end.

(** [send_email_notification] *)
Definition send_email_notification (env : Outside) (submission : FormSubmission.t)
    (recipients : list string) (tw : TaskWorld) : TaskResult * TaskWorld :=
  send_each_email env submission recipients None tw.

(** [send_webhook_notification]: it raises again what the request
    raised. *)
Definition send_webhook_notification (env : Outside)
    (submission : FormSubmission.t) (webhook_url : string) (tw : TaskWorld)
  : TaskResult * TaskWorld :=
  match NotificationLog_objects_create env (FormSubmission.id submission)
          channel_webhook webhook_url log_pending None 0 tw with
  | Some (log, tw1) =>
      match webhook_error env webhook_url with
      | None => (Done, snd (log_sent_now log tw1))
      | Some message =>
          (Raised (TaskDeliveryError message),
           snd (log_failure log (TaskDeliveryError message) tw1))
      end
  | None => (Raised TaskUnboundLocalError, tw)
  end.

(** [FormSubmission.objects.select_related('form_version__form',
    'submitted_by').get(id=submission_id)] with
    [submission.form_version.form]. *)
Definition get_submission_and_form (submission_id : UUID) (w : World)
  : option (FormSubmission.t * Form.t) :=
  match get_row FormSubmission.id submission_id (db_submissions w) with
  | Some s =>
      match get_row FormVersion.id (FormSubmission.form_version s) (db_versions w) with
      | Some v =>
          match get_row Form.id (FormVersion.form v) (db_forms w) with
          | Some f => Some (s, f)
          | None => None
          end
      | None => None
      end
  | None => None
  end.

(** The second [except] of [send_submission_notification]: the failure
    is logged and the exception raised again. *)
Definition log_task_failure (env : Outside) (retries : Z) (submission_id : UUID)
    (e : TaskExn) (tw : TaskWorld) : TaskResult * TaskWorld :=
  match NotificationLog_objects_create env submission_id channel_email "system"
          log_failed (Some e) (retries + 1) tw with
  | Some (_, tw1) => (Raised e, tw1)
  | None => (Raised TaskDatabaseError, tw)
  end.

(** [send_submission_notification]; [retries] is [self.request.retries]. *)
Definition send_submission_notification (env : Outside) (retries : Z)
    (submission_id : UUID) (tw : TaskWorld) : TaskResult * TaskWorld :=
  match get_submission_and_form submission_id (tw_world tw) with
  | None => (Raised TaskDoesNotExist, tw)
  | Some (submission, form) =>
      let '(r1, tw1) :=
        match Form.notification_emails form with
        | [] => (Done, tw)
        | recipients => send_email_notification env submission recipients tw
        end in
      match r1 with
      | Raised e => log_task_failure env retries submission_id e tw1
      | Done =>
          let '(r2, tw2) :=
            match Form.webhook_url form with
            | Some url =>
                if String.eqb url "" then (Done, tw1)
                else send_webhook_notification env submission url tw1
            | None => (Done, tw1)
            end in
          match r2 with
          | Raised e => log_task_failure env retries submission_id e tw2
          | Done => (Done, tw2)
          end
      end
  end.

(** [NotificationLog.objects.filter(status='failed', attempts__lt=3)],
    in the default ordering [['-created_at']]. *)
Definition is_failed_notification (l : NotificationLog.t) : bool :=
  match NotificationLog.status l with
  | log_failed => NotificationLog.attempts l <? 3
  | _ => false
  end.

Definition failed_notifications (tw : TaskWorld) : list NotificationLog.t :=
  sort_by (fun a b => NotificationLog.created_at b <=? NotificationLog.created_at a)
    (filter is_failed_notification (tw_logs tw)).

(** One turn of the loop of [retry_failed_notifications]: whether the
    turn reaches [retry_count += 1], and the world after it.  An
    exception in the turn is caught. *)
Definition retry_one (env : Outside) (notification : NotificationLog.t)
    (tw : TaskWorld) : bool * TaskWorld :=
  match get_row FormSubmission.id (NotificationLog.submission notification)
                (db_submissions (tw_world tw)) with
  | None => (false, tw)
  | Some submission =>
      match NotificationLog.channel notification with
      | channel_email =>
          match send_email_notification env submission
                  [NotificationLog.recipient notification] tw with
          | (Done, tw1) => (true, tw1)
          | (Raised _, tw1) => (false, tw1)
          end
      | channel_webhook =>
          match send_webhook_notification env submission
                  (NotificationLog.recipient notification) tw with
          | (Done, tw1) => (true, tw1)
          | (Raised _, tw1) => (false, tw1)
          end
      | channel_slack => (true, tw)
      end
  end.

Fixpoint retry_each (env : Outside) (notifications : list NotificationLog.t)
    (retry_count : Z) (tw : TaskWorld) : Z * TaskWorld :=
  match notifications with
  | [] => (retry_count, tw)
  | notification :: rest =>
      let '(counted, tw1) := retry_one env notification tw in
      retry_each env rest (if counted then retry_count + 1 else retry_count) tw1
  end.

(** [retry_failed_notifications] *)
Definition retry_failed_notifications (env : Outside) (tw : TaskWorld)
  : Z * TaskWorld :=
  retry_each env (failed_notifications tw) 0 tw.

End Tasks.
(** ** Vocabulary of the statements *)

(** [n] successive calls of [create_new_version] on the same instance,
    with the version returned, the instance and the world after each. *)
Fixpoint create_versions (n : nat) (self : Form.t) (w : World)
  : Result (list (FormVersion.t * Form.t * World)) :=
  match n with
  | O => Ok []
  | S n' =>
      r <- create_new_version self w ;;
      let '(v, self1, w1) := r in
      rest <- create_versions n' self1 w1 ;;
      Ok ((v, self1, w1) :: rest)
  end.

(** The numbers [1; 2; ...; n]. *)
Definition one_to (n : nat) : list Z := map Z.of_nat (seq 1 n).

(** The [current_version] column of the stored row of a form. *)
Definition stored_current_version (form_id : UUID) (w : World)
  : option (option UUID) :=
  option_map Form.current_version (get_row Form.id form_id (db_forms w)).

(** The number [create_new_version] computes: one more than the highest
    number among the given versions, 1 when there are none. *)
Definition next_version_number (vs : list FormVersion.t) : Z :=
  match first_by_version_number_desc vs with
  | Some last => FormVersion.version_number last + 1
  | None => 1
  end.

(** The world [create_new_version] leaves when it returns: one appended
    version row and the saved form row. *)
Definition world_after_new_version (self : Form.t) (w : World) : World :=
  mkWorld (save_row Form.id (Form.set_current_version self (Some (next_uuid w)))
                    (db_forms w))
          (db_versions w
           ++ [FormVersion.mk (next_uuid w) (Form.id self)
                 (next_version_number (versions_of (Form.id self) w)) (JObj [])])
          (db_fields w) (db_rules w) (db_submissions w) (db_responses w)
          (db_files w) (db_notifications w) (N.succ (next_uuid w)) (clock w).


(** *** Sample data *)

Definition empty_world : World := mkWorld [] [] [] [] [] [] [] [] 1%N 0.

Definition alice : User := mkUser 1%N false.
Definition bob : User := mkUser 2%N false.
Definition admin : User := mkUser 3%N true.

(** A form that has been inserted without any version. *)
Definition kyc_form : Form.t :=
  Form.mk 100%N "KYC Form" "Know Your Customer form" (Some 3%N) true None [] None.

Definition kyc_world : World :=
  mkWorld [kyc_form] [] [] [] [] [] [] [] 1%N 0.

(** The world after one version of the sample form and one submission
    against it by the first user. *)
Definition submission_v1 : FormSubmission.t :=
  FormSubmission.mk 200%N 1%N (Some 1%N) submitted (Some 5) None None (Text "").

Definition world_v1 : World :=
  mkWorld [Form.set_current_version kyc_form (Some 1%N)]
          [FormVersion.mk 1%N 100%N 1 (JObj [])]
          [] [] [submission_v1] [] [] [] 2%N 6.

(** A world holding one submission of each kind used below, all made by
    the first user against version 1 of the sample form. *)
Definition draft_submission : FormSubmission.t :=
  FormSubmission.mk 201%N 1%N (Some 1%N) draft None None None (Text "").

Definition approved_submission : FormSubmission.t :=
  FormSubmission.mk 202%N 1%N (Some 1%N) approved (Some 5) (Some 3%N) (Some 7)
                    (Text "looks fine").

Definition review_world : World :=
  mkWorld [Form.set_current_version kyc_form (Some 1%N)]
          [FormVersion.mk 1%N 100%N 1 (JObj [])]
          [] [] [submission_v1; draft_submission; approved_submission]
          [] [] [] 2%N 10.

(** The field types [_validate_field_value] has no block for. *)
Definition unchecked (t : FieldType) : bool :=
  match t with
  | date | phone | checkbox | file | multi_file => true
  | _ => false
  end.

(** The same request data with another payload. *)
Definition with_responses (data : FormSubmissionCreateSerializer.Data)
    (responses : Dict JSON) : FormSubmissionCreateSerializer.Data :=
  FormSubmissionCreateSerializer.mkData
    (FormSubmissionCreateSerializer.form_id data) responses
    (FormSubmissionCreateSerializer.status data).

(** A JSON number, as opposed to [true], [false] and the other values. *)
Definition json_number (v : JSON) : option Q :=
  match v with
  | JInt z => Some (inject_Z z)
  | JFloat q => Some q
  | _ => None
  end.

(** A bound read from a field's configuration: absent (or null), or a
    number. *)
Definition as_bound (v : JSON) : option (option Q) :=
  match v with
  | JNull => Some None
  | _ => option_map Some (json_number v)
  end.

(** The form of the test suite: two required fields, [full_name] (text)
    and [email] (email), on version 1. *)
Definition full_name_field : FormField.t :=
  FormField.mk 10%N 1%N "full_name" "Full Name" text 1
               [("required", JBool true)] 1.

Definition email_field : FormField.t :=
  FormField.mk 11%N 1%N "email" "Email" email 2
               [("required", JBool true); ("max_length", JInt 255)] 2.

Definition signup_world : World :=
  mkWorld [Form.set_current_version kyc_form (Some 1%N)]
          [FormVersion.mk 1%N 100%N 1 (JObj [])]
          [full_name_field; email_field] [] [] [] [] [] 20%N 3.

Definition signup (responses : Dict JSON) : FormSubmissionCreateSerializer.Data :=
  FormSubmissionCreateSerializer.mkData 100%N responses submitted.

(** A required date field and a bounded number field, on a version of
    their own. *)
Definition birth_date_field : FormField.t :=
  FormField.mk 12%N 2%N "birth_date" "Date of birth" date 1
               [("required", JBool true)] 1.

Definition age_field : FormField.t :=
  FormField.mk 13%N 2%N "age" "Age" number 2
               [("min_value", JInt 18); ("max_value", JInt 100)] 2.

(** A number field with bounds 0 and 10. *)
Definition rating_field : FormField.t :=
  FormField.mk 14%N 2%N "rating" "Rating" number 3
               [("min_value", JInt 0); ("max_value", JInt 10)] 3.

(** [n] successive uploads of the same request, with the status code of
    each answer. *)
Fixpoint upload_times (storage_refuses : UploadedFile -> bool) (n : nat)
    (user : User) (request : FileUploadViewSet.Request) (w : World)
  : Result (list Z * World) :=
  match n with
  | O => Ok ([], w)
  | S n' =>
      r <- FileUploadViewSet.create storage_refuses user request w ;;
      rest <- upload_times storage_refuses n' user request (snd r) ;;
      Ok (status_code (fst r) :: fst rest, snd rest)
  end.

(** The storage and the database take the file: the storage does not
    refuse it, its name and content type hold no NUL character, and its
    name, size and content type fit their columns. *)
Definition storable (storage_refuses : UploadedFile -> bool) (up : UploadedFile)
  : bool :=
  negb (storage_refuses up)
  && negb (str_has_nul (upload_name up))
  && negb (str_has_nul (upload_content_type up))
  && (String.length (upload_name up) <=? 255)%nat
  && (upload_size up <=? MAX_INTEGER)
  && (String.length (upload_content_type up) <=? 100)%nat.

(** What the insert of the file row raises when the file is not taken. *)
Definition store_error (storage_refuses : UploadedFile -> bool)
    (up : UploadedFile) : Exn :=
  if storage_refuses up then SuspiciousFileOperation
  else if str_has_nul (upload_name up) || str_has_nul (upload_content_type up)
  then NulCharacter
  else DataError.

(** A storage that takes every file. *)
Definition any_file : UploadedFile -> bool := fun _ => false.

(** The row an accepted upload inserts, and the world it leaves. *)
Definition uploaded_row (w : World) (field_response : UUID) (up : UploadedFile)
  : FileUpload.t :=
  FileUpload.mk (next_uuid w) field_response (upload_name up) (upload_size up)
                (upload_content_type up).

Definition with_file (w : World) (row : FileUpload.t) : World :=
  mkWorld (db_forms w) (db_versions w) (db_fields w) (db_rules w)
          (db_submissions w) (db_responses w) (db_files w ++ [row])
          (db_notifications w) (N.succ (next_uuid w)) (clock w).

(** A multi_file field limited to two files of at most one megabyte, and
    a response to it in a draft submission of the first user. *)
Definition documents_field : FormField.t :=
  FormField.mk 16%N 1%N "documents" "Documents" multi_file 3
               [("max_files", JInt 2); ("max_size_mb", JInt 1);
                ("accept", JStr ".pdf, image/*")] 3.

Definition documents_response : FieldResponse.t :=
  FieldResponse.mk 300%N 201%N 16%N JNull.

Definition upload_world : World :=
  mkWorld [Form.set_current_version kyc_form (Some 1%N)]
          [FormVersion.mk 1%N 100%N 1 (JObj [])]
          [documents_field] [] [draft_submission] [documents_response]
          [] [] 400%N 10.

Definition passport_pdf : UploadedFile :=
  mkUploadedFile "passport.pdf" 1048576 "application/pdf".

Definition big_pdf : UploadedFile :=
  mkUploadedFile "scan.pdf" 1048577 "application/pdf".

Definition upload_of (up : UploadedFile) : FileUploadViewSet.Request :=
  FileUploadViewSet.mkRequest (Some 300%N) (Some up).

(** The hypotheses under which an upload reaches the size check: the
    request names a response and carries a named file, the response
    exists with its submission and field, the caller owns the submission
    or is staff, and the field takes files. *)
Definition reaches_size_check (user : User) (request : FileUploadViewSet.Request) (w : World)
    (up : UploadedFile) (r : FieldResponse.t) (f : FormField.t) : Prop :=
  exists rid s,
    FileUploadViewSet.field_response_id request = Some rid /\
    FileUploadViewSet.file_obj request = Some up /\
    upload_name up <> "" /\
    FileUploadViewSet.get_field_response rid w = Some (r, s, f) /\
    is_other_user (FormSubmission.submitted_by s) user && negb (is_staff user)
    = false /\
    (FormField.field_type f = file \/ FormField.field_type f = multi_file).


(** [submission.field_responses]: the responses of a submission. *)
Definition responses_of (i : UUID) (w : World) : list FieldResponse.t :=
  filter (fun r => N.eqb (FieldResponse.submission r) i) (db_responses w).


(** A response row without its own key. *)
Definition response_columns (r : FieldResponse.t) : UUID * UUID * JSON :=
  (FieldResponse.submission r, FieldResponse.field r, FieldResponse.value r).


(** A database that refuses no statement, and one that refuses the
    second insert of a response. *)
Definition no_failure : nat -> bool := fun _ => false.
Definition second_insert_fails : nat -> bool := fun k => Nat.eqb k 1.

Definition john : Dict JSON :=
  [("full_name", JStr "John Doe"); ("email", JStr "john@example.com")].

(** The rows and worlds [create] goes through before it turns to the
    responses: the submission as inserted, the submission as the instance
    holds it after the optional stamping, the world after the insert and
    the world after the optional save. *)
Definition inserted_submission (version : UUID) (user : User) (st : Status)
    (w : World) : FormSubmission.t :=
  FormSubmission.mk (next_uuid w) version (Some (user_pk user)) st
                    None None None (Text "").

Definition created_submission (version : UUID) (user : User) (st : Status)
    (w : World) : FormSubmission.t :=
  FormSubmission.mk (next_uuid w) version (Some (user_pk user)) st
                    (match st with submitted => Some (clock w) | _ => None end)
                    None None (Text "").

Definition world_inserted (version : UUID) (user : User) (st : Status)
    (w : World) : World :=
  mkWorld (db_forms w) (db_versions w) (db_fields w) (db_rules w)
          (db_submissions w ++ [inserted_submission version user st w])
          (db_responses w) (db_files w) (db_notifications w)
          (N.succ (next_uuid w)) (clock w).

Definition world_stamped (version : UUID) (user : User) (st : Status)
    (w : World) : World :=
  match st with
  | submitted =>
      mkWorld (db_forms w) (db_versions w) (db_fields w) (db_rules w)
              (save_row FormSubmission.id (created_submission version user st w)
                 (db_submissions w ++ [inserted_submission version user st w]))
              (db_responses w) (db_files w) (db_notifications w)
              (N.succ (next_uuid w)) (clock w + 1)
  | _ => world_inserted version user st w
  end.

Definition first_statements (version : UUID) (user : User) (st : Status)
    (w : World) : list World :=
  match st with
  | submitted => [world_inserted version user st w; world_stamped version user st w]
  | _ => [world_inserted version user st w]
  end.

(** The entries of a schema document, and the keys of an entry. *)
Definition schema_entries (schema : JSON) : list JSON :=
  match schema with
  | JObj [("fields", JList entries)] => entries
  | _ => []
  end.

Definition entry_keys (entry : JSON) : list string :=
  match entry with
  | JObj kv => map fst kv
  | _ => []
  end.

(** The rules listed by an entry, when it lists any. *)
Definition entry_rules (entry : JSON) : option (list JSON) :=
  match entry with
  | JObj kv =>
      match dict_get kv "validation_rules" with
      | Some (JList rs) => Some rs
      | _ => None
      end
  | _ => None
  end.

(** A form created with one field, then edited to two fields. *)
Definition full_name_data : FieldData :=
  mkFieldData "full_name" "Full Name" text 1 [("required", JBool true)].

Definition email_data : FieldData :=
  mkFieldData "email" "Email Address" email 2 [("required", JBool true)].

Definition new_form : FormCreateSerializer.ValidatedData :=
  FormCreateSerializer.mkValidatedData
    "New Form" "Test description" true [] None (Some 3%N) [full_name_data].

Definition form_edit : FormUpdateSerializer.ValidatedData :=
  FormUpdateSerializer.mkValidatedData
    None None None None None (Some [full_name_data; email_data]).

Definition created : Form.t * World :=
  match FormCreateSerializer.create new_form empty_world with
  | Ok r => r
  | Raise _ => (kyc_form, empty_world)
  end.

Definition edited : Form.t * World :=
  match FormUpdateSerializer.update (fst created) form_edit (snd created) with
  | Ok r => r
  | Raise _ => created
  end.

(** The schema document stored on the current version of a form. *)
Definition current_schema (form : Form.t) (w : World) : option JSON :=
  match Form.current_version form with
  | Some v => option_map FormVersion.schema_json
                         (get_row FormVersion.id v (db_versions w))
  | None => None
  end.

(** A length bound read from a field's configuration: absent (or null)
    counts as 0, which the code treats as no bound. *)
Definition as_length_bound (v : JSON) : option Z :=
  match v with
  | JNull => Some 0
  | JInt n => Some n
  | _ => None
  end.

(** The field types of the text block. *)
Definition is_text_type (t : FieldType) : bool :=
  match t with
  | text | textarea | email => true
  | _ => false
  end.

(** The field types of the select block. *)
Definition is_choice_type (t : FieldType) : bool :=
  match t with
  | select | radio => true
  | _ => false
  end.

(** [value in options] for a list of options. *)
Definition is_option (options : list JSON) (value : JSON) : bool :=
  existsb (py_eq value) options.

Definition bio_field : FormField.t :=
  FormField.mk 17%N 2%N "bio" "Bio" textarea 4
               [("min_length", JInt 3); ("max_length", JInt 0)] 4.

Definition colour_field : FormField.t :=
  FormField.mk 18%N 2%N "colour" "Colour" select 5
               [("options", JList [JStr "red"; JStr "green"])] 5.

Definition colours_field : FormField.t :=
  FormField.mk 19%N 2%N "colours" "Colours" multi_select 6
               [("options", JList [JStr "red"; JStr "green"])] 6.

(** A file field that already has two files attached to its response. *)
Definition photo_field : FormField.t :=
  FormField.mk 20%N 1%N "photo" "Photo" file 4 [("max_files", JInt 1)] 4.

Definition photo_response : FieldResponse.t :=
  FieldResponse.mk 301%N 201%N 20%N JNull.

Definition photo_world : World :=
  mkWorld [Form.set_current_version kyc_form (Some 1%N)]
          [FormVersion.mk 1%N 100%N 1 (JObj [])]
          [photo_field] [] [draft_submission] [photo_response]
          [FileUpload.mk 350%N 301%N "a.png" 10 "image/png";
           FileUpload.mk 351%N 301%N "b.png" 20 "image/png"]
          [] 400%N 10.

Definition photo_upload : FileUploadViewSet.Request :=
  FileUploadViewSet.mkRequest (Some 301%N) (Some passport_pdf).

(** Every key stored in the forms, versions, fields, rules and
    submissions tables, and every key these rows refer to, was drawn from
    the supply before: it is below the next key [uuid4] gives. *)
Definition supply_fresh (w : World) : bool :=
  let below (i : UUID) := N.ltb i (next_uuid w) in
  forallb (fun f => below (Form.id f)) (db_forms w)
  && forallb (fun v => below (FormVersion.id v) && below (FormVersion.form v))
             (db_versions w)
  && forallb (fun f => below (FormField.id f) && below (FormField.form_version f))
             (db_fields w)
  && forallb (fun r => below (ValidationRule.field r)) (db_rules w)
  && forallb (fun s => below (FormSubmission.id s)
                       && below (FormSubmission.form_version s))
             (db_submissions w).



(** The name [duplicate] gives the copy of a form. *)
Definition copy_name (original : Form.t) : string :=
  Form.name original ++ " (Copy)".

(** A form with one version holding the two sample fields, and no other
    row; and the same form without fields. *)
Definition catalogue_world : World :=
  mkWorld [Form.set_current_version kyc_form (Some 1%N)]
          [FormVersion.mk 1%N 100%N 1 (JObj [])]
          [full_name_field; email_field] [] [] [] [] [] 101%N 3.

Definition bare_world : World :=
  mkWorld [Form.set_current_version kyc_form (Some 1%N)]
          [FormVersion.mk 1%N 100%N 1 (JObj [])]
          [] [] [] [] [] [] 101%N 3.

(** A form with one version and one submission against it, all keys
    drawn from the supply. *)
Definition listed_form : Form.t :=
  Form.mk 1%N "Listed" "" (Some 3%N) true (Some 2%N) [] None.

Definition listed_world : World :=
  mkWorld [listed_form] [FormVersion.mk 2%N 1%N 1 (JObj [])] [] []
          [FormSubmission.mk 3%N 2%N (Some 1%N) submitted (Some 5) None None
                             (Text "")]
          [] [] [] 4%N 6.

(** *** Notification logs *)

(** Every log has a key drawn from the supply before. *)
Definition logs_fresh (tw : TaskWorld) : bool :=
  forallb (fun l => N.ltb (NotificationLog.id l) (next_uuid (tw_world tw)))
          (tw_logs tw).

(** The tables of the world, without the key supply and the clock. *)
Definition tables (w : World) :=
  (db_forms w, db_versions w, db_fields w, db_rules w, db_submissions w,
   db_responses w, db_files w, db_notifications w).

(** The world after a key and a time stamp are drawn. *)
Definition ticked (w : World) : World :=
  set_clock (set_next_uuid w (N.succ (next_uuid w))) (clock w + 1).

(** What a log says: submission, channel, recipient, status, attempts. *)
Definition log_summary (l : NotificationLog.t)
  : UUID * Channel * string * LogStatus * Z :=
  (NotificationLog.submission l, NotificationLog.channel l,
   NotificationLog.recipient l, NotificationLog.status l,
   NotificationLog.attempts l).

(** The status of the log of a mail, given what happens to the mail. *)
Definition email_status (env : Outside) (submission : FormSubmission.t)
    (recipient : string) : LogStatus :=
  match Tasks.email_failure env submission recipient with
  | None => log_sent
  | Some _ => log_failed
  end.

(** The address [if form.webhook_url:] lets through. *)
Definition webhook_of (form : Form.t) : option string :=
  match Form.webhook_url form with
  | Some url => if String.eqb url "" then None else Some url
  | None => None
  end.

(** The selected logs whose turn of the retry loop ends without an
    exception: the submission is there, the database takes the new log,
    and, for a webhook, the request goes through.  What happens to a
    mail plays no part. *)
Definition retry_counts (env : Outside) (w : World) (c : NotificationLog.t)
  : bool :=
  match get_row FormSubmission.id (NotificationLog.submission c)
                (db_submissions w) with
  | None => false
  | Some _ =>
      match NotificationLog.channel c with
      | channel_email => negb (log_refused env (NotificationLog.recipient c))
      | channel_webhook =>
          negb (log_refused env (NotificationLog.recipient c))
          && match webhook_error env (NotificationLog.recipient c) with
             | None => true
             | Some _ => false
             end
      | channel_slack => true
      end
  end.

(** The number of mails logged as sent for a submission. *)
Definition is_mail_sent (submission_id : UUID) (l : NotificationLog.t) : bool :=
  match NotificationLog.channel l, NotificationLog.status l with
  | channel_email, log_sent => N.eqb (NotificationLog.submission l) submission_id
  | _, _ => false
  end.

Definition mails_sent (submission_id : UUID) (tw : TaskWorld) : nat :=
  List.length (filter (is_mail_sent submission_id) (tw_logs tw)).

(** A form with two recipients and a webhook, one version and one
    submission against it; no log yet. *)
Definition notify_form : Form.t :=
  Form.mk 1%N "Notify" "" (Some 3%N) true (Some 2%N)
          ["ops@example.com"; "kyc@example.com"]
          (Some "https://hooks.example.com/kyc").

Definition notify_world : TaskWorld :=
  mkTaskWorld
    (mkWorld [notify_form] [FormVersion.mk 2%N 1%N 1 (JObj [])] [] []
             [FormSubmission.mk 3%N 2%N (Some 1%N) submitted (Some 5) None None
                                (Text "")]
             [] [] [] 4%N 6)
    [].

(** Everything is delivered; the webhook answers with an error; the
    database refuses the recipients of more than 255 characters. *)
Definition all_delivered : Outside :=
  mkOutside (fun _ => None) (fun _ => None) (fun _ => false).

Definition webhook_down : Outside :=
  mkOutside (fun _ => None) (fun _ => Some "503 Server Error") (fun _ => false).

Definition long_refused : Outside :=
  mkOutside (fun _ => None) (fun _ => None)
            (fun r => (255 <? String.length r)%nat).

(** A recipient of 268 characters. *)
Definition long_recipient : string :=
  String.concat "" (repeat "0123456789abcdef" 16) ++ "@example.com".

Definition notify_submission : FormSubmission.t :=
  FormSubmission.mk 3%N 2%N (Some 1%N) submitted (Some 5) None None (Text "").
(** * Properties *)

Local Open Scope list_scope.

(** ** Version manager *)

Lemma first_by_version_number_desc_nil (vs : list FormVersion.t) :
  first_by_version_number_desc vs = None <-> vs = [].
Proof.
  destruct vs as [|v vs]; simpl; [tauto|].
  split; [|discriminate].
  destruct (first_by_version_number_desc vs) as [m|]; [|discriminate].
  destruct (FormVersion.version_number m <? FormVersion.version_number v);
    discriminate.
Qed.

Lemma first_by_version_number_desc_max (vs : list FormVersion.t) (m : FormVersion.t) :
  first_by_version_number_desc vs = Some m ->
  In m vs /\
  forall v, In v vs -> FormVersion.version_number v <= FormVersion.version_number m.
Proof.
  revert m. induction vs as [|v vs IH]; simpl; intros m Hm; [discriminate|].
  destruct (first_by_version_number_desc vs) as [m'|] eqn:E.
  - destruct (IH m' eq_refl) as [Hin Hmax].
    destruct (Z.ltb_spec (FormVersion.version_number m')
                         (FormVersion.version_number v)) as [Hlt|Hge];
      inversion Hm; subst m; clear Hm.
    + split; [now left|]. intros x [->|Hx]; [lia|].
      specialize (Hmax x Hx). lia.
    + split; [now right|]. intros x [->|Hx]; [lia|]. now apply Hmax.
  - inversion Hm; subst m. apply first_by_version_number_desc_nil in E. subst vs.
    split; [now left|]. intros x [->|[]]. lia.
Qed.

Lemma next_version_number_fresh (vs : list FormVersion.t) :
  existsb (fun v => FormVersion.version_number v =? next_version_number vs) vs
  = false.
Proof.
  unfold next_version_number.
  destruct (first_by_version_number_desc vs) as [m|] eqn:E.
  - destruct (first_by_version_number_desc_max vs m E) as [_ Hmax].
    apply not_true_is_false. intros H. apply existsb_exists in H.
    destruct H as [x [Hx Heq]]. apply Z.eqb_eq in Heq.
    specialize (Hmax x Hx). lia.
  - apply first_by_version_number_desc_nil in E. now subst vs.
Qed.

Lemma form_exists_in (i : UUID) (w : World) :
  form_exists i w = true <-> exists f, In f (db_forms w) /\ Form.id f = i.
Proof.
  unfold form_exists. rewrite existsb_exists.
  split; intros [f [Hin H]]; exists f; split; trivial; now apply N.eqb_eq.
Qed.

Lemma in_save_row {A} (pk : A -> UUID) (x : A) (rows : list A) :
  In x (save_row pk x rows).
Proof.
  induction rows as [|r rows IH]; simpl; [now left|].
  destruct (N.eqb (pk r) (pk x)); simpl; auto.
Qed.

Lemma existsb_save_row {A} (pk : A -> UUID) (p : A -> bool) (x : A)
    (rows : list A) :
  p x = false -> existsb p rows = false ->
  existsb p (save_row pk x rows) = false.
Proof.
  intros Hx. induction rows as [|r rows IH]; simpl; intros H.
  - now rewrite Hx.
  - apply orb_false_iff in H. destruct H as [Hr Hrows].
    destruct (N.eqb (pk r) (pk x)); simpl.
    + now rewrite Hx, Hrows.
    + now rewrite Hr, IH.
Qed.

(** [create_new_version] returns when the form row is stored, no other
    form holds the name of the instance and the next number fits the
    column; it then leaves one appended version row and the saved form
    row. *)
Lemma create_new_version_returns (self : Form.t) (w : World) :
  form_exists (Form.id self) w = true ->
  name_taken_by_other self w = false ->
  next_version_number (versions_of (Form.id self) w) <= MAX_INTEGER ->
  create_new_version self w
  = Ok (FormVersion.mk (next_uuid w) (Form.id self)
          (next_version_number (versions_of (Form.id self) w)) (JObj []),
        Form.set_current_version self (Some (next_uuid w)),
        world_after_new_version self w).
Proof.
  intros Hstored Hname Hmax.
  unfold create_new_version, FormVersion_objects_create.
  fold (next_version_number (versions_of (Form.id self) w)).
  destruct (Z.ltb_spec MAX_INTEGER
              (next_version_number (versions_of (Form.id self) w))); [lia|].
  rewrite next_version_number_fresh, Hstored. cbn [negb uuid4 bind].
  unfold Form_save.
  replace (name_taken_by_other _ _) with (name_taken_by_other self w)
    by reflexivity.
  rewrite Hname. reflexivity.
Qed.

(** It returns only then, and raises otherwise. *)
Lemma create_new_version_ok (self : Form.t) (w : World)
    (v : FormVersion.t) (self' : Form.t) (w' : World) :
  create_new_version self w = Ok (v, self', w') ->
  form_exists (Form.id self) w = true /\
  name_taken_by_other self w = false /\
  next_version_number (versions_of (Form.id self) w) <= MAX_INTEGER /\
  v = FormVersion.mk (next_uuid w) (Form.id self)
        (next_version_number (versions_of (Form.id self) w)) (JObj []) /\
  self' = Form.set_current_version self (Some (next_uuid w)) /\
  w' = world_after_new_version self w.
Proof.
  intros Hrun.
  destruct (form_exists (Form.id self) w) eqn:Hstored;
    destruct (name_taken_by_other self w) eqn:Hname;
    destruct (Z.ltb_spec MAX_INTEGER
                (next_version_number (versions_of (Form.id self) w)))
      as [Hover|Hmax];
    try (rewrite (create_new_version_returns self w Hstored Hname Hmax) in Hrun;
         inversion Hrun; subst; repeat split; trivial);
    exfalso; revert Hrun;
    unfold create_new_version, FormVersion_objects_create;
    fold (next_version_number (versions_of (Form.id self) w));
    try (apply Z.ltb_lt in Hover; rewrite Hover; discriminate);
    destruct (MAX_INTEGER <? next_version_number (versions_of (Form.id self) w));
    try discriminate;
    rewrite next_version_number_fresh, Hstored; cbn [negb uuid4 bind];
    try discriminate;
    unfold Form_save;
    replace (name_taken_by_other _ _) with (name_taken_by_other self w)
      by reflexivity;
    rewrite Hname; discriminate.
Qed.

Lemma get_row_save_row {A} (pk : A -> UUID) (x : A) (rows : list A) :
  get_row pk (pk x) (save_row pk x rows) = Some x.
Proof.
  unfold get_row. induction rows as [|r rows IH]; simpl.
  - now rewrite N.eqb_refl.
  - destruct (N.eqb (pk r) (pk x)) eqn:E; simpl.
    + now rewrite N.eqb_refl.
    + now rewrite E.
Qed.

(** After a call that returned, the instance it leaves can be versioned
    again: its row is stored and no other form holds its name. *)
Lemma create_new_version_again (self : Form.t) (w : World) :
  name_taken_by_other self w = false ->
  form_exists (Form.id self) (world_after_new_version self w) = true /\
  name_taken_by_other (Form.set_current_version self (Some (next_uuid w)))
                      (world_after_new_version self w) = false.
Proof.
  intros Hname. split.
  - apply form_exists_in.
    exists (Form.set_current_version self (Some (next_uuid w))).
    split; [apply in_save_row|reflexivity].
  - unfold name_taken_by_other, world_after_new_version. cbn [db_forms].
    apply existsb_save_row; [|exact Hname].
    cbn. now rewrite N.eqb_refl.
Qed.

Lemma one_to_succ (k : nat) : one_to (S k) = (one_to k ++ [Z.of_nat (S k)])%list.
Proof. unfold one_to. rewrite seq_S, map_app. reflexivity. Qed.

Lemma in_one_to (k : nat) (z : Z) : In z (one_to k) <-> 1 <= z <= Z.of_nat k.
Proof.
  unfold one_to. rewrite in_map_iff. split.
  - intros [n [<- Hn]]. apply in_seq in Hn. lia.
  - intros Hz. exists (Z.to_nat z). split; [lia|]. apply in_seq. lia.
Qed.

Lemma next_version_number_one_to (vs : list FormVersion.t) (k : nat) :
  map FormVersion.version_number vs = one_to k ->
  next_version_number vs = Z.of_nat (S k).
Proof.
  intros Hvs. unfold next_version_number.
  destruct (first_by_version_number_desc vs) as [m|] eqn:E.
  - destruct (first_by_version_number_desc_max vs m E) as [Hin Hmax].
    assert (Hm : In (FormVersion.version_number m) (one_to k))
      by (rewrite <- Hvs; now apply in_map).
    apply in_one_to in Hm.
    assert (Hk : In (Z.of_nat k) (one_to k)) by (apply in_one_to; lia).
    rewrite <- Hvs in Hk. apply in_map_iff in Hk. destruct Hk as [x [Hx Hxin]].
    specialize (Hmax x Hxin). lia.
  - apply first_by_version_number_desc_nil in E. subst vs.
    destruct k; [reflexivity|]. rewrite one_to_succ in Hvs.
    symmetry in Hvs. now apply app_eq_nil in Hvs.
Qed.

(** The versions of the form after a call that returned. *)
Lemma versions_after_new_version (self : Form.t) (w : World) (k : nat) :
  map FormVersion.version_number (versions_of (Form.id self) w) = one_to k ->
  map FormVersion.version_number
      (versions_of (Form.id self) (world_after_new_version self w))
  = one_to (S k).
Proof.
  intros Hk. unfold versions_of, world_after_new_version. cbn [db_versions].
  rewrite filter_app, map_app. cbn [filter FormVersion.form].
  rewrite N.eqb_refl. cbn [map FormVersion.version_number].
  fold (versions_of (Form.id self) w).
  rewrite Hk, (next_version_number_one_to _ k Hk), one_to_succ. reflexivity.
Qed.

(** Successive calls that all return, on a form whose versions are
    numbered [1..k]. *)
Lemma create_versions_from (n : nat) :
  forall (k : nat) (self : Form.t) (w : World) snaps,
    map FormVersion.version_number (versions_of (Form.id self) w) = one_to k ->
    create_versions n self w = Ok snaps ->
    List.length snaps = n /\
    forall i v self' w',
      nth_error snaps i = Some (v, self', w') ->
      FormVersion.version_number v = Z.of_nat (k + i + 1) /\
      Form.current_version self' = Some (FormVersion.id v) /\
      stored_current_version (Form.id self) w' = Some (Some (FormVersion.id v)) /\
      map FormVersion.version_number (versions_of (Form.id self) w')
      = one_to (k + i + 1).
Proof.
  induction n as [|n IH]; intros k self w snaps Hk Hrun; simpl in Hrun.
  - inversion Hrun; subst snaps. split; [reflexivity|].
    intros i v self' w' H. destruct i; discriminate.
  - destruct (create_new_version self w) as [[[v self1] w1]|e] eqn:Hone;
      [|discriminate].
    destruct (create_new_version_ok self w v self1 w1 Hone)
      as (_ & _ & _ & Hv & Hself1 & Hw1).
    cbn [bind] in Hrun.
    destruct (create_versions n self1 w1) as [rest|e] eqn:Hrest;
      [|discriminate].
    cbn [bind] in Hrun. inversion Hrun; subst snaps. clear Hrun.
    assert (Hk1 : map FormVersion.version_number (versions_of (Form.id self1) w1)
                  = one_to (S k)).
    { subst self1 w1. apply (versions_after_new_version self w k Hk). }
    destruct (IH (S k) self1 w1 rest Hk1 Hrest) as [Hlen Hsnaps].
    split; [simpl; now rewrite Hlen|].
    intros [|i] v' self' w' Hnth; simpl in Hnth.
    + inversion Hnth; subst v' self' w'. clear Hnth.
      replace (k + 0 + 1)%nat with (S k) by lia.
      split; [rewrite Hv; cbn; now rewrite (next_version_number_one_to _ k Hk)|].
      split; [rewrite Hself1, Hv; reflexivity|].
      split; [|rewrite Hself1 in Hk1; exact Hk1].
      unfold stored_current_version. rewrite Hw1, Hv.
      unfold world_after_new_version. cbn [db_forms FormVersion.id].
      change (Form.id self)
        with (Form.id (Form.set_current_version self (Some (next_uuid w)))).
      now rewrite get_row_save_row.
    + replace (k + S i + 1)%nat with (S k + i + 1)%nat by lia.
      rewrite Hself1 in Hsnaps. apply (Hsnaps i v' self' w' Hnth).
Qed.

(** They do return while the numbers fit the column. *)
Lemma create_versions_return (n : nat) :
  forall (k : nat) (self : Form.t) (w : World),
    map FormVersion.version_number (versions_of (Form.id self) w) = one_to k ->
    form_exists (Form.id self) w = true ->
    name_taken_by_other self w = false ->
    Z.of_nat (k + n) <= MAX_INTEGER ->
    exists snaps, create_versions n self w = Ok snaps.
Proof.
  induction n as [|n IH]; intros k self w Hk Hstored Hname Hmax; simpl.
  - now exists [].
  - rewrite create_new_version_returns;
      [|exact Hstored|exact Hname
       |rewrite (next_version_number_one_to _ k Hk); lia].
    cbn [bind].
    destruct (create_new_version_again self w Hname) as [Hstored1 Hname1].
    destruct (IH (S k) (Form.set_current_version self (Some (next_uuid w)))
                 (world_after_new_version self w)) as [rest Hrest].
    + apply (versions_after_new_version self w k Hk).
    + exact Hstored1.
    + exact Hname1.
    + lia.
    + rewrite Hrest. cbn [bind]. eexists. reflexivity.
Qed.

(** C1. On a form without versions, when [N] successive calls of
    [create_new_version] return, the [i]-th call (counting from 1) has
    created the version numbered [i], so the numbers are exactly
    [1, 2, ..., N] in order, without gap or reuse; after each call the
    form's [current_version], on the instance and on the stored row, is
    the version just created, and the versions stored for the form are
    numbered [1..i].  The calls do return when the form row is stored, no
    other form holds the name of the instance and [N] fits the column of
    the version numbers (a PostgreSQL [integer]); a call raises
    otherwise. *)
Theorem create_new_version_numbers_1_to_N
    (N : nat) (self : Form.t) (w : World) :
  versions_of (Form.id self) w = [] ->
  (forall snaps,
     create_versions N self w = Ok snaps ->
     map (fun s => FormVersion.version_number (fst (fst s))) snaps = one_to N /\
     forall i v self' w',
       nth_error snaps i = Some (v, self', w') ->
       FormVersion.version_number v = Z.of_nat (i + 1) /\
       Form.current_version self' = Some (FormVersion.id v) /\
       stored_current_version (Form.id self) w' = Some (Some (FormVersion.id v)) /\
       map FormVersion.version_number (versions_of (Form.id self) w')
       = one_to (i + 1)) /\
  (form_exists (Form.id self) w = true ->
   name_taken_by_other self w = false ->
   Z.of_nat N <= MAX_INTEGER ->
   exists snaps, create_versions N self w = Ok snaps) /\
  (form_exists (Form.id self) w = false \/ name_taken_by_other self w = true ->
   (0 < N)%nat ->
   create_versions N self w = Raise IntegrityError).
Proof.
  intros Hnone.
  assert (Hk : map FormVersion.version_number (versions_of (Form.id self) w)
               = one_to 0) by now rewrite Hnone.
  split; [|split].
  - intros snaps Hrun.
    destruct (create_versions_from N 0 self w snaps Hk Hrun) as [Hlen Hsnaps].
    split; [|exact Hsnaps].
    apply nth_error_ext. intros i. unfold one_to.
    rewrite !nth_error_map.
    destruct (nth_error snaps i) as [[[v self'] w']|] eqn:E; simpl.
    + destruct (Hsnaps i v self' w' E) as [Hv _]. rewrite Hv.
      assert (Hi : (i < N)%nat).
      { rewrite <- Hlen. apply nth_error_Some. congruence. }
      rewrite nth_error_seq.
      destruct (Nat.ltb_spec i N); [|lia]. simpl. f_equal. lia.
    + apply nth_error_None in E. rewrite nth_error_seq.
      destruct (Nat.ltb_spec i N); [lia|]. reflexivity.
  - intros Hstored Hname Hmax.
    apply (create_versions_return N 0 self w Hk Hstored Hname). lia.
  - intros Hbad HN. destruct N as [|N]; [lia|]. cbn [create_versions].
    unfold create_new_version, FormVersion_objects_create.
    rewrite Hnone. cbn [first_by_version_number_desc existsb].
    change (MAX_INTEGER <? 1) with false. cbv iota.
    destruct (form_exists (Form.id self) w) eqn:Hstored; [|reflexivity].
    destruct Hbad as [Hbad|Hbad]; [discriminate|].
    cbn [negb uuid4 bind]. unfold Form_save.
    replace (name_taken_by_other _ _) with (name_taken_by_other self w)
      by reflexivity.
    now rewrite Hbad.
Qed.

Lemma create_new_version_numbers_1_to_N_witness :
  versions_of (Form.id kyc_form) kyc_world = [] /\
  exists snaps,
    create_versions 3 kyc_form kyc_world = Ok snaps /\
    map (fun s => FormVersion.version_number (fst (fst s))) snaps = one_to 3 /\
    forall i v self' w',
      nth_error snaps i = Some (v, self', w') ->
      FormVersion.version_number v = Z.of_nat (i + 1) /\
      Form.current_version self' = Some (FormVersion.id v) /\
      stored_current_version (Form.id kyc_form) w' = Some (Some (FormVersion.id v)) /\
      map FormVersion.version_number (versions_of (Form.id kyc_form) w')
      = one_to (i + 1).
Proof.
  split; [reflexivity|].
  destruct (create_new_version_numbers_1_to_N 3 kyc_form kyc_world eq_refl)
    as (Hnumbers & Hreturn & _).
  destruct (Hreturn eq_refl eq_refl) as [snaps Hrun]; [vm_compute; discriminate|].
  exists snaps. split; [exact Hrun|]. exact (Hnumbers snaps Hrun).
Defined.

Lemma get_row_app_some {A} (pk : A -> UUID) (i : UUID) (rows more : list A) (x : A) :
  get_row pk i rows = Some x -> get_row pk i (rows ++ more) = Some x.
Proof.
  unfold get_row. induction rows as [|r rows IH]; simpl; [discriminate|].
  destruct (N.eqb (pk r) i); [trivial|exact IH].
Qed.

(** C2. In the world [create_new_version] leaves when it returns, the
    submissions table is the one it found, so every submission keeps its
    [form_version]; the versions table is the one it found followed by
    the new row, so no stored version is removed or altered: looking a
    version up by primary key gives the same row, with the same
    [version_number] and [schema_json], as before.  The call returns when
    the form row is stored, no other form holds the name of the instance
    and the next version number fits its column (a PostgreSQL
    [integer]); past the largest number of the column it raises
    [DataError]. *)
Theorem create_new_version_preserves_history (self : Form.t) (w : World) :
  (forall v self' w',
     create_new_version self w = Ok (v, self', w') ->
     db_submissions w' = db_submissions w /\
     db_versions w' = (db_versions w ++ [v])%list /\
     (forall s, In s (db_submissions w) ->
        exists s', In s' (db_submissions w') /\
          FormSubmission.id s' = FormSubmission.id s /\
          FormSubmission.form_version s' = FormSubmission.form_version s) /\
     (forall old, In old (db_versions w) -> In old (db_versions w')) /\
     (forall pk old,
        get_row FormVersion.id pk (db_versions w) = Some old ->
        get_row FormVersion.id pk (db_versions w') = Some old)) /\
  (form_exists (Form.id self) w = true ->
   name_taken_by_other self w = false ->
   next_version_number (versions_of (Form.id self) w) <= MAX_INTEGER ->
   exists v self' w', create_new_version self w = Ok (v, self', w')) /\
  (MAX_INTEGER < next_version_number (versions_of (Form.id self) w) ->
   create_new_version self w = Raise DataError).
Proof.
  split; [|split].
  - intros v self' w' Hrun.
    destruct (create_new_version_ok self w v self' w' Hrun)
      as (_ & _ & _ & Hv & _ & Hw').
    rewrite Hw', Hv. unfold world_after_new_version.
    cbn [db_submissions db_versions].
    split; [reflexivity|]. split; [reflexivity|]. split; [|split].
    + intros s Hs. exists s. auto.
    + intros old Hold. apply in_or_app. now left.
    + intros pk old Hold. now apply get_row_app_some.
  - intros Hstored Hname Hmax. eexists _, _, _.
    apply (create_new_version_returns self w Hstored Hname Hmax).
  - intros Hover. unfold create_new_version, FormVersion_objects_create.
    fold (next_version_number (versions_of (Form.id self) w)).
    apply Z.ltb_lt in Hover. now rewrite Hover.
Qed.

(** The round trip of C2 on the sample world: the submission made under
    version 1 reads back with version 1 after version 2 is created. *)
Lemma create_new_version_preserves_history_witness :
  exists v self' w',
    create_new_version (Form.set_current_version kyc_form (Some 1%N)) world_v1
    = Ok (v, self', w') /\
    FormVersion.version_number v = 2 /\
    option_map FormSubmission.form_version
      (get_row FormSubmission.id 200%N (db_submissions w')) = Some 1%N /\
    option_map FormVersion.version_number
      (get_row FormVersion.id 1%N (db_versions w')) = Some 1.
Proof.
  destruct (create_new_version_preserves_history
              (Form.set_current_version kyc_form (Some 1%N)) world_v1)
    as (Hframe & Hreturn & _).
  destruct Hreturn as [v [self' [w' Hrun]]];
    [reflexivity|reflexivity|vm_compute; discriminate|].
  destruct (Hframe v self' w' Hrun) as [Hsub [Hver _]].
  exists v, self', w'. split; [exact Hrun|].
  rewrite Hsub, Hver. vm_compute in Hrun. inversion Hrun; subst v.
  repeat split.
Defined.

(** ** Submission lifecycle *)

Lemma get_row_some {A} (pk : A -> UUID) (i : UUID) (rows : list A) (x : A) :
  get_row pk i rows = Some x -> In x rows /\ pk x = i.
Proof.
  unfold get_row. intros H. apply find_some in H. destruct H as [Hin Heq].
  apply N.eqb_eq in Heq. tauto.
Qed.

(** What [get_object] returns is a stored row with the requested key that
    the caller passes the ownership test on. *)
Lemma get_object_some (user : User) (pk : UUID) (w : World) (s : FormSubmission.t) :
  FormSubmissionViewSet.get_object user pk w = Some s ->
  In s (db_submissions w) /\ FormSubmission.id s = pk /\
  is_other_user (FormSubmission.submitted_by s) user && negb (is_staff user) = false.
Proof.
  unfold FormSubmissionViewSet.get_object, FormSubmissionViewSet.get_queryset.
  intros H. apply get_row_some in H. destruct H as [Hin Hpk].
  destruct (is_staff user); simpl in *.
  - rewrite andb_false_r. tauto.
  - apply filter_In in Hin. destruct Hin as [Hin Hown].
    apply negb_true_iff in Hown. rewrite Hown. tauto.
Qed.

(** C4. On a submission the request reaches, [submit] answers 200 exactly
    when the status is [draft].  From [draft] the stored row becomes the
    same submission with status [submitted] and [submitted_at] the current
    time, and one notification is queued; from any other status the
    answer is the 400 error and the world is unchanged. *)
Theorem submit_succeeds_iff_draft
    (user : User) (pk : UUID) (w : World) (s : FormSubmission.t) :
  FormSubmissionViewSet.get_object user pk w = Some s ->
  (status_code (fst (FormSubmissionViewSet.submit user pk w)) = HTTP_200_OK
   <-> FormSubmission.status s = draft) /\
  (FormSubmission.status s = draft ->
   exists s' w',
     FormSubmissionViewSet.submit user pk w
     = (mkResponse (SubmissionBody s') HTTP_200_OK, w') /\
     FormSubmission.status s' = submitted /\
     FormSubmission.submitted_at s' = Some (clock w) /\
     FormSubmission.id s' = FormSubmission.id s /\
     FormSubmission.form_version s' = FormSubmission.form_version s /\
     FormSubmission.submitted_by s' = FormSubmission.submitted_by s /\
     FormSubmission.reviewed_by s' = FormSubmission.reviewed_by s /\
     FormSubmission.reviewed_at s' = FormSubmission.reviewed_at s /\
     FormSubmission.review_notes s' = FormSubmission.review_notes s /\
     db_submissions w' = save_row FormSubmission.id s' (db_submissions w) /\
     get_row FormSubmission.id pk (db_submissions w') = Some s' /\
     db_notifications w' = (db_notifications w ++ [FormSubmission.id s])%list) /\
  (FormSubmission.status s <> draft ->
   FormSubmissionViewSet.submit user pk w
   = (mkResponse (ErrorBody OnlyDraftCanBeSubmitted) HTTP_400_BAD_REQUEST, w)).
Proof.
  intros Hget. destruct (get_object_some user pk w s Hget) as [_ [Hpk Hperm]].
  unfold FormSubmissionViewSet.submit. rewrite Hget, Hperm.
  split; [|split].
  - destruct (FormSubmission.status s); simpl; split;
      intros H; (reflexivity || discriminate).
  - intros Hdraft. rewrite Hdraft. simpl. eexists _, _.
    split; [reflexivity|]. simpl. repeat (split; [reflexivity|]).
    split; [|reflexivity].
    rewrite <- Hpk.
    change (FormSubmission.id s)
      with (FormSubmission.id (FormSubmissionViewSet.mark_submitted s (clock w))).
    apply get_row_save_row.
  - intros Hnot. destruct (FormSubmission.status s); try reflexivity.
    now contradiction Hnot.
Qed.

Lemma submit_succeeds_iff_draft_witness :
  FormSubmissionViewSet.get_object alice 201%N review_world = Some draft_submission /\
  status_code (fst (FormSubmissionViewSet.submit alice 201%N review_world)) = HTTP_200_OK /\
  FormSubmissionViewSet.submit alice 202%N review_world
  = (mkResponse (ErrorBody OnlyDraftCanBeSubmitted) HTTP_400_BAD_REQUEST, review_world).
Proof.
  split; [reflexivity|]. split.
  - apply (submit_succeeds_iff_draft alice 201%N review_world draft_submission);
      reflexivity.
  - apply (submit_succeeds_iff_draft alice 202%N review_world approved_submission);
      [reflexivity | discriminate].
Defined.

Lemma review_status_some (new_status : JSON) (st : Status) :
  FormSubmissionViewSet.review_status new_status = Some st <->
  (new_status = JStr "under_review" /\ st = under_review) \/
  (new_status = JStr "approved" /\ st = approved) \/
  (new_status = JStr "rejected" /\ st = rejected).
Proof.
  unfold FormSubmissionViewSet.review_status. split.
  - destruct new_status as [| | | |str| |]; try discriminate.
    destruct (String.eqb_spec str "under_review") as [->|_];
      [intros H; inversion H; auto|].
    destruct (String.eqb_spec str "approved") as [->|_];
      [intros H; inversion H; auto|].
    destruct (String.eqb_spec str "rejected") as [->|_];
      [intros H; inversion H; auto 6|discriminate].
  - intros [[-> ->]|[[-> ->]|[-> ->]]]; reflexivity.
Qed.

(** C3, as the code has it.  [review] does not look at the current
    status.  On a submission an administrator's request reaches, it
    answers 200 exactly when the requested status is one of
    [under_review], [approved], [rejected] and the notes sent are not
    [null] and hold no NUL character; the stored row then takes that
    status, the reviewer, the current time and the notes (a text as it
    is, any other value as its [str]), and keeps its other columns, so a
    review never leaves a submission in [draft] or [submitted].  With any
    other requested status the answer is the 400 error; with a valid
    status and notes the database refuses, the exception leaves the
    action; in both cases the world is unchanged. *)
Theorem review_depends_on_requested_status_only
    (user : User) (data : Dict JSON) (pk : UUID) (w : World)
    (s : FormSubmission.t) :
  is_staff user = true ->
  FormSubmissionViewSet.get_object user pk w = Some s ->
  let requested :=
    FormSubmissionViewSet.review_status (dict_get_default data "status" JNull) in
  let sent :=
    TextField_get_prep_value (dict_get_default data "review_notes" (JStr "")) in
  (status_code (fst (FormSubmissionViewSet.review user data pk w)) = HTTP_200_OK
   <-> requested <> None /\ exists notes, sent = Some notes /\ has_nul notes = false) /\
  (forall st notes,
     requested = Some st -> sent = Some notes -> has_nul notes = false ->
     exists s' w',
       FormSubmissionViewSet.review user data pk w
       = (mkResponse (SubmissionBody s') HTTP_200_OK, w') /\
       FormSubmission.status s' = st /\
       st <> draft /\ st <> submitted /\
       FormSubmission.reviewed_by s' = Some (user_pk user) /\
       FormSubmission.reviewed_at s' = Some (clock w) /\
       FormSubmission.review_notes s' = notes /\
       FormSubmission.id s' = FormSubmission.id s /\
       FormSubmission.form_version s' = FormSubmission.form_version s /\
       FormSubmission.submitted_by s' = FormSubmission.submitted_by s /\
       FormSubmission.submitted_at s' = FormSubmission.submitted_at s /\
       db_submissions w' = save_row FormSubmission.id s' (db_submissions w) /\
       get_row FormSubmission.id pk (db_submissions w') = Some s') /\
  (requested = None ->
   FormSubmissionViewSet.review user data pk w
   = (mkResponse (ErrorBody InvalidStatus) HTTP_400_BAD_REQUEST, w)) /\
  (requested <> None -> sent = None ->
   FormSubmissionViewSet.review user data pk w
   = (mkResponse (Unhandled IntegrityError) HTTP_500_INTERNAL_SERVER_ERROR, w)) /\
  (forall notes,
     requested <> None -> sent = Some notes -> has_nul notes = true ->
     FormSubmissionViewSet.review user data pk w
     = (mkResponse (Unhandled NulCharacter) HTTP_500_INTERNAL_SERVER_ERROR, w)).
Proof.
  intros Hstaff Hget requested sent.
  destruct (get_object_some user pk w s Hget) as [_ [Hpk _]].
  unfold FormSubmissionViewSet.review. rewrite Hstaff, Hget. cbn [negb].
  fold requested. fold sent. cbn [timezone_now].
  split; [|split; [|split; [|split]]].
  - destruct requested as [st|] eqn:Hreq.
    + destruct sent as [notes|] eqn:Hsent.
      * destruct (has_nul notes) eqn:Hnul; cbn; split.
        -- discriminate.
        -- intros [_ [n [Hn Hn']]]. inversion Hn; subst n. congruence.
        -- intros _. split; [discriminate|]. now exists notes.
        -- reflexivity.
      * cbn. split; [discriminate|]. intros [_ [n [Hn _]]]. discriminate.
    + cbn. split; [discriminate|]. intros [H _]. now elim H.
  - intros st notes Hst Hsent Hnul. rewrite Hst, Hsent, Hnul.
    eexists _, _. split; [reflexivity|]. simpl. split; [reflexivity|].
    split; [|split].
    + apply review_status_some in Hst.
      destruct Hst as [[_ ->]|[[_ ->]|[_ ->]]]; discriminate.
    + apply review_status_some in Hst.
      destruct Hst as [[_ ->]|[[_ ->]|[_ ->]]]; discriminate.
    + repeat (split; [reflexivity|]). rewrite <- Hpk.
      match goal with
      | |- get_row _ _ (save_row _ ?x _) = _ =>
          change (FormSubmission.id s) with (FormSubmission.id x)
      end.
      apply get_row_save_row.
  - intros Hnone. rewrite Hnone. reflexivity.
  - intros Hreq Hsent. destruct requested as [st|]; [|now elim Hreq].
    rewrite Hsent. reflexivity.
  - intros notes Hreq Hsent Hnul. destruct requested as [st|]; [|now elim Hreq].
    rewrite Hsent, Hnul. reflexivity.
Qed.

Lemma review_depends_on_requested_status_only_witness :
  is_staff admin = true /\
  FormSubmissionViewSet.get_object admin 200%N review_world = Some submission_v1 /\
  exists s' w',
    FormSubmissionViewSet.review admin [("status", JStr "approved")] 200%N review_world
    = (mkResponse (SubmissionBody s') HTTP_200_OK, w') /\
    FormSubmission.status s' = approved.
Proof.
  split; [reflexivity|]. split; [reflexivity|].
  destruct (review_depends_on_requested_status_only
              admin [("status", JStr "approved")] 200%N review_world submission_v1
              eq_refl eq_refl) as (_ & Hok & _).
  destruct (Hok approved (Text "") eq_refl eq_refl eq_refl)
    as [s' [w' [Hrun [Hst _]]]].
  exists s', w'. split; assumption.
Defined.

(** C3 as stated fails: a review of an [approved] submission that asks
    for [rejected] is answered 200 and the stored status changes. *)
Lemma review_of_approved_submission_succeeds :
  FormSubmission.status approved_submission = approved /\
  FormSubmissionViewSet.get_object admin 202%N review_world
  = Some approved_submission /\
  let r := FormSubmissionViewSet.review
             admin [("status", JStr "rejected")] 202%N review_world in
  status_code (fst r) = HTTP_200_OK /\
  option_map FormSubmission.status
    (get_row FormSubmission.id 202%N (db_submissions (snd r))) = Some rejected /\
  snd r <> review_world.
Proof.
  split; [reflexivity|]. split; [reflexivity|]. simpl.
  split; [reflexivity|]. split; [reflexivity|]. discriminate.
Qed.

(** ** Submission validator *)

Import FormSubmissionCreateSerializer.

Lemma dict_has_in {A} (d : Dict A) (k : string) :
  dict_has d k = true <-> In k (map fst d).
Proof.
  unfold dict_has. induction d as [|[k' v] d IH]; simpl.
  - split; [discriminate|tauto].
  - destruct (String.eqb_spec k' k) as [->|Hne].
    + split; auto.
    + rewrite IH. split; [auto|]. intros [H|H]; [contradiction|exact H].
Qed.

Lemma dict_get_set {A} (d : Dict A) (k k' : string) (v : A) :
  dict_get (dict_set d k v) k' = if String.eqb k k' then Some v else dict_get d k'.
Proof.
  induction d as [|[k0 v0] d IH]; simpl.
  - destruct (String.eqb k k'); reflexivity.
  - destruct (String.eqb_spec k0 k) as [->|Hne]; simpl.
    + destruct (String.eqb k k'); reflexivity.
    + rewrite IH. destruct (String.eqb_spec k k') as [->|Hne'].
      * destruct (String.eqb_spec k0 k'); [contradiction|reflexivity].
      * reflexivity.
Qed.

Lemma dict_set_keys {A} (d : Dict A) (k : string) (v : A) :
  map fst (dict_set d k v)
  = if dict_has d k then map fst d else (map fst d ++ [k])%list.
Proof.
  unfold dict_has. induction d as [|[k0 v0] d IH]; simpl; [reflexivity|].
  destruct (String.eqb k0 k); simpl; [reflexivity|].
  rewrite IH. destruct (dict_get d k); reflexivity.
Qed.

Lemma dict_set_NoDup {A} (d : Dict A) (k : string) (v : A) :
  NoDup (map fst d) -> NoDup (map fst (dict_set d k v)).
Proof.
  intros Hd. rewrite dict_set_keys. destruct (dict_has d k) eqn:E; [exact Hd|].
  apply NoDup_app; [exact Hd | repeat constructor; simpl; tauto |].
  intros x Hx [<-|[]]. apply dict_has_in in Hx. congruence.
Qed.

(** The keys of the lookup built by [validate] are pairwise distinct. *)
Lemma fields_by_name_NoDup (fs : list FormField.t) :
  NoDup (map fst (fields_by_name fs)).
Proof.
  unfold fields_by_name.
  assert (H : forall d, NoDup (map fst d) ->
              NoDup (map fst (fold_left
                (fun d f => dict_set d (FormField.name f) f) fs d))).
  { induction fs as [|f fs IH]; simpl; intros d Hd; [exact Hd|].
    apply IH. now apply dict_set_NoDup. }
  apply H. constructor.
Qed.

Lemma dict_set_new {A} (d : Dict A) (k : string) (v : A) :
  ~ In k (map fst d) -> dict_set d k v = d ++ [(k, v)].
Proof.
  induction d as [|[k0 v0] d IH]; simpl; intros Hk; [reflexivity|].
  destruct (String.eqb_spec k0 k) as [->|_]; [tauto|].
  rewrite IH; [reflexivity|tauto].
Qed.

(** When the names of the fields are pairwise distinct, as
    [unique_together = ['form_version', 'name']] has it, the lookup lists
    every field under its name, in the order of the fields. *)
Lemma fields_by_name_distinct (fs : list FormField.t) :
  NoDup (map FormField.name fs) ->
  fields_by_name fs = map (fun f => (FormField.name f, f)) fs.
Proof.
  unfold fields_by_name.
  assert (H : forall d,
            NoDup (map fst d ++ map FormField.name fs) ->
            fold_left (fun d f => dict_set d (FormField.name f) f) fs d
            = d ++ map (fun f => (FormField.name f, f)) fs).
  { induction fs as [|f fs IH]; simpl; intros d Hd; [now rewrite app_nil_r|].
    assert (Hf : ~ In (FormField.name f) (map fst d)).
    { intros Hin. apply NoDup_remove_2 in Hd. apply Hd, in_or_app. now left. }
    rewrite IH, (dict_set_new d _ f Hf), <- app_assoc; [reflexivity|].
    rewrite (dict_set_new d _ f Hf), map_app, <- app_assoc. exact Hd. }
  intros Hfs. apply (H []). exact Hfs.
Qed.

Lemma validate_fields_app (pre post : Dict FormField.t) (rs : Dict JSON) :
  validate_fields (pre ++ post) rs
  = (validate_fields pre rs ;;; validate_fields post rs).
Proof.
  induction pre as [|item pre IH]; simpl; [reflexivity|].
  destruct (validate_field rs item) as [[]|e]; simpl; [exact IH|reflexivity].
Qed.

Lemma validate_fields_ext (items : Dict FormField.t) (rs rs' : Dict JSON) :
  (forall item, In item items -> validate_field rs' item = validate_field rs item) ->
  validate_fields items rs' = validate_fields items rs.
Proof.
  induction items as [|item items IH]; simpl; intros H; [reflexivity|].
  rewrite (H item (or_introl eq_refl)), IH; [reflexivity|].
  intros x Hx. apply H. now right.
Qed.

(** A payload entry under another name does not change a field's turn. *)
Lemma validate_field_set_other (rs : Dict JSON) (n : string) (v : JSON)
    (item : string * FormField.t) :
  fst item <> n ->
  validate_field (dict_set rs n v) item = validate_field rs item.
Proof.
  destruct item as [k g]. simpl. intros Hne. unfold dict_has.
  rewrite !dict_get_set.
  destruct (String.eqb_spec n k) as [->|_]; [contradiction|reflexivity].
Qed.

Lemma validate_fields_set_other (items : Dict FormField.t) (rs : Dict JSON)
    (n : string) (v : JSON) :
  ~ In n (map fst items) ->
  validate_fields items (dict_set rs n v) = validate_fields items rs.
Proof.
  intros Hn. apply validate_fields_ext. intros item Hitem.
  apply validate_field_set_other. intros <-. apply Hn. now apply in_map.
Qed.

Lemma validate_field_value_unchecked (f : FormField.t) (v : JSON) :
  unchecked (FormField.field_type f) = true -> _validate_field_value f v = Ok tt.
Proof.
  unfold _validate_field_value.
  destruct (FormField.field_type f); simpl; intros H;
    (discriminate || reflexivity).
Qed.

(** C10. For a field of type date, phone, checkbox, file or multi_file,
    [_validate_field_value] accepts every value, [null] included, whatever
    the configuration; when the payload has the field's name, the field's
    turn in [validate] passes even if the field is required, and
    [validate] gives what it gives without that field. *)
Theorem unchecked_types_accept_any_value
    (f : FormField.t) (n : string) (rs : Dict JSON) :
  unchecked (FormField.field_type f) = true ->
  dict_has rs n = true ->
  (forall v, _validate_field_value f v = Ok tt) /\
  validate_field rs (n, f) = Ok tt /\
  (forall pre post,
     validate_fields (pre ++ (n, f) :: post) rs = validate_fields (pre ++ post) rs).
Proof.
  intros Htype Hhas.
  assert (Hturn : validate_field rs (n, f) = Ok tt).
  { unfold validate_field. rewrite Hhas, andb_false_r. simpl.
    destruct (dict_get rs n); [|reflexivity].
    now apply validate_field_value_unchecked. }
  split; [intros v; now apply validate_field_value_unchecked|].
  split; [exact Hturn|].
  intros pre post. rewrite !validate_fields_app. cbn [validate_fields].
  rewrite Hturn. reflexivity.
Qed.

Lemma unchecked_types_accept_any_value_witness :
  _validate_field_value birth_date_field JNull = Ok tt /\
  validate_fields [("birth_date", birth_date_field); ("age", age_field)]
                  [("birth_date", JNull); ("age", JInt 30)]
  = validate_fields [("age", age_field)] [("birth_date", JNull); ("age", JInt 30)].
Proof.
  destruct (unchecked_types_accept_any_value birth_date_field "birth_date"
              [("birth_date", JNull); ("age", JInt 30)] eq_refl eq_refl)
    as [Hany [_ Hskip]].
  split; [apply Hany | apply (Hskip [] [("age", age_field)])].
Defined.

Lemma validate_field_missing_required (rs : Dict JSON) (n : string)
    (f : FormField.t) :
  dict_get (FormField.config f) "required" = Some (JBool true) ->
  dict_has rs n = false ->
  validate_field rs (n, f)
  = Raise (ValidationError (FieldRequired (FormField.label f))).
Proof.
  intros Hreq Hmiss. unfold validate_field, dict_get_default.
  rewrite Hreq, Hmiss. reflexivity.
Qed.

Lemma validate_field_supplied (rs : Dict JSON) (n : string) (f : FormField.t)
    (v : JSON) :
  validate_field (dict_set rs n v) (n, f) = _validate_field_value f v.
Proof.
  unfold validate_field, dict_has. rewrite dict_get_set, String.eqb_refl.
  rewrite andb_false_r. reflexivity.
Qed.

(** C5, as the code has it.  [validate] stops at the first field, in
    field order, that fails.  When a field with [required] true has its
    name absent from the payload, [validate] fails; the error is the
    "required" message with that field's label when every field before it
    passes; and the payload extended with a value for that name, one the
    field's own checks accept, is accepted when the fields before and
    after it pass. *)
Theorem validate_required_field_missing
    (data : Data) (w : World) (form : Form.t) (version : UUID)
    (pre post : Dict FormField.t) (n : string) (f : FormField.t) :
  get_row Form.id (form_id data) (db_forms w) = Some form ->
  Form.current_version form = Some version ->
  fields_by_name (version_fields version w) = pre ++ (n, f) :: post ->
  dict_get (FormField.config f) "required" = Some (JBool true) ->
  dict_has (responses data) n = false ->
  (exists e, validate data w = Raise e) /\
  (validate_fields pre (responses data) = Ok tt ->
   validate data w = Raise (ValidationError (FieldRequired (FormField.label f)))) /\
  (forall v,
     validate_fields pre (responses data) = Ok tt ->
     validate_fields post (responses data) = Ok tt ->
     _validate_field_value f v = Ok tt ->
     validate (with_responses data (dict_set (responses data) n v)) w
     = Ok (with_responses data (dict_set (responses data) n v))).
Proof.
  intros Hform Hversion Hsplit Hreq Hmiss.
  pose proof (validate_field_missing_required _ n f Hreq Hmiss) as Hturn.
  assert (Hnodup : NoDup (map fst (pre ++ (n, f) :: post))).
  { rewrite <- Hsplit. apply fields_by_name_NoDup. }
  rewrite map_app in Hnodup. simpl in Hnodup.
  pose proof (NoDup_remove_2 _ _ _ Hnodup) as Hfresh.
  assert (Hpre : ~ In n (map fst pre)) by (intros H; apply Hfresh, in_or_app; auto).
  assert (Hpost : ~ In n (map fst post)) by (intros H; apply Hfresh, in_or_app; auto).
  split; [|split].
  - unfold validate. rewrite Hform, Hversion, Hsplit, validate_fields_app.
    cbn [validate_fields]. rewrite Hturn.
    destruct (validate_fields pre (responses data)) as [[]|e]; simpl; eauto.
  - intros Hp. unfold validate.
    rewrite Hform, Hversion, Hsplit, validate_fields_app.
    cbn [validate_fields]. rewrite Hp, Hturn. reflexivity.
  - intros v Hp Hq Hv. unfold validate, with_responses.
    cbn [form_id responses]. rewrite Hform, Hversion, Hsplit, validate_fields_app.
    cbn [validate_fields].
    rewrite validate_fields_set_other by exact Hpre.
    rewrite validate_fields_set_other by exact Hpost.
    rewrite validate_field_supplied, Hp, Hq, Hv. reflexivity.
Qed.

Lemma validate_required_field_missing_witness :
  validate (signup [("full_name", JStr "John Doe")]) signup_world
  = Raise (ValidationError (FieldRequired "Email")) /\
  validate (signup [("full_name", JStr "John Doe");
                    ("email", JStr "john@example.com")]) signup_world
  = Ok (signup [("full_name", JStr "John Doe");
                ("email", JStr "john@example.com")]).
Proof.
  destruct (validate_required_field_missing
              (signup [("full_name", JStr "John Doe")]) signup_world
              (Form.set_current_version kyc_form (Some 1%N)) 1%N
              [("full_name", full_name_field)] [] "email" email_field
              eq_refl eq_refl eq_refl eq_refl eq_refl) as [_ [Hname Hsupplied]].
  split.
  - apply Hname. reflexivity.
  - apply (Hsupplied (JStr "john@example.com")); reflexivity.
Defined.

(** C5 as stated fails.  With both fields of the sample form required and
    an empty payload, [email] is required and absent, yet the error names
    the label of [full_name]; and the payload extended with a valid
    [email] is still refused. *)
Lemma validate_names_first_failing_field :
  In email_field (version_fields 1%N signup_world) /\
  dict_get (FormField.config email_field) "required" = Some (JBool true) /\
  dict_has (responses (signup [])) "email" = false /\
  _validate_field_value email_field (JStr "john@example.com") = Ok tt /\
  validate (signup []) signup_world
  = Raise (ValidationError (FieldRequired "Full Name")) /\
  FormField.label email_field <> "Full Name" /\
  validate (signup [("email", JStr "john@example.com")]) signup_world
  = Raise (ValidationError (FieldRequired "Full Name")).
Proof.
  split; [right; left; reflexivity|].
  repeat (split; [reflexivity|]).
  split; [discriminate|reflexivity].
Qed.

(** *** Number fields *)

Local Open Scope Q_scope.

Lemma json_number_num_of (v : JSON) (q : Q) :
  json_number v = Some q -> num_of v = Some q.
Proof. destruct v; simpl; congruence. Qed.

Lemma as_bound_absent (j : JSON) : as_bound j = Some None -> j = JNull.
Proof. destruct j; simpl; congruence. Qed.

Lemma as_bound_present (j : JSON) (l : Q) :
  as_bound j = Some (Some l) ->
  num_of j = Some l /\
  (forall v, below_min_value v j = py_lt v j) /\
  (forall v, above_max_value v j = py_gt v j).
Proof. destruct j; simpl; intros H; inversion H; auto. Qed.

Lemma py_lt_numbers (a b : JSON) (x y : Q) :
  num_of a = Some x -> num_of b = Some y ->
  py_lt a b = Ok (match x ?= y with Lt => true | _ => false end).
Proof. intros Ha Hb. unfold py_lt. now rewrite Ha, Hb. Qed.

Lemma lt_flag_true (x y : Q) :
  match x ?= y with Lt => true | _ => false end = true <-> x < y.
Proof.
  rewrite Qlt_alt. destruct (x ?= y); split; congruence.
Qed.

Lemma lt_flag_false (x y : Q) :
  match x ?= y with Lt => true | _ => false end = false <-> y <= x.
Proof.
  rewrite <- not_true_iff_false, lt_flag_true. split.
  - apply Qnot_lt_le.
  - apply Qle_not_lt.
Qed.

Lemma number_field_runs_number_block (f : FormField.t) (v : JSON) :
  FormField.field_type f = number ->
  _validate_field_value f v = number_validations f v.
Proof.
  intros Htype. unfold _validate_field_value. rewrite Htype. simpl.
  destruct (number_validations f v) as [[]|e]; reflexivity.
Qed.

(** What the number block does on a number, in terms of the two bounds. *)
Lemma number_validations_spec (f : FormField.t) (value : JSON) (q : Q)
    (lo hi : option Q) :
  as_bound (dict_get_default (FormField.config f) "min_value" JNull) = Some lo ->
  as_bound (dict_get_default (FormField.config f) "max_value" JNull) = Some hi ->
  num_of value = Some q ->
  number_validations f value =
  (raise_if match lo with
            | Some l => match q ?= l with Lt => true | _ => false end
            | None => false
            end
            (ValidationError
               (MinimumValue (FormField.label f)
                  (dict_get_default (FormField.config f) "min_value" JNull))) ;;;
   raise_if match hi with
            | Some h => match h ?= q with Lt => true | _ => false end
            | None => false
            end
            (ValidationError
               (MaximumValue (FormField.label f)
                  (dict_get_default (FormField.config f) "max_value" JNull)))).
Proof.
  intros Hlo Hhi Hq. unfold number_validations. rewrite Hq.
  set (mn := dict_get_default (FormField.config f) "min_value" JNull) in *.
  set (mx := dict_get_default (FormField.config f) "max_value" JNull) in *.
  assert (Hmin : below_min_value value mn
                 = Ok match lo with
                      | Some l => match q ?= l with Lt => true | _ => false end
                      | None => false
                      end).
  { destruct lo as [l|].
    - destruct (as_bound_present mn l Hlo) as [Hn [Hb _]].
      rewrite Hb. now apply py_lt_numbers.
    - now rewrite (as_bound_absent mn Hlo). }
  assert (Hmax : above_max_value value mx
                 = Ok match hi with
                      | Some h => match h ?= q with Lt => true | _ => false end
                      | None => false
                      end).
  { destruct hi as [h|].
    - destruct (as_bound_present mx h Hhi) as [Hn [_ Ha]].
      rewrite Ha. unfold py_gt. now apply py_lt_numbers.
    - now rewrite (as_bound_absent mx Hhi). }
  rewrite Hmin, Hmax. reflexivity.
Qed.

(** X25. On a number field whose [min_value] and [max_value] are absent
    or numbers: a value that is neither a number nor a boolean is refused
    as not a number; a number below [min_value] is refused with the
    minimum message; a number above [max_value] is refused, with the
    maximum message when it is not also below the minimum; and a number
    is accepted exactly when it lies within the bounds that are set, both
    included.  A value equal to a bound is thus accepted when it respects
    the other bound. *)
Theorem number_field_bounds_inclusive
    (f : FormField.t) (value : JSON) (lo hi : option Q) :
  FormField.field_type f = number ->
  as_bound (dict_get_default (FormField.config f) "min_value" JNull) = Some lo ->
  as_bound (dict_get_default (FormField.config f) "max_value" JNull) = Some hi ->
  (num_of value = None ->
   _validate_field_value f value
   = Raise (ValidationError (ExpectedNumber (FormField.label f)))) /\
  (forall q, json_number value = Some q ->
     (forall l, lo = Some l -> q < l ->
        _validate_field_value f value
        = Raise (ValidationError
                   (MinimumValue (FormField.label f)
                      (dict_get_default (FormField.config f) "min_value" JNull)))) /\
     (forall h, hi = Some h -> h < q ->
        (exists d, _validate_field_value f value = Raise (ValidationError d)) /\
        ((forall l, lo = Some l -> l <= q) ->
         _validate_field_value f value
         = Raise (ValidationError
                    (MaximumValue (FormField.label f)
                       (dict_get_default (FormField.config f) "max_value" JNull))))) /\
     (_validate_field_value f value = Ok tt <->
      (forall l, lo = Some l -> l <= q) /\ (forall h, hi = Some h -> q <= h)) /\
     (forall l, lo = Some l -> q == l -> (forall h, hi = Some h -> l <= h) ->
        _validate_field_value f value = Ok tt) /\
     (forall h, hi = Some h -> q == h -> (forall l, lo = Some l -> l <= h) ->
        _validate_field_value f value = Ok tt)).
Proof.
  intros Htype Hlo Hhi.
  rewrite (number_field_runs_number_block f value Htype).
  split.
  - intros Hnone. unfold number_validations. now rewrite Hnone.
  - intros q Hq. apply json_number_num_of in Hq.
    rewrite (number_validations_spec f value q lo hi Hlo Hhi Hq).
    assert (Hiff :
      (raise_if match lo with
                | Some l => match q ?= l with Lt => true | _ => false end
                | None => false
                end
                (ValidationError
                   (MinimumValue (FormField.label f)
                      (dict_get_default (FormField.config f) "min_value" JNull))) ;;;
       raise_if match hi with
                | Some h => match h ?= q with Lt => true | _ => false end
                | None => false
                end
                (ValidationError
                   (MaximumValue (FormField.label f)
                      (dict_get_default (FormField.config f) "max_value" JNull))))
      = Ok tt <->
      (forall l, lo = Some l -> l <= q) /\ (forall h, hi = Some h -> q <= h)).
    { destruct lo as [l|], hi as [h|]; simpl;
        try destruct (match q ?= l with Lt => true | _ => false end) eqn:El;
        try destruct (match h ?= q with Lt => true | _ => false end) eqn:Eh;
        simpl;
        try apply lt_flag_true in El; try apply lt_flag_false in El;
        try apply lt_flag_true in Eh; try apply lt_flag_false in Eh;
        (split;
         [ intros H; try discriminate H;
           split; intros x Hx; inversion Hx; subst; assumption
         | intros [H1 H2]; try reflexivity;
           try (specialize (H1 _ eq_refl)); try (specialize (H2 _ eq_refl));
           lra ]). }
    split; [|split; [|split; [exact Hiff|split]]].
    + intros l -> Hlt. simpl. apply lt_flag_true in Hlt. now rewrite Hlt.
    + intros h -> Hlt. apply lt_flag_true in Hlt. split.
      * destruct lo as [l|]; simpl; rewrite Hlt;
          [destruct (match q ?= l with Lt => true | _ => false end)|];
          simpl; eauto.
      * intros Hmin. destruct lo as [l|]; simpl; rewrite Hlt; [|reflexivity].
        specialize (Hmin l eq_refl). apply lt_flag_false in Hmin.
        now rewrite Hmin.
    + intros l -> Heq Hcross. apply Hiff. split.
      * intros l' Hl'. inversion Hl'; subst. lra.
      * intros h Hh. specialize (Hcross h Hh). lra.
    + intros h -> Heq Hcross. apply Hiff. split.
      * intros l Hl. specialize (Hcross l Hl). lra.
      * intros h' Hh'. inversion Hh'; subst. lra.
Qed.

Local Close Scope Q_scope.

Lemma number_field_bounds_inclusive_witness :
  _validate_field_value age_field (JStr "25")
  = Raise (ValidationError (ExpectedNumber "Age")) /\
  _validate_field_value age_field (JInt 15)
  = Raise (ValidationError (MinimumValue "Age" (JInt 18))) /\
  _validate_field_value age_field (JInt 18) = Ok tt /\
  _validate_field_value age_field (JInt 100) = Ok tt /\
  _validate_field_value age_field (JInt 101)
  = Raise (ValidationError (MaximumValue "Age" (JInt 100))).
Proof.
  assert (H18 : as_bound (dict_get_default (FormField.config age_field)
                            "min_value" JNull) = Some (Some (inject_Z 18)))
    by reflexivity.
  assert (H100 : as_bound (dict_get_default (FormField.config age_field)
                             "max_value" JNull) = Some (Some (inject_Z 100)))
    by reflexivity.
  split; [apply (number_field_bounds_inclusive age_field (JStr "25") _ _
                   eq_refl H18 H100); reflexivity|].
  split; [apply (number_field_bounds_inclusive age_field (JInt 15) _ _
                   eq_refl H18 H100) with (q := inject_Z 15) (l := inject_Z 18);
          reflexivity|].
  split; [apply (number_field_bounds_inclusive age_field (JInt 18) _ _
                   eq_refl H18 H100) with (q := inject_Z 18) (l := inject_Z 18);
          try reflexivity; intros h Hh; inversion Hh; discriminate|].
  split; [apply (number_field_bounds_inclusive age_field (JInt 100) _ _
                   eq_refl H18 H100) with (q := inject_Z 100) (h := inject_Z 100);
          try reflexivity; intros l Hl; inversion Hl; discriminate|].
  apply (number_field_bounds_inclusive age_field (JInt 101) _ _
           eq_refl H18 H100) with (q := inject_Z 101) (h := inject_Z 100);
    try reflexivity.
  intros l Hl; inversion Hl; discriminate.
Defined.

Lemma py_lt_raises (a b : JSON) (e : Exn) :
  py_lt a b = Raise e -> e = TypeError.
Proof.
  unfold py_lt. destruct (num_of a), (num_of b); intros H; now inversion H.
Qed.

Lemma below_min_value_raises (v mn : JSON) (e : Exn) :
  below_min_value v mn = Raise e -> e = TypeError.
Proof.
  unfold below_min_value.
  destruct mn; try discriminate; apply py_lt_raises.
Qed.

Lemma above_max_value_raises (v mx : JSON) (e : Exn) :
  above_max_value v mx = Raise e -> e = TypeError.
Proof.
  unfold above_max_value, py_gt.
  destruct mx; try discriminate; apply py_lt_raises.
Qed.

(** C8.  The number block tests [isinstance(value, (int, float))],
    which holds of [True] and [False] since [bool] is a subclass of
    [int]: on a number field a boolean is never refused as not a number.
    It is handled as the number 1 or 0, so the field accepts it when that
    number lies within the bounds, and with no bound set it accepts both
    booleans. *)
Theorem number_field_takes_booleans_as_numbers (f : FormField.t) (b : bool) :
  FormField.field_type f = number ->
  _validate_field_value f (JBool b)
  = _validate_field_value f (JInt (if b then 1 else 0)) /\
  _validate_field_value f (JBool b)
  <> Raise (ValidationError (ExpectedNumber (FormField.label f))) /\
  (dict_get (FormField.config f) "min_value" = None ->
   dict_get (FormField.config f) "max_value" = None ->
   _validate_field_value f (JBool b) = Ok tt).
Proof.
  intros Htype.
  rewrite !(number_field_runs_number_block f _ Htype).
  split; [destruct b; reflexivity|]. split.
  - unfold number_validations. cbn [num_of]. intros H.
    destruct (below_min_value (JBool b) _) as [low|e] eqn:Hlow;
      cbn [bind] in H.
    + destruct low; cbn [raise_if bind] in H; [discriminate|].
      destruct (above_max_value (JBool b) _) as [high|e] eqn:Hhigh;
        cbn [bind] in H.
      * destruct high; cbn [raise_if] in H; discriminate.
      * apply above_max_value_raises in Hhigh. subst e. discriminate.
    + apply below_min_value_raises in Hlow. subst e. discriminate.
  - intros Hmin Hmax. unfold number_validations, dict_get_default.
    rewrite Hmin, Hmax. reflexivity.
Qed.

(** The JSON value [true] sent for a number field with bounds 0 and 10
    is accepted. *)
Lemma number_field_takes_booleans_as_numbers_witness :
  _validate_field_value rating_field (JBool true) = Ok tt
  /\ _validate_field_value
       (FormField.mk 15%N 2%N "count" "Count" number 4 [] 4) (JBool false)
     = Ok tt.
Proof.
  split.
  - destruct (number_field_takes_booleans_as_numbers rating_field true eq_refl)
      as [Hsame _].
    rewrite Hsame. reflexivity.
  - apply (number_field_takes_booleans_as_numbers
             (FormField.mk 15%N 2%N "count" "Count" number 4 [] 4) false);
      reflexivity.
Defined.

(** ** File attachment gate *)

Import FileUploadViewSet.

Local Open Scope Q_scope.

Lemma exceeds_max_size_spec (size : Z) (j : JSON) (m : Q) :
  json_number j = Some m ->
  exceeds_max_size size j
  = Ok (match m * 1024 * 1024 ?= inject_Z size with Lt => true | _ => false end).
Proof.
  intros Hj. unfold exceeds_max_size. rewrite (json_number_num_of j m Hj).
  reflexivity.
Qed.

Lemma upload_too_big (storage_refuses : UploadedFile -> bool) (user : User)
    (request : Request) (w : World) (up : UploadedFile) (r : FieldResponse.t) (f : FormField.t) (m : Q) :
  reaches_size_check user request w up r f ->
  json_number (dict_get_default (FormField.config f) "max_size_mb" (JInt 10))
  = Some m ->
  m * 1048576 < inject_Z (upload_size up) ->
  create storage_refuses user request w
  = Ok (mkResponse
          (ErrorBody (FileSizeExceeds
             (dict_get_default (FormField.config f) "max_size_mb" (JInt 10))))
          HTTP_400_BAD_REQUEST, w).
Proof.
  intros [rid [s [Hid [Hfile [Hname [Hget [Hperm Htype]]]]]]] Hm Hbig.
  unfold create. rewrite Hid, Hfile, Hget, Hperm.
  destruct (String.eqb_spec (upload_name up) "") as [E|_]; [contradiction|].
  rewrite (exceeds_max_size_spec _ _ m Hm).
  assert (Hflag : match m * 1024 * 1024 ?= inject_Z (upload_size up) with
                  | Lt => true | _ => false end = true)
    by (apply lt_flag_true; lra).
  rewrite Hflag. destruct Htype as [-> | ->]; reflexivity.
Qed.

(** The insert of the file row, by what [storable] says. *)
Lemma FileUpload_objects_create_storable
    (storage_refuses : UploadedFile -> bool) (i : UUID) (up : UploadedFile)
    (w : World) :
  (storable storage_refuses up = true ->
   FileUpload_objects_create storage_refuses i up w
   = Ok (uploaded_row w i up, with_file w (uploaded_row w i up))) /\
  (storable storage_refuses up = false ->
   FileUpload_objects_create storage_refuses i up w
   = Raise (store_error storage_refuses up)).
Proof.
  unfold storable, store_error, FileUpload_objects_create.
  destruct (storage_refuses up); cbn [negb andb]; [split; [discriminate|reflexivity]|].
  destruct (str_has_nul (upload_name up)); cbn [negb andb orb];
    [split; [discriminate|reflexivity]|].
  destruct (str_has_nul (upload_content_type up)); cbn [negb andb orb];
    [split; [discriminate|reflexivity]|].
  destruct (Nat.leb_spec (String.length (upload_name up)) 255) as [H1|H1];
    destruct (Z.leb_spec (upload_size up) MAX_INTEGER) as [H2|H2];
    destruct (Nat.leb_spec (String.length (upload_content_type up)) 100)
      as [H3|H3];
    cbn [andb]; split; try discriminate; intros _;
    destruct (Nat.ltb_spec 255 (String.length (upload_name up)));
    destruct (Z.ltb_spec MAX_INTEGER (upload_size up));
    destruct (Nat.ltb_spec 100 (String.length (upload_content_type up)));
    try lia; reflexivity.
Qed.

Lemma files_count_with_file (w : World) (row : FileUpload.t) :
  files_count (FileUpload.field_response row) (with_file w row)
  = (files_count (FileUpload.field_response row) w + 1)%Z.
Proof.
  unfold files_count, with_file. simpl. rewrite filter_app, length_app. simpl.
  rewrite N.eqb_refl. simpl. lia.
Qed.

(** The count gate of a multi_file field, for an upload that passes the
    size and accept checks. *)
Lemma upload_count_gate (storage_refuses : UploadedFile -> bool) (user : User)
    (request : Request) (w : World)
    (up : UploadedFile) (r : FieldResponse.t) (f : FormField.t) (m k : Q) :
  reaches_size_check user request w up r f ->
  FormField.field_type f = multi_file ->
  json_number (dict_get_default (FormField.config f) "max_size_mb" (JInt 10))
  = Some m ->
  inject_Z (upload_size up) <= m * 1048576 ->
  accept_refuses (upload_name up)
                 (dict_get_default (FormField.config f) "accept" (JStr ""))
  = Ok None ->
  json_number (dict_get_default (FormField.config f) "max_files" (JInt 5))
  = Some k ->
  (k <= inject_Z (files_count (FieldResponse.id r) w) ->
   create storage_refuses user request w
   = Ok (mkResponse
           (ErrorBody (MaximumFiles
              (dict_get_default (FormField.config f) "max_files" (JInt 5))))
           HTTP_400_BAD_REQUEST, w)) /\
  (inject_Z (files_count (FieldResponse.id r) w) < k ->
   create storage_refuses user request w
   = (x <- FileUpload_objects_create storage_refuses (FieldResponse.id r) up w ;;
      Ok (mkResponse (FileUploadBody (fst x)) HTTP_201_CREATED, snd x))).
Proof.
  intros [rid [s [Hid [Hfile [Hname [Hget [Hperm _]]]]]]] Htype Hm Hsize Hacc Hk.
  unfold create. rewrite Hid, Hfile, Hget, Hperm, Htype.
  destruct (String.eqb_spec (upload_name up) "") as [E|_]; [contradiction|].
  rewrite (exceeds_max_size_spec _ _ m Hm).
  assert (Hflag : match m * 1024 * 1024 ?= inject_Z (upload_size up) with
                  | Lt => true | _ => false end = false)
    by (apply lt_flag_false; lra).
  rewrite Hflag. cbn [bind]. rewrite Hacc. cbn [bind].
  unfold py_ge. rewrite (json_number_num_of _ k Hk). cbn [num_of bind].
  split; intros Hcount.
  - apply lt_flag_false in Hcount.
    destruct (inject_Z (files_count (FieldResponse.id r) w) ?= k);
      (discriminate || reflexivity).
  - apply lt_flag_true in Hcount.
    assert (Hlt : (inject_Z (files_count (FieldResponse.id r) w) ?= k) = Lt)
      by (destruct (inject_Z (files_count (FieldResponse.id r) w) ?= k);
          (discriminate || reflexivity)).
    rewrite Hlt.
    destruct (FileUpload_objects_create storage_refuses (FieldResponse.id r) up w)
      as [[row w1]|e]; reflexivity.
Qed.

(** The same gate for a file that the storage and the database take. *)
Lemma upload_stored (storage_refuses : UploadedFile -> bool) (user : User)
    (request : Request) (w : World)
    (up : UploadedFile) (r : FieldResponse.t) (f : FormField.t) (m k : Q) :
  reaches_size_check user request w up r f ->
  FormField.field_type f = multi_file ->
  json_number (dict_get_default (FormField.config f) "max_size_mb" (JInt 10))
  = Some m ->
  inject_Z (upload_size up) <= m * 1048576 ->
  accept_refuses (upload_name up)
                 (dict_get_default (FormField.config f) "accept" (JStr ""))
  = Ok None ->
  json_number (dict_get_default (FormField.config f) "max_files" (JInt 5))
  = Some k ->
  inject_Z (files_count (FieldResponse.id r) w) < k ->
  storable storage_refuses up = true ->
  create storage_refuses user request w
  = Ok (mkResponse (FileUploadBody (uploaded_row w (FieldResponse.id r) up))
                   HTTP_201_CREATED,
        with_file w (uploaded_row w (FieldResponse.id r) up)).
Proof.
  intros Hreach Htype Hm Hsize Hacc Hk Hroom Hst.
  destruct (upload_count_gate storage_refuses user request w up r f m k
              Hreach Htype Hm Hsize Hacc Hk) as [_ Hgate].
  rewrite (Hgate Hroom).
  destruct (FileUpload_objects_create_storable storage_refuses
              (FieldResponse.id r) up w) as [Hok _].
  rewrite (Hok Hst). reflexivity.
Qed.

Lemma reaches_size_check_with_file (user : User) (request : Request) (w : World)
    (up : UploadedFile) (r : FieldResponse.t) (f : FormField.t)
    (row : FileUpload.t) :
  reaches_size_check user request w up r f ->
  reaches_size_check user request (with_file w row) up r f.
Proof.
  intros [rid [s [Hid [Hfile [Hname [Hget H]]]]]].
  exists rid, s. repeat split; tauto.
Qed.

(** Successive uploads to a multi_file field that holds [n - j] files and
    allows [n]: [j] are stored, the next is refused. *)
Lemma upload_times_until_full (storage_refuses : UploadedFile -> bool)
    (user : User) (request : Request) (up : UploadedFile) (r : FieldResponse.t) (f : FormField.t) (m : Q) (n : Z) :
  FormField.field_type f = multi_file ->
  json_number (dict_get_default (FormField.config f) "max_size_mb" (JInt 10))
  = Some m ->
  inject_Z (upload_size up) <= m * 1048576 ->
  accept_refuses (upload_name up)
                 (dict_get_default (FormField.config f) "accept" (JStr ""))
  = Ok None ->
  dict_get_default (FormField.config f) "max_files" (JInt 5) = JInt n ->
  storable storage_refuses up = true ->
  forall (j : nat) (w : World),
    reaches_size_check user request w up r f ->
    (files_count (FieldResponse.id r) w + Z.of_nat j = n)%Z ->
    exists w',
      upload_times storage_refuses (S j) user request w
      = Ok (repeat HTTP_201_CREATED j ++ [HTTP_400_BAD_REQUEST], w') /\
      files_count (FieldResponse.id r) w' = n.
Proof.
  intros Htype Hm Hsize Hacc Hmax Hst.
  assert (Hk : json_number (dict_get_default (FormField.config f) "max_files"
                              (JInt 5)) = Some (inject_Z n))
    by (now rewrite Hmax).
  induction j as [|j IH]; intros w Hreach Hcount.
  - destruct (upload_count_gate storage_refuses user request w up r f m
                (inject_Z n) Hreach Htype Hm Hsize Hacc Hk) as [Hfull _].
    exists w. cbn [upload_times]. rewrite Hfull.
    + simpl. split; [reflexivity|lia].
    + rewrite <- Zle_Qle. lia.
  - pose proof (fun H => upload_stored storage_refuses user request w up r f m
                              (inject_Z n) Hreach Htype Hm Hsize Hacc Hk H Hst)
      as Hroom.
    set (row := uploaded_row w (FieldResponse.id r) up) in *.
    destruct (IH (with_file w row)) as [w' [Hrun Hfinal]].
    + now apply reaches_size_check_with_file.
    + change (FieldResponse.id r) with (FileUpload.field_response row).
      rewrite files_count_with_file. simpl. lia.
    + exists w'. split; [|exact Hfinal].
      change (upload_times storage_refuses (S (S j)) user request w)
        with (x <- create storage_refuses user request w ;;
              rest <- upload_times storage_refuses (S j) user request (snd x) ;;
              Ok (status_code (fst x) :: fst rest, snd rest)).
      rewrite Hroom by (rewrite <- Zlt_Qlt; lia).
      cbn [bind snd fst]. rewrite Hrun. reflexivity.
Qed.

(** C9. For an upload against a response to a file or multi_file field
    whose [max_size_mb] (default 10) is a number: a file of more than
    [max_size_mb] times 1,048,576 bytes is refused with the size error and
    nothing is stored.  On a multi_file field whose [max_files] (default
    5) is a number, an upload that passes the size and accept checks is
    refused with the count error exactly when the number of files already
    attached has reached [max_files]; below that number the view goes on
    to store the file, which succeeds when the storage and the database
    take it and raises otherwise, nothing being stored.  Hence, starting
    without files and with an integer [max_files], the first [max_files]
    uploads of a file that can be stored are stored and the one after is
    refused. *)
Theorem upload_size_and_count_limits
    (storage_refuses : UploadedFile -> bool)
    (user : User) (request : Request) (w : World) (up : UploadedFile)
    (r : FieldResponse.t) (f : FormField.t) (m : Q) :
  reaches_size_check user request w up r f ->
  json_number (dict_get_default (FormField.config f) "max_size_mb" (JInt 10))
  = Some m ->
  (m * 1048576 < inject_Z (upload_size up) ->
   create storage_refuses user request w
   = Ok (mkResponse
           (ErrorBody (FileSizeExceeds
              (dict_get_default (FormField.config f) "max_size_mb" (JInt 10))))
           HTTP_400_BAD_REQUEST, w)) /\
  (FormField.field_type f = multi_file ->
   inject_Z (upload_size up) <= m * 1048576 ->
   accept_refuses (upload_name up)
                  (dict_get_default (FormField.config f) "accept" (JStr ""))
   = Ok None ->
   (forall k,
      json_number (dict_get_default (FormField.config f) "max_files" (JInt 5))
      = Some k ->
      (create storage_refuses user request w
       = Ok (mkResponse
               (ErrorBody (MaximumFiles
                  (dict_get_default (FormField.config f) "max_files" (JInt 5))))
               HTTP_400_BAD_REQUEST, w)
       <-> k <= inject_Z (files_count (FieldResponse.id r) w)) /\
      (inject_Z (files_count (FieldResponse.id r) w) < k ->
       storable storage_refuses up = true ->
       create storage_refuses user request w
       = Ok (mkResponse
               (FileUploadBody (uploaded_row w (FieldResponse.id r) up))
               HTTP_201_CREATED,
             with_file w (uploaded_row w (FieldResponse.id r) up)) /\
       files_count (FieldResponse.id r)
                   (with_file w (uploaded_row w (FieldResponse.id r) up))
       = (files_count (FieldResponse.id r) w + 1)%Z) /\
      (inject_Z (files_count (FieldResponse.id r) w) < k ->
       storable storage_refuses up = false ->
       create storage_refuses user request w
       = Raise (store_error storage_refuses up))) /\
   (forall n : Z,
      dict_get_default (FormField.config f) "max_files" (JInt 5) = JInt n ->
      (0 <= n)%Z ->
      files_count (FieldResponse.id r) w = 0%Z ->
      storable storage_refuses up = true ->
      exists w',
        upload_times storage_refuses (S (Z.to_nat n)) user request w
        = Ok (repeat HTTP_201_CREATED (Z.to_nat n) ++ [HTTP_400_BAD_REQUEST], w') /\
        files_count (FieldResponse.id r) w' = n)).
Proof.
  intros Hreach Hm. split.
  - now apply (upload_too_big storage_refuses user request w up r f m).
  - intros Htype Hsize Hacc. split.
    + intros k Hk.
      destruct (upload_count_gate storage_refuses user request w up r f m k
                  Hreach Htype Hm Hsize Hacc Hk) as [Hfull Hroom].
      destruct (FileUpload_objects_create_storable storage_refuses
                  (FieldResponse.id r) up w) as [Hok Hrefused].
      split; [|split].
      * split; [|exact Hfull]. intros Hrun.
        destruct (Qlt_le_dec (inject_Z (files_count (FieldResponse.id r) w)) k)
          as [Hlt|Hle]; [|exact Hle].
        exfalso. rewrite (Hroom Hlt) in Hrun.
        destruct (FileUpload_objects_create storage_refuses
                    (FieldResponse.id r) up w) as [[row w1]|e];
          cbn [bind] in Hrun; discriminate.
      * intros Hlt Hst. split.
        -- rewrite (Hroom Hlt), (Hok Hst). reflexivity.
        -- apply (files_count_with_file w
                    (uploaded_row w (FieldResponse.id r) up)).
      * intros Hlt Hst. rewrite (Hroom Hlt), (Hrefused Hst). reflexivity.
    + intros n Hn Hpos Hzero Hst.
      apply (upload_times_until_full storage_refuses user request up r f m n
               Htype Hm Hsize Hacc Hn Hst (Z.to_nat n) w Hreach).
      rewrite Hzero. lia.
Qed.

Local Close Scope Q_scope.

Lemma upload_size_and_count_limits_witness :
  create any_file alice (upload_of big_pdf) upload_world
  = Ok (mkResponse (ErrorBody (FileSizeExceeds (JInt 1))) HTTP_400_BAD_REQUEST,
        upload_world) /\
  exists w',
    upload_times any_file 3 alice (upload_of passport_pdf) upload_world
    = Ok ([HTTP_201_CREATED; HTTP_201_CREATED; HTTP_400_BAD_REQUEST], w') /\
    files_count 300%N w' = 2.
Proof.
  assert (Hreach : forall up, upload_name up <> "" ->
            reaches_size_check alice (upload_of up) upload_world up
                               documents_response documents_field).
  { intros up Hup. exists 300%N, draft_submission.
    repeat split; try reflexivity; [exact Hup | now right]. }
  split.
  - apply (upload_size_and_count_limits any_file alice (upload_of big_pdf)
             upload_world big_pdf documents_response documents_field
             (inject_Z 1)).
    + apply Hreach. discriminate.
    + reflexivity.
    + reflexivity.
  - apply (upload_size_and_count_limits any_file alice (upload_of passport_pdf)
             upload_world passport_pdf documents_response documents_field
             (inject_Z 1)) with (n := 2).
    + apply Hreach. discriminate.
    + reflexivity.
    + reflexivity.
    + discriminate.
    + reflexivity.
    + reflexivity.
    + lia.
    + reflexivity.
    + reflexivity.
Defined.

(** ** Submission creation *)





Lemma in_insert_by {A} (le : A -> A -> bool) (x y : A) (l : list A) :
  In x (insert_by le y l) <-> x = y \/ In x l.
Proof.
  induction l as [|z l IH]; simpl; [intuition|].
  destruct (le z y); simpl; [rewrite IH|]; intuition.
Qed.

Lemma in_sort_by {A} (le : A -> A -> bool) (x : A) (l : list A) :
  In x (sort_by le l) <-> In x l.
Proof.
  unfold sort_by.
  assert (H : forall acc, In x (fold_left (fun acc y => insert_by le y acc) l acc)
                          <-> In x acc \/ In x l).
  { induction l as [|y l IH]; intros acc; simpl; [intuition|].
    rewrite IH, in_insert_by. intuition. }
  rewrite H. simpl. intuition.
Qed.



Lemma NoDup_map_eq {A B} (g : A -> B) (l : list A) (a b : A) :
  NoDup (map g l) -> In a l -> In b l -> g a = g b -> a = b.
Proof.
  induction l as [|x l IH]; simpl; intros Hnd Ha Hb Heq; [contradiction|].
  inversion Hnd as [|? ? Hx Hnd']; subst.
  destruct Ha as [<-|Ha], Hb as [<-|Hb]; trivial.
  - exfalso. apply Hx. rewrite Heq. now apply in_map.
  - exfalso. apply Hx. rewrite <- Heq. now apply in_map.
  - now apply IH.
Qed.



(** [create] as its first statements followed by the loop over the
    payload. *)
Lemma create_unfold (db_fails : nat -> bool) (data : Data) (user : User)
    (w : World) (form : Form.t) (version : UUID) :
  get_row Form.id (form_id data) (db_forms w) = Some form ->
  Form.current_version form = Some version ->
  FormSubmissionCreateSerializer.create db_fails data user w
  = let r := create_responses db_fails 0 (next_uuid w)
               (fields_by_name (version_fields version w)) (responses data)
               (world_stamped version user (status data) w) in
    mkRun (match result r with
           | Ok _ => Ok (created_submission version user (status data) w)
           | Raise e => Raise e
           end)
          (final r)
          (first_statements version user (status data) w ++ trace r).
Proof.
  intros Hform Hversion. unfold FormSubmissionCreateSerializer.create.
  rewrite Hform, Hversion. destruct (status data); reflexivity.
Qed.





(** ** Schema compiler *)

Lemma field_le_total (a b : FormField.t) :
  field_le a b = false -> field_le b a = true.
Proof.
  unfold field_le. intros H. apply orb_false_iff in H. destruct H as [H1 H2].
  apply Z.ltb_ge in H1. apply andb_false_iff in H2.
  apply orb_true_iff.
  destruct (Z.ltb_spec (FormField.order b) (FormField.order a)); [now left|right].
  apply andb_true_iff. split; [apply Z.eqb_eq; lia|].
  destruct H2 as [H2|H2].
  - apply Z.eqb_neq in H2. lia.
  - apply Z.leb_gt in H2. apply Z.leb_le. lia.
Qed.

Section Sorting.
Context {A : Type} (le : A -> A -> bool).
Hypothesis le_total : forall a b, le a b = false -> le b a = true.

Lemma HdRel_insert_by (a x : A) (l : list A) :
  HdRel (fun a b => le a b = true) a l -> le a x = true ->
  HdRel (fun a b => le a b = true) a (insert_by le x l).
Proof.
  intros Hl Hx. destruct l as [|y l]; simpl; [now constructor|].
  inversion Hl; subst. destruct (le y x); now constructor.
Qed.

Lemma insert_by_sorted (x : A) (l : list A) :
  Sorted (fun a b => le a b = true) l ->
  Sorted (fun a b => le a b = true) (insert_by le x l).
Proof.
  induction l as [|y l IH]; simpl; intros Hl; [repeat constructor|].
  inversion Hl; subst. destruct (le y x) eqn:E.
  - constructor; [now apply IH|]. now apply HdRel_insert_by.
  - constructor; [exact Hl|]. constructor. now apply le_total.
Qed.

Lemma sort_by_sorted (l : list A) :
  Sorted (fun a b => le a b = true) (sort_by le l).
Proof.
  unfold sort_by.
  assert (H : forall acc, Sorted (fun a b => le a b = true) acc ->
              Sorted (fun a b => le a b = true)
                     (fold_left (fun acc x => insert_by le x acc) l acc)).
  { induction l as [|x l IH]; simpl; intros acc Hacc; [exact Hacc|].
    apply IH. now apply insert_by_sorted. }
  apply H. constructor.
Qed.
End Sorting.

(** [version.fields.all()] lists fields of the version, by [order] and
    then by [created_at]. *)
Lemma version_fields_sorted (version : UUID) (w : World) :
  Sorted (fun a b => field_le a b = true) (version_fields version w).
Proof. apply sort_by_sorted. exact field_le_total. Qed.

(** The document built on form creation has the shape
    [{fields: [...]}], one entry per field of the version in the order of
    [version.fields.all()], each entry with the seven keys and each rule
    with the three keys. *)
Lemma create_schema_shape (version : FormVersion.t) (w : World) :
  FormCreateSerializer._build_schema_json version w
  = JObj [("fields",
           JList (map (FormCreateSerializer.field_entry w)
                      (version_fields (FormVersion.id version) w)))] /\
  forall e,
    In e (schema_entries (FormCreateSerializer._build_schema_json version w)) ->
    entry_keys e
    = ["id"; "name"; "label"; "type"; "order"; "config"; "validation_rules"]%string /\
    exists rs, entry_rules e = Some rs /\
      forall r, In r rs -> entry_keys r = ["type"; "config"; "error_message"]%string.
Proof.
  split; [reflexivity|]. intros e He. simpl in He.
  apply in_map_iff in He. destruct He as [f [<- _]].
  split; [reflexivity|]. eexists. split; [reflexivity|].
  intros r Hr. apply in_map_iff in Hr. destruct Hr as [rule [<- _]]. reflexivity.
Qed.

(** C7 on the update path.  The document built when a form is updated has
    the shape [{fields: [...]}] with one entry per field of the version,
    but every entry has the six keys [id], [name], [label], [type],
    [order], [config] only: [validation_rules] is not emitted. *)
Theorem update_schema_entries_omit_validation_rules
    (version : FormVersion.t) (w : World) (e : JSON) :
  In e (schema_entries (FormUpdateSerializer._build_schema_json version w)) ->
  entry_keys e = ["id"; "name"; "label"; "type"; "order"; "config"]%string /\
  ~ In "validation_rules"%string (entry_keys e) /\
  entry_rules e = None.
Proof.
  intros He. simpl in He. apply in_map_iff in He. destruct He as [f [<- _]].
  split; [reflexivity|]. split; [|reflexivity].
  simpl. intuition discriminate.
Qed.

(** The sample form: created with one field, its document lists
    [validation_rules]; edited, the document of the new version does not. *)
Lemma update_schema_entries_omit_validation_rules_witness :
  option_map (fun s => map entry_keys (schema_entries s))
             (current_schema (fst created) (snd created))
  = Some [["id"; "name"; "label"; "type"; "order"; "config";
           "validation_rules"]%string] /\
  option_map (fun s => map entry_keys (schema_entries s))
             (current_schema (fst edited) (snd edited))
  = Some [["id"; "name"; "label"; "type"; "order"; "config"]%string;
          ["id"; "name"; "label"; "type"; "order"; "config"]%string] /\
  entry_rules
    (nth 0 (schema_entries
              (FormUpdateSerializer._build_schema_json
                 (FormVersion.mk 4%N 1%N 2 (JObj [])) (snd edited))) JNull)
  = None.
Proof.
  split; [reflexivity|]. split; [reflexivity|].
  apply (update_schema_entries_omit_validation_rules
           (FormVersion.mk 4%N 1%N 2 (JObj [])) (snd edited)).
  vm_compute. left. reflexivity.
Defined.

(** * Further properties *)

(** ** Text, choice and multiple-choice fields *)

Lemma bind_unit_ok (r : Result unit) : (r ;;; Ok tt) = r.
Proof. destruct r as [[]|e]; reflexivity. Qed.

Lemma text_field_runs_text_block (f : FormField.t) (v : JSON) :
  is_text_type (FormField.field_type f) = true ->
  _validate_field_value f v = text_validations f v.
Proof.
  intros Htype. unfold _validate_field_value.
  destruct (FormField.field_type f); try discriminate; simpl;
    destruct (text_validations f v) as [[]|e]; reflexivity.
Qed.

Lemma int_lt_flag (a b : Z) :
  py_lt (JInt a) (JInt b) = Ok (a <? b).
Proof.
  unfold py_lt. simpl. unfold Qcompare. simpl. rewrite !Z.mul_1_r.
  unfold Z.ltb. destruct (a ?= b); reflexivity.
Qed.

Lemma below_min_length_int (s : string) (j : JSON) (mn : Z) :
  as_length_bound j = Some mn ->
  below_min_length s j
  = Ok (negb (mn =? 0) && (Z.of_nat (String.length s) <? mn)).
Proof.
  destruct j; simpl; intros H; inversion H; subst; [reflexivity|].
  unfold below_min_length. simpl.
  destruct (mn =? 0); [reflexivity|]. simpl. apply int_lt_flag.
Qed.

Lemma above_max_length_int (s : string) (j : JSON) (mx : Z) :
  as_length_bound j = Some mx ->
  above_max_length s j
  = Ok (negb (mx =? 0) && (mx <? Z.of_nat (String.length s))).
Proof.
  destruct j; simpl; intros H; inversion H; subst; [reflexivity|].
  unfold above_max_length. simpl.
  destruct (mx =? 0); [reflexivity|]. simpl. unfold py_gt. apply int_lt_flag.
Qed.

(** X1. For a text, textarea or email field whose [min_length] and
    [max_length] are absent or integers: a value that is not a string is
    refused; a string is accepted exactly when its length respects each
    bound that is not 0, both included.  A bound of 0 is no bound at all,
    so [max_length] 0 admits strings of any length.  A string shorter than
    a non-zero [min_length] gets the minimum message; otherwise one longer
    than a non-zero [max_length] gets the maximum message. *)
Theorem text_field_length_bounds
    (f : FormField.t) (value : JSON) (mn mx : Z) :
  is_text_type (FormField.field_type f) = true ->
  as_length_bound (dict_get_default (FormField.config f) "min_length" JNull)
  = Some mn ->
  as_length_bound (dict_get_default (FormField.config f) "max_length" JNull)
  = Some mx ->
  ((forall s, value <> JStr s) ->
   _validate_field_value f value
   = Raise (ValidationError (ExpectedText (FormField.label f)))) /\
  (forall s, value = JStr s ->
     let len := Z.of_nat (String.length s) in
     (_validate_field_value f value = Ok tt <->
      (mn = 0 \/ mn <= len) /\ (mx = 0 \/ len <= mx)) /\
     (mn <> 0 -> len < mn ->
      _validate_field_value f value
      = Raise (ValidationError
                 (MinimumLength (FormField.label f)
                    (dict_get_default (FormField.config f) "min_length" JNull)))) /\
     ((mn = 0 \/ mn <= len) -> mx <> 0 -> mx < len ->
      _validate_field_value f value
      = Raise (ValidationError
                 (MaximumLength (FormField.label f)
                    (dict_get_default (FormField.config f) "max_length" JNull))))).
Proof.
  intros Htype Hmn Hmx.
  rewrite (text_field_runs_text_block f value Htype).
  split.
  - intros Hns. unfold text_validations.
    destruct value; try reflexivity. now contradiction (Hns s).
  - intros s -> len. unfold text_validations.
    rewrite (below_min_length_int s _ mn Hmn), (above_max_length_int s _ mx Hmx).
    fold len. simpl.
    destruct (Z.eqb_spec mn 0) as [Emn|Emn], (Z.eqb_spec mx 0) as [Emx|Emx];
      simpl;
      try destruct (Z.ltb_spec len mn); try destruct (Z.ltb_spec mx len);
      simpl; repeat split; intros; try reflexivity; try discriminate;
      try lia; try tauto.
Qed.

Lemma text_field_length_bounds_witness :
  _validate_field_value bio_field (JInt 5)
  = Raise (ValidationError (ExpectedText "Bio")) /\
  _validate_field_value bio_field (JStr "ab")
  = Raise (ValidationError (MinimumLength "Bio" (JInt 3))) /\
  _validate_field_value bio_field (JStr "a rather long biography") = Ok tt.
Proof.
  destruct (text_field_length_bounds bio_field (JInt 5) 3 0
              eq_refl eq_refl eq_refl) as [Hns _].
  destruct (text_field_length_bounds bio_field (JStr "ab") 3 0
              eq_refl eq_refl eq_refl) as [_ Hshort].
  destruct (text_field_length_bounds bio_field (JStr "a rather long biography")
              3 0 eq_refl eq_refl eq_refl) as [_ Hlong].
  split; [apply Hns; discriminate|]. split.
  - apply (Hshort "ab" eq_refl); simpl; lia.
  - apply (Hlong "a rather long biography" eq_refl). simpl. lia.
Defined.

Lemma choice_field_runs_select_block (f : FormField.t) (v : JSON) :
  is_choice_type (FormField.field_type f) = true ->
  _validate_field_value f v = select_validations f v.
Proof.
  intros Htype. unfold _validate_field_value.
  destruct (FormField.field_type f); try discriminate; simpl;
    destruct (select_validations f v) as [[]|e]; reflexivity.
Qed.

Lemma is_option_strings (names : list string) (s : string) :
  is_option (map JStr names) (JStr s) = true <-> In s names.
Proof.
  unfold is_option. rewrite existsb_exists. split.
  - intros [x [Hx Heq]]. apply in_map_iff in Hx. destruct Hx as [t [<- Ht]].
    simpl in Heq. apply String.eqb_eq in Heq. now subst.
  - intros Hin. exists (JStr s). split; [now apply in_map|].
    simpl. apply String.eqb_refl.
Qed.

(** X2. For a select or radio field whose [options] is a list, a value
    is accepted exactly when it equals one of the options, and refused
    with "Invalid option selected" otherwise; with string options a string
    is accepted exactly when it is one of them.  A field without
    [options] refuses every value. *)
Theorem choice_field_accepts_options_only (f : FormField.t) (value : JSON) :
  is_choice_type (FormField.field_type f) = true ->
  (forall options,
     dict_get_default (FormField.config f) "options" (JList []) = JList options ->
     (_validate_field_value f value = Ok tt <-> is_option options value = true) /\
     (is_option options value = false ->
      _validate_field_value f value
      = Raise (ValidationError (InvalidOptionSelected (FormField.label f)))) /\
     (forall names s,
        options = map JStr names -> value = JStr s ->
        (_validate_field_value f value = Ok tt <-> In s names))) /\
  (dict_get (FormField.config f) "options" = None ->
   _validate_field_value f value
   = Raise (ValidationError (InvalidOptionSelected (FormField.label f)))).
Proof.
  intros Htype. rewrite (choice_field_runs_select_block f value Htype).
  assert (Hlist : forall options,
            dict_get_default (FormField.config f) "options" (JList []) = JList options ->
            select_validations f value
            = raise_if (negb (is_option options value))
                (ValidationError (InvalidOptionSelected (FormField.label f)))).
  { intros options Hopt. unfold select_validations. rewrite Hopt. reflexivity. }
  split.
  - intros options Hopt. rewrite (Hlist options Hopt).
    assert (Hiff : raise_if (negb (is_option options value))
                     (ValidationError (InvalidOptionSelected (FormField.label f)))
                   = Ok tt <-> is_option options value = true).
    { destruct (is_option options value); simpl; split; congruence. }
    split; [exact Hiff|]. split.
    + intros Hno. now rewrite Hno.
    + intros names s -> ->. rewrite Hiff. apply is_option_strings.
  - intros Hnone. rewrite (Hlist []); [reflexivity|].
    unfold dict_get_default. now rewrite Hnone.
Qed.

Lemma choice_field_accepts_options_only_witness :
  _validate_field_value colour_field (JStr "green") = Ok tt /\
  _validate_field_value colour_field (JStr "blue")
  = Raise (ValidationError (InvalidOptionSelected "Colour")).
Proof.
  destruct (choice_field_accepts_options_only colour_field (JStr "green") eq_refl)
    as [Hgreen _].
  destruct (choice_field_accepts_options_only colour_field (JStr "blue") eq_refl)
    as [Hblue _].
  split.
  - apply (Hgreen [JStr "red"; JStr "green"] eq_refl). reflexivity.
  - apply (Hblue [JStr "red"; JStr "green"] eq_refl). reflexivity.
Defined.

Lemma multi_select_field_runs_its_block (f : FormField.t) (v : JSON) :
  FormField.field_type f = multi_select ->
  _validate_field_value f v = multi_select_validations f v.
Proof.
  intros Htype. unfold _validate_field_value. rewrite Htype. reflexivity.
Qed.

Lemma check_options_all (label : string) (options : list JSON) (vs : list JSON) :
  forallb (is_option options) vs = true ->
  check_options label (JList options) vs = Ok tt.
Proof.
  induction vs as [|v vs IH]; simpl; intros H; [reflexivity|].
  apply andb_true_iff in H. destruct H as [Hv Hvs].
  fold (is_option options v). rewrite Hv. simpl. now apply IH.
Qed.

Lemma check_options_first_bad (label : string) (options : list JSON)
    (pre post : list JSON) (v : JSON) :
  forallb (is_option options) pre = true ->
  is_option options v = false ->
  check_options label (JList options) (pre ++ v :: post)
  = Raise (ValidationError (InvalidOption label v)).
Proof.
  induction pre as [|x pre IH]; simpl; intros Hpre Hv.
  - fold (is_option options v). now rewrite Hv.
  - apply andb_true_iff in Hpre. destruct Hpre as [Hx Hpre].
    fold (is_option options x). rewrite Hx. simpl. now apply IH.
Qed.

(** X3. For a multi_select field whose [options] is a list: a value that
    is not a list is refused; a list is accepted exactly when every
    element equals one of the options, so the empty list is always
    accepted; and a list with an element outside the options is refused
    with a message quoting the first such element. *)
Theorem multi_select_field_checks_every_element
    (f : FormField.t) (options : list JSON) :
  FormField.field_type f = multi_select ->
  dict_get_default (FormField.config f) "options" (JList []) = JList options ->
  (forall value, (forall vs, value <> JList vs) ->
     _validate_field_value f value
     = Raise (ValidationError (ExpectedList (FormField.label f)))) /\
  (forall vs,
     _validate_field_value f (JList vs) = Ok tt
     <-> forallb (is_option options) vs = true) /\
  _validate_field_value f (JList []) = Ok tt /\
  (forall pre v post,
     forallb (is_option options) pre = true ->
     is_option options v = false ->
     _validate_field_value f (JList (pre ++ v :: post))
     = Raise (ValidationError (InvalidOption (FormField.label f) v))).
Proof.
  intros Htype Hopt.
  assert (Hblock : forall vs,
            _validate_field_value f (JList vs)
            = check_options (FormField.label f) (JList options) vs).
  { intros vs. rewrite (multi_select_field_runs_its_block f _ Htype).
    unfold multi_select_validations. now rewrite Hopt. }
  split; [|split; [|split]].
  - intros value Hnl. rewrite (multi_select_field_runs_its_block f _ Htype).
    unfold multi_select_validations. destruct value; try reflexivity.
    now contradiction (Hnl l).
  - intros vs. rewrite Hblock. split; [|apply check_options_all].
    intros Hok. apply not_false_iff_true. intros Hbad.
    assert (Hsplit : exists pre v post,
              vs = pre ++ v :: post /\
              forallb (is_option options) pre = true /\
              is_option options v = false).
    { clear Hok. induction vs as [|x vs IH]; simpl in Hbad; [discriminate|].
      destruct (is_option options x) eqn:Ex.
      - simpl in Hbad. destruct (IH Hbad) as [pre [v [post [-> [Hpre Hv]]]]].
        exists (x :: pre), v, post. simpl. rewrite Ex. auto.
      - exists [], x, vs. auto. }
    destruct Hsplit as [pre [v [post [-> [Hpre Hv]]]]].
    rewrite (check_options_first_bad _ _ _ _ _ Hpre Hv) in Hok. discriminate.
  - rewrite Hblock. reflexivity.
  - intros pre v post Hpre Hv. rewrite Hblock.
    now apply check_options_first_bad.
Qed.

Lemma multi_select_field_checks_every_element_witness :
  _validate_field_value colours_field (JStr "red")
  = Raise (ValidationError (ExpectedList "Colours")) /\
  _validate_field_value colours_field (JList [JStr "green"; JStr "red"]) = Ok tt /\
  _validate_field_value colours_field (JList [JStr "red"; JStr "blue"; JStr "pink"])
  = Raise (ValidationError (InvalidOption "Colours" (JStr "blue"))).
Proof.
  destruct (multi_select_field_checks_every_element colours_field
              [JStr "red"; JStr "green"] eq_refl eq_refl)
    as [Hnl [Hall [_ Hbad]]].
  split; [apply Hnl; discriminate|]. split.
  - apply Hall. reflexivity.
  - apply (Hbad [JStr "red"] (JStr "blue") [JStr "pink"]); reflexivity.
Defined.

(** ** Names the version does not know *)

(** X4. A payload entry whose name is not a field of the form's current
    version does not count in [validate]: adding it, or changing its
    value, turns acceptance into acceptance and leaves any error as it
    was. *)
Theorem validate_ignores_unknown_names
    (data : Data) (w : World) (form : Form.t) (version : UUID)
    (n : string) (v : JSON) :
  get_row Form.id (form_id data) (db_forms w) = Some form ->
  Form.current_version form = Some version ->
  dict_has (fields_by_name (version_fields version w)) n = false ->
  validate (with_responses data (dict_set (responses data) n v)) w
  = match validate data w with
    | Ok _ => Ok (with_responses data (dict_set (responses data) n v))
    | Raise e => Raise e
    end.
Proof.
  intros Hform Hversion Hunknown. unfold validate, with_responses.
  cbn [form_id responses]. rewrite Hform, Hversion.
  rewrite validate_fields_set_other.
  - destruct (validate_fields _ (responses data)) as [[]|e]; reflexivity.
  - intros Hin. apply dict_has_in in Hin. congruence.
Qed.

Lemma validate_ignores_unknown_names_witness :
  validate (signup (dict_set john "nickname" (JInt 7))) signup_world
  = Ok (signup (dict_set john "nickname" (JInt 7))).
Proof.
  exact (validate_ignores_unknown_names (signup john) signup_world
           (Form.set_current_version kyc_form (Some 1%N)) 1%N
           "nickname" (JInt 7) eq_refl eq_refl eq_refl).
Defined.

Lemma create_responses_unknown_name (db_fails : nat -> bool) (sid : UUID)
    (fields : Dict FormField.t) (n : string) (v : JSON) :
  dict_get fields n = None ->
  forall (payload : Dict JSON) (k : nat) (w : World),
    create_responses db_fails k sid fields (dict_set payload n v) w
    = create_responses db_fails k sid fields payload w.
Proof.
  intros Hunknown. induction payload as [|[k0 v0] rest IH]; intros k w; simpl.
  - now rewrite Hunknown.
  - destruct (String.eqb_spec k0 n) as [->|Hne]; simpl.
    + now rewrite Hunknown.
    + destruct (dict_get fields k0) as [f|]; [|apply IH].
      destruct (FieldResponse_objects_create (db_fails k) sid (FormField.id f) v0 w);
        [now rewrite IH|reflexivity].
Qed.

(** X5. [create] stores nothing for a payload entry whose name is not a
    field of the form's current version: with or without such an entry it
    returns the same submission, leaves the same world and commits the
    same states. *)
Theorem create_ignores_unknown_names
    (db_fails : nat -> bool) (data : Data) (user : User) (w : World)
    (form : Form.t) (version : UUID) (n : string) (v : JSON) :
  get_row Form.id (form_id data) (db_forms w) = Some form ->
  Form.current_version form = Some version ->
  dict_has (fields_by_name (version_fields version w)) n = false ->
  FormSubmissionCreateSerializer.create db_fails
    (with_responses data (dict_set (responses data) n v)) user w
  = FormSubmissionCreateSerializer.create db_fails data user w.
Proof.
  intros Hform Hversion Hunknown.
  rewrite (create_unfold db_fails data user w form version Hform Hversion).
  rewrite (create_unfold db_fails
             (with_responses data (dict_set (responses data) n v)) user w
             form version Hform Hversion).
  unfold with_responses. cbn [form_id responses status].
  rewrite create_responses_unknown_name; [reflexivity|].
  unfold dict_has in Hunknown.
  destruct (dict_get (fields_by_name (version_fields version w)) n);
    [discriminate|reflexivity].
Qed.

Lemma create_ignores_unknown_names_witness :
  map response_columns
      (responses_of 20%N
         (final (FormSubmissionCreateSerializer.create no_failure
                   (signup (dict_set john "nickname" (JInt 7)))
                   alice signup_world)))
  = [(20%N, 10%N, JStr "John Doe"); (20%N, 11%N, JStr "john@example.com")].
Proof.
  change (signup (dict_set john "nickname" (JInt 7)))
    with (with_responses (signup john)
            (dict_set (responses (signup john)) "nickname" (JInt 7))).
  rewrite (create_ignores_unknown_names no_failure (signup john) alice
             signup_world (Form.set_current_version kyc_form (Some 1%N)) 1%N
             "nickname" (JInt 7) eq_refl eq_refl eq_refl).
  reflexivity.
Defined.

(** ** [validate_form_id] and [validate] together *)

Lemma find_by_key_and (A : Type) (pk : A -> UUID) (p : A -> bool) (i : UUID)
    (rows : list A) :
  NoDup (map pk rows) ->
  find (fun r => N.eqb (pk r) i && p r) rows
  = match get_row pk i rows with
    | Some r => if p r then Some r else None
    | None => None
    end.
Proof.
  unfold get_row. induction rows as [|r rows IH]; simpl; intros Hnd; [reflexivity|].
  inversion Hnd as [|? ? Hr Hnd']; subst.
  destruct (N.eqb_spec (pk r) i) as [<-|Hne]; simpl; [|now apply IH].
  destruct (p r); [reflexivity|].
  destruct (find (fun r0 => N.eqb (pk r0) (pk r) && p r0) rows) as [x|] eqn:E;
    [|reflexivity].
  apply find_some in E. destruct E as [Hx Hk].
  apply andb_true_iff in Hk. destruct Hk as [Hk _]. apply N.eqb_eq in Hk.
  exfalso. apply Hr. rewrite <- Hk. now apply in_map.
Qed.

(** X6. With form keys unique, [validate_form_id] accepts a key exactly
    when the form with that key is active and has a current version.  A
    key without form and the key of an inactive form both get "Form not
    found or inactive", also when the inactive form has versions; an
    active form without current version gets "Form has no active
    version". *)
Theorem validate_form_id_accepts_active_forms_with_version
    (value : UUID) (w : World) :
  NoDup (map Form.id (db_forms w)) ->
  validate_form_id value w
  = match get_row Form.id value (db_forms w) with
    | None => Raise (ValidationError FormNotFoundOrInactive)
    | Some form =>
        if Form.is_active form
        then match Form.current_version form with
             | Some _ => Ok value
             | None => Raise (ValidationError FormHasNoActiveVersion)
             end
        else Raise (ValidationError FormNotFoundOrInactive)
    end.
Proof.
  intros Hnd. unfold validate_form_id.
  rewrite (find_by_key_and _ Form.id Form.is_active value (db_forms w) Hnd).
  destruct (get_row Form.id value (db_forms w)) as [form|]; [|reflexivity].
  destruct (Form.is_active form); reflexivity.
Qed.

Lemma validate_form_id_accepts_active_forms_with_version_witness :
  validate_form_id 100%N signup_world = Ok 100%N /\
  validate_form_id 100%N kyc_world
  = Raise (ValidationError FormHasNoActiveVersion) /\
  validate_form_id 101%N kyc_world
  = Raise (ValidationError FormNotFoundOrInactive).
Proof.
  assert (H1 : NoDup (map Form.id (db_forms signup_world)))
    by (repeat constructor; simpl; tauto).
  assert (H2 : NoDup (map Form.id (db_forms kyc_world)))
    by (repeat constructor; simpl; tauto).
  rewrite (validate_form_id_accepts_active_forms_with_version 100%N signup_world H1),
          (validate_form_id_accepts_active_forms_with_version 100%N kyc_world H2),
          (validate_form_id_accepts_active_forms_with_version 101%N kyc_world H2).
  repeat split.
Defined.

(** ** Notifications on creation *)

Lemma create_responses_notifications (db_fails : nat -> bool) (sid : UUID)
    (fields : Dict FormField.t) (payload : Dict JSON) :
  forall (k : nat) (w : World),
    db_notifications (final (create_responses db_fails k sid fields payload w))
    = db_notifications w.
Proof.
  induction payload as [|[name v] rest IH]; intros k w; simpl; [reflexivity|].
  destruct (dict_get fields name) as [f|]; [|apply IH].
  unfold FieldResponse_objects_create.
  destruct (db_fails k); [reflexivity|].
  destruct (existsb _ (db_responses w)); [reflexivity|].
  simpl. rewrite IH. reflexivity.
Qed.

(** X8. [perform_create] queues one notification, for the new
    submission, exactly when the submission was created with status
    [submitted]; a draft queues none, and neither does a creation that
    raises.  Apart from the queue it leaves the world as [create] left
    it. *)
Theorem perform_create_notifies_submitted_only
    (db_fails : nat -> bool) (data : Data) (user : User) (w : World)
    (form : Form.t) (version : UUID) :
  get_row Form.id (form_id data) (db_forms w) = Some form ->
  Form.current_version form = Some version ->
  let run := FormSubmissionViewSet.perform_create db_fails data user w in
  let made := FormSubmissionCreateSerializer.create db_fails data user w in
  result run = result made /\
  db_submissions (final run) = db_submissions (final made) /\
  db_responses (final run) = db_responses (final made) /\
  db_notifications (final run)
  = match result made, status data with
    | Ok _, submitted => db_notifications w ++ [next_uuid w]
    | _, _ => db_notifications w
    end.
Proof.
  intros Hform Hversion run made. subst run made.
  unfold FormSubmissionViewSet.perform_create.
  rewrite (create_unfold db_fails data user w form version Hform Hversion).
  cbv zeta. cbn [result final trace].
  pose proof (create_responses_notifications db_fails (next_uuid w)
                (fields_by_name (version_fields version w)) (responses data) 0
                (world_stamped version user (status data) w)) as Hn.
  destruct (result (create_responses db_fails 0 (next_uuid w) _ _ _)) as [[]|e];
    cbn [FormSubmission.status created_submission result final].
  - destruct (status data) eqn:Est; cbn [result final];
      repeat split; try reflexivity; try (rewrite Hn; reflexivity).
    unfold send_submission_notification_delay, set_notifications.
    cbn [db_notifications FormSubmission.id]. rewrite Hn. reflexivity.
  - repeat split. rewrite Hn. destruct (status data); reflexivity.
Qed.

Lemma perform_create_notifies_submitted_only_witness :
  db_notifications
    (final (FormSubmissionViewSet.perform_create no_failure (signup john)
              alice signup_world)) = [20%N] /\
  db_notifications
    (final (FormSubmissionViewSet.perform_create second_insert_fails
              (signup john) alice signup_world)) = [].
Proof.
  destruct (perform_create_notifies_submitted_only no_failure (signup john) alice
              signup_world (Form.set_current_version kyc_form (Some 1%N)) 1%N
              eq_refl eq_refl) as [_ [_ [_ Hok]]].
  destruct (perform_create_notifies_submitted_only second_insert_fails
              (signup john) alice signup_world
              (Form.set_current_version kyc_form (Some 1%N)) 1%N
              eq_refl eq_refl) as [_ [_ [_ Hfail]]].
  split; [exact Hok|exact Hfail].
Defined.

(** ** What [submit] and [review] leave alone *)

Lemma get_row_save_row_other {A} (pk : A -> UUID) (x : A) (i : UUID)
    (rows : list A) :
  pk x <> i -> get_row pk i (save_row pk x rows) = get_row pk i rows.
Proof.
  intros Hne. unfold get_row. induction rows as [|r rows IH]; simpl.
  - destruct (N.eqb_spec (pk x) i); [contradiction|reflexivity].
  - destruct (N.eqb_spec (pk r) (pk x)) as [E|E]; simpl.
    + destruct (N.eqb_spec (pk x) i); [contradiction|].
      destruct (N.eqb_spec (pk r) i); [congruence|reflexivity].
    + destruct (N.eqb (pk r) i); [reflexivity|exact IH].
Qed.

(** X9. [submit] never answers 403: the submissions a caller who is not
    staff can reach are their own, so a submission of somebody else is
    answered 404 like a missing one.  Unless it answers 200 it leaves the
    world as it was; and when it answers 200 it changes no submission
    other than the one submitted and no other table. *)
Theorem submit_reaches_own_submissions_only (user : User) (pk : UUID) (w : World) :
  let r := FormSubmissionViewSet.submit user pk w in
  status_code (fst r) <> HTTP_403_FORBIDDEN /\
  (FormSubmissionViewSet.get_object user pk w = None ->
   r = (mkResponse (ErrorBody NotFound) HTTP_404_NOT_FOUND, w)) /\
  (forall s, In s (db_submissions w) -> FormSubmission.id s = pk ->
     is_staff user = false ->
     FormSubmission.submitted_by s <> Some (user_pk user) ->
     NoDup (map FormSubmission.id (db_submissions w)) ->
     r = (mkResponse (ErrorBody NotFound) HTTP_404_NOT_FOUND, w)) /\
  (status_code (fst r) <> HTTP_200_OK -> snd r = w) /\
  (forall pk', pk' <> pk ->
     get_row FormSubmission.id pk' (db_submissions (snd r))
     = get_row FormSubmission.id pk' (db_submissions w)) /\
  db_forms (snd r) = db_forms w /\
  db_versions (snd r) = db_versions w /\
  db_fields (snd r) = db_fields w /\
  db_responses (snd r) = db_responses w /\
  db_files (snd r) = db_files w.
Proof.
  intros r. subst r. unfold FormSubmissionViewSet.submit.
  destruct (FormSubmissionViewSet.get_object user pk w) as [s|] eqn:Hget.
  - destruct (get_object_some user pk w s Hget) as [Hin [Hpk Hperm]].
    rewrite Hperm.
    split; [destruct (FormSubmission.status s); discriminate|].
    split; [discriminate|]. split.
    + intros s' Hs' Hpk' Hstaff Hother Hnd. exfalso.
      assert (s' = s).
      { apply (NoDup_map_eq FormSubmission.id (db_submissions w)); auto.
        congruence. }
      subst s'. rewrite Hstaff in Hperm. simpl in Hperm.
      rewrite andb_true_r in Hperm. unfold is_other_user in Hperm.
      destruct (FormSubmission.submitted_by s) as [o|]; [|discriminate].
      apply negb_false_iff, N.eqb_eq in Hperm. subst o. now apply Hother.
    + destruct (FormSubmission.status s); simpl;
        repeat split; try reflexivity; try (intros H; now contradiction H).
      intros pk' Hpk'. apply get_row_save_row_other. simpl. congruence.
  - split; [discriminate|]. split; [reflexivity|]. split.
    + reflexivity.
    + repeat split.
Qed.

Lemma submit_reaches_own_submissions_only_witness :
  FormSubmissionViewSet.submit bob 201%N review_world
  = (mkResponse (ErrorBody NotFound) HTTP_404_NOT_FOUND, review_world).
Proof.
  destruct (submit_reaches_own_submissions_only bob 201%N review_world)
    as [_ [_ [Hother _]]].
  apply (Hother draft_submission).
  - right. left. reflexivity.
  - reflexivity.
  - reflexivity.
  - discriminate.
  - repeat constructor; simpl; intuition discriminate.
Defined.

(** X10. [review] answers a caller who is not staff 403 and a key
    without submission 404; unless it answers 200 it leaves the world as
    it was; and when it answers 200 it changes no submission other than
    the one reviewed and no other table, and queues no notification. *)
Theorem review_is_for_staff_and_frames
    (user : User) (data : Dict JSON) (pk : UUID) (w : World) :
  let r := FormSubmissionViewSet.review user data pk w in
  (is_staff user = false ->
   r = (mkResponse (ErrorBody NotAuthorized) HTTP_403_FORBIDDEN, w)) /\
  (is_staff user = true ->
   get_row FormSubmission.id pk (db_submissions w) = None ->
   r = (mkResponse (ErrorBody NotFound) HTTP_404_NOT_FOUND, w)) /\
  (status_code (fst r) <> HTTP_200_OK -> snd r = w) /\
  (forall pk', pk' <> pk ->
     get_row FormSubmission.id pk' (db_submissions (snd r))
     = get_row FormSubmission.id pk' (db_submissions w)) /\
  db_forms (snd r) = db_forms w /\
  db_versions (snd r) = db_versions w /\
  db_fields (snd r) = db_fields w /\
  db_responses (snd r) = db_responses w /\
  db_files (snd r) = db_files w /\
  db_notifications (snd r) = db_notifications w.
Proof.
  intros r. subst r. unfold FormSubmissionViewSet.review.
  destruct (is_staff user) eqn:Hstaff; simpl.
  2:{ repeat split; try reflexivity; discriminate. }
  split; [discriminate|].
  unfold FormSubmissionViewSet.get_object, FormSubmissionViewSet.get_queryset.
  rewrite Hstaff. simpl.
  destruct (get_row FormSubmission.id pk (db_submissions w)) as [s|] eqn:Hget.
  2:{ repeat split. }
  destruct (get_row_some _ _ _ _ Hget) as [_ Hpk].
  split; [discriminate|].
  destruct (FormSubmissionViewSet.review_status _) as [st|];
    [|repeat split].
  destruct (TextField_get_prep_value _) as [notes|]; [|repeat split].
  destruct (has_nul notes); [repeat split|]. simpl.
  repeat split; try (intros H; now contradiction H).
  intros pk' Hpk'. apply get_row_save_row_other. simpl. congruence.
Qed.

Lemma review_is_for_staff_and_frames_witness :
  FormSubmissionViewSet.review alice [("status", JStr "approved")] 201%N
                               review_world
  = (mkResponse (ErrorBody NotAuthorized) HTTP_403_FORBIDDEN, review_world) /\
  FormSubmissionViewSet.review admin [("status", JStr "approved")] 999%N
                               review_world
  = (mkResponse (ErrorBody NotFound) HTTP_404_NOT_FOUND, review_world).
Proof.
  destruct (review_is_for_staff_and_frames alice [("status", JStr "approved")]
              201%N review_world) as [Hno _].
  destruct (review_is_for_staff_and_frames admin [("status", JStr "approved")]
              999%N review_world) as [_ [Hmissing _]].
  split; [apply Hno; reflexivity|apply Hmissing; reflexivity].
Defined.

(** ** More on uploads *)



(** X12. A field of type file has no limit on the number of files: an
    upload that passes the size and accept checks, of a file that the
    storage and the database take, is stored however many files the
    response already has and whatever [max_files] says. *)
Theorem single_file_field_has_no_count_limit
    (storage_refuses : UploadedFile -> bool)
    (user : User) (request : Request) (w : World) (up : UploadedFile)
    (r : FieldResponse.t) (f : FormField.t) :
  reaches_size_check user request w up r f ->
  FormField.field_type f = file ->
  storable storage_refuses up = true ->
  exceeds_max_size (upload_size up)
    (dict_get_default (FormField.config f) "max_size_mb" (JInt 10)) = Ok false ->
  accept_refuses (upload_name up)
                 (dict_get_default (FormField.config f) "accept" (JStr ""))
  = Ok None ->
  FileUploadViewSet.create storage_refuses user request w
  = Ok (mkResponse (FileUploadBody (uploaded_row w (FieldResponse.id r) up))
                   HTTP_201_CREATED,
        with_file w (uploaded_row w (FieldResponse.id r) up)) /\
  files_count (FieldResponse.id r)
              (with_file w (uploaded_row w (FieldResponse.id r) up))
  = files_count (FieldResponse.id r) w + 1.
Proof.
  intros [rid [s [Hid [Hfile [Hname [Hget [Hperm _]]]]]]] Htype Hst Hsize Hacc.
  split.
  - unfold FileUploadViewSet.create. rewrite Hid, Hfile, Hget, Hperm, Htype.
    destruct (String.eqb_spec (upload_name up) "") as [E|_]; [contradiction|].
    rewrite Hsize. cbn [bind]. rewrite Hacc. cbn [bind].
    destruct (FileUpload_objects_create_storable storage_refuses
                (FieldResponse.id r) up w) as [Hok _].
    rewrite (Hok Hst). reflexivity.
  - apply (files_count_with_file w (uploaded_row w (FieldResponse.id r) up)).
Qed.

Lemma single_file_field_has_no_count_limit_witness :
  files_count 301%N photo_world = 2 /\
  exists w',
    FileUploadViewSet.create any_file alice photo_upload photo_world
    = Ok (mkResponse
            (FileUploadBody (uploaded_row photo_world 301%N passport_pdf))
            HTTP_201_CREATED, w') /\
    files_count 301%N w' = 3.
Proof.
  split; [reflexivity|].
  destruct (single_file_field_has_no_count_limit any_file alice photo_upload
              photo_world passport_pdf photo_response photo_field)
    as [Hrun Hcount].
  - exists 301%N, draft_submission.
    repeat split; try reflexivity; [discriminate | now left].
  - reflexivity.
  - reflexivity.
  - reflexivity.
  - reflexivity.
  - eexists. split; [exact Hrun|exact Hcount].
Defined.

(** *** The accept list *)

Lemma split_on_nonempty (sep : ascii) (s : string) : split_on sep s <> [].
Proof.
  destruct s as [|c s]; simpl; [discriminate|].
  destruct (Ascii.eqb c sep); [discriminate|].
  destruct (split_on sep s); discriminate.
Qed.

Lemma split_on_app (sep : ascii) (a b : string) :
  split_on sep (a ++ String sep b)%string = split_on sep a ++ split_on sep b.
Proof.
  induction a as [|c a IH]; simpl.
  - now rewrite Ascii.eqb_refl.
  - destruct (Ascii.eqb c sep); [now rewrite IH|].
    rewrite IH. pose proof (split_on_nonempty sep a) as Hne.
    destruct (split_on sep a) as [|piece pieces]; [contradiction|reflexivity].
Qed.

Lemma substring_none (n : nat) (s : string) : substring n 0 s = ""%string.
Proof.
  revert s. induction n as [|n IH]; intros s; destruct s; simpl; auto.
Qed.

Lemma endswith_empty (s : string) : endswith s "" = true.
Proof.
  unfold endswith. simpl. now rewrite substring_none.
Qed.

(** X13. The accept list of the upload view is a union: a file name
    passes [a,b] exactly when it passes [a] or passes [b].  An entry that
    is empty, or is just [*], matches every name; so an accept list with
    a trailing comma, or with an entry [*], refuses no file. *)
Theorem accept_list_is_a_union (name : string) :
  (forall a b,
     type_allowed name (a ++ String "," b)%string
     = type_allowed name a || type_allowed name b) /\
  type_allowed name "" = true /\
  type_allowed name "*" = true /\
  (forall a,
     accept_refuses name (JStr (a ++ ",")%string) = Ok None /\
     accept_refuses name (JStr (a ++ ",*")%string) = Ok None).
Proof.
  assert (Hunion : forall a b,
            type_allowed name (a ++ String "," b)%string
            = type_allowed name a || type_allowed name b).
  { intros a b. unfold type_allowed.
    rewrite split_on_app, map_app, existsb_app. reflexivity. }
  assert (Hempty : type_allowed name "" = true).
  { unfold type_allowed. simpl. now rewrite endswith_empty. }
  assert (Hstar : type_allowed name "*" = true).
  { unfold type_allowed. simpl. now rewrite endswith_empty. }
  split; [exact Hunion|]. split; [exact Hempty|]. split; [exact Hstar|].
  intros a.
  assert (Htruthy : forall b, truthy (JStr (a ++ String "," b)%string) = true).
  { intros b. simpl. destruct a; reflexivity. }
  split; unfold accept_refuses.
  - rewrite (Htruthy ""%string), (Hunion a ""%string), Hempty, orb_true_r.
    reflexivity.
  - rewrite (Htruthy "*"%string), (Hunion a "*"%string), Hstar, orb_true_r.
    reflexivity.
Qed.

(** ** Creating and updating forms *)

Lemma supply_fresh_spec (w : World) :
  supply_fresh w = true ->
  (forall f, In f (db_forms w) -> (Form.id f < next_uuid w)%N) /\
  (forall v, In v (db_versions w) ->
     (FormVersion.id v < next_uuid w)%N /\ (FormVersion.form v < next_uuid w)%N) /\
  (forall f, In f (db_fields w) ->
     (FormField.id f < next_uuid w)%N /\ (FormField.form_version f < next_uuid w)%N) /\
  (forall r, In r (db_rules w) -> (ValidationRule.field r < next_uuid w)%N) /\
  (forall s, In s (db_submissions w) ->
     (FormSubmission.id s < next_uuid w)%N /\
     (FormSubmission.form_version s < next_uuid w)%N).
Proof.
  unfold supply_fresh. intros H. rewrite !andb_true_iff in H.
  destruct H as [[[[Hforms Hversions] Hfields] Hrules] Hsubs].
  rewrite forallb_forall in Hforms, Hversions, Hfields, Hrules, Hsubs.
  split; [|split; [|split; [|split]]].
  - intros f Hf. apply N.ltb_lt. now apply Hforms.
  - intros v Hv. specialize (Hversions v Hv).
    apply andb_true_iff in Hversions. rewrite !N.ltb_lt in Hversions. exact Hversions.
  - intros f Hf. specialize (Hfields f Hf).
    apply andb_true_iff in Hfields. rewrite !N.ltb_lt in Hfields. exact Hfields.
  - intros r Hr. apply N.ltb_lt. now apply Hrules.
  - intros x Hx. specialize (Hsubs x Hx).
    apply andb_true_iff in Hsubs. rewrite !N.ltb_lt in Hsubs. exact Hsubs.
Qed.

Lemma name_free_not_taken (self : Form.t) (rows : list Form.t) :
  existsb (fun f => String.eqb (Form.name f) (Form.name self)) rows = false ->
  existsb (fun f => negb (N.eqb (Form.id f) (Form.id self))
                    && String.eqb (Form.name f) (Form.name self))
          (rows ++ [self]) = false.
Proof.
  intros Hfree. rewrite existsb_app. cbn [existsb].
  rewrite N.eqb_refl. cbn [negb andb orb]. rewrite orb_false_r.
  induction rows as [|r rows IH]; [reflexivity|].
  cbn [existsb] in *. apply orb_false_iff in Hfree. destruct Hfree as [Hr Hrows].
  rewrite Hr, andb_false_r. now apply IH.
Qed.

(** [create_new_version] on a form that was just inserted under a free
    name. *)
Lemma create_new_version_inserted (form0 : Form.t) (w1 : World)
    (rows : list Form.t) :
  db_forms w1 = rows ++ [form0] ->
  existsb (fun f => String.eqb (Form.name f) (Form.name form0)) rows = false ->
  next_version_number (versions_of (Form.id form0) w1) <= MAX_INTEGER ->
  create_new_version form0 w1
  = Ok (FormVersion.mk (next_uuid w1) (Form.id form0)
          (next_version_number (versions_of (Form.id form0) w1)) (JObj []),
        Form.set_current_version form0 (Some (next_uuid w1)),
        world_after_new_version form0 w1).
Proof.
  intros Hforms Hfree Hmax. apply create_new_version_returns.
  - apply form_exists_in. exists form0. split; [|reflexivity].
    rewrite Hforms. apply in_or_app. right. now left.
  - unfold name_taken_by_other. rewrite Hforms.
    now apply name_free_not_taken.
  - exact Hmax.
Qed.

(** The same when the form has no version yet. *)
Lemma create_new_version_first (form0 : Form.t) (w1 : World)
    (rows : list Form.t) :
  db_forms w1 = rows ++ [form0] ->
  existsb (fun f => String.eqb (Form.name f) (Form.name form0)) rows = false ->
  versions_of (Form.id form0) w1 = [] ->
  create_new_version form0 w1
  = Ok (FormVersion.mk (next_uuid w1) (Form.id form0) 1 (JObj []),
        Form.set_current_version form0 (Some (next_uuid w1)),
        mkWorld (save_row Form.id
                   (Form.set_current_version form0 (Some (next_uuid w1)))
                   (db_forms w1))
                (db_versions w1
                 ++ [FormVersion.mk (next_uuid w1) (Form.id form0) 1 (JObj [])])
                (db_fields w1) (db_rules w1) (db_submissions w1)
                (db_responses w1) (db_files w1) (db_notifications w1)
                (N.succ (next_uuid w1)) (clock w1)).
Proof.
  intros Hforms Hfree Hnone.
  rewrite (create_new_version_inserted form0 w1 rows Hforms Hfree).
  - unfold world_after_new_version. rewrite Hnone. reflexivity.
  - rewrite Hnone. vm_compute. discriminate.
Qed.

Lemma filter_none {A} (p : A -> bool) (l : list A) :
  (forall x, In x l -> p x = false) -> filter p l = [].
Proof.
  induction l as [|x l IH]; simpl; intros H; [reflexivity|].
  rewrite (H x (or_introl eq_refl)). apply IH. intros y Hy. apply H. now right.
Qed.
















(** ** Counting submissions *)

Lemma get_row_app_none {A} (pk : A -> UUID) (i : UUID) (rows more : list A) :
  get_row pk i rows = None -> get_row pk i (rows ++ more) = get_row pk i more.
Proof.
  unfold get_row. induction rows as [|r rows IH]; simpl; [reflexivity|].
  destruct (N.eqb (pk r) i); [discriminate|exact IH].
Qed.

(** X17. In a world whose keys all come from the supply, right after a
    [create_new_version] that returned, the submission count shown in
    form listings, which counts the submissions of the current version,
    is 0, while the total of the analytics action, which counts the
    submissions of all versions of the form, is what it was.  The call
    returns when the form row is stored, no other form holds the name of
    the instance and the next version number fits its column. *)
Theorem new_version_resets_listed_count (self : Form.t) (w : World) :
  supply_fresh w = true ->
  (forall v self' w',
     create_new_version self w = Ok (v, self', w') ->
     FormListSerializer.get_submission_count self' w' = 0 /\
     FormViewSet.total_submissions self' w'
     = FormViewSet.total_submissions self w) /\
  (form_exists (Form.id self) w = true ->
   name_taken_by_other self w = false ->
   next_version_number (versions_of (Form.id self) w) <= MAX_INTEGER ->
   exists v self' w', create_new_version self w = Ok (v, self', w')).
Proof.
  intros Hfresh.
  destruct (supply_fresh_spec w Hfresh) as [_ [_ [_ [_ Hsub]]]].
  split.
  - intros v self' w' Hrun.
    destruct (create_new_version_ok self w v self' w' Hrun)
      as (_ & _ & _ & _ & Hself' & Hw').
    rewrite Hw', Hself'. unfold world_after_new_version. split.
    + unfold FormListSerializer.get_submission_count.
      cbn [Form.current_version Form.set_current_version db_submissions].
      rewrite filter_none; [reflexivity|].
      intros s Hs. apply N.eqb_neq. destruct (Hsub s Hs) as [_ Hlt]. lia.
    + unfold FormViewSet.total_submissions, FormViewSet.form_submissions.
      cbn [db_submissions db_versions Form.id Form.set_current_version].
      do 2 f_equal. apply filter_ext_in. intros s Hs.
      destruct (Hsub s Hs) as [_ Hlt].
      destruct (get_row FormVersion.id (FormSubmission.form_version s)
                        (db_versions w)) as [old|] eqn:E.
      * now rewrite (get_row_app_some _ _ _ _ _ E).
      * rewrite (get_row_app_none _ _ _ _ E). unfold get_row. simpl.
        destruct (N.eqb_spec (next_uuid w) (FormSubmission.form_version s));
          [lia|reflexivity].
  - intros Hstored Hname Hmax. eexists _, _, _.
    apply (create_new_version_returns self w Hstored Hname Hmax).
Qed.

Lemma new_version_resets_listed_count_witness :
  FormListSerializer.get_submission_count listed_form listed_world = 1 /\
  exists v self' w',
    create_new_version listed_form listed_world = Ok (v, self', w') /\
    FormListSerializer.get_submission_count self' w' = 0 /\
    FormViewSet.total_submissions self' w' = 1.
Proof.
  split; [reflexivity|].
  destruct (new_version_resets_listed_count listed_form listed_world eq_refl)
    as [Hcounts Hreturn].
  destruct Hreturn as [v [self' [w' Hrun]]];
    [reflexivity|reflexivity|vm_compute; discriminate|].
  destruct (Hcounts v self' w' Hrun) as [Hzero Htotal].
  exists v, self', w'. split; [exact Hrun|]. split; [exact Hzero|].
  rewrite Htotal. reflexivity.
Defined.

(** ** Duplicating a form *)

(** The versions of a key that no stored version refers to. *)
Lemma fresh_no_versions (w : World) :
  supply_fresh w = true -> versions_of (next_uuid w) w = [].
Proof.
  intros Hfresh. destruct (supply_fresh_spec w Hfresh) as [_ [Hver _]].
  unfold versions_of. apply filter_none. intros x Hx. apply N.eqb_neq.
  destruct (Hver x Hx) as [_ Hlt]. lia.
Qed.

(** X18. [duplicate] never copies a field: the fields table is the same
    after it as before, whatever it ends in.  For staff and a form whose
    copy name is free and at most 255 characters long (the number of the
    first version of the copy fitting its column, as it does when no
    stored version refers to the key the copy gets): when the form's
    current version has a field, the action raises [NameError], after the
    inactive copy and its version 1 have been stored without any field;
    when the form has no current version, or one without fields, it
    answers 201 with that copy. *)
Theorem duplicate_never_copies_fields (user : User) (pk : UUID) (w : World) :
  let r := FormViewSet.duplicate user pk w in
  db_fields (snd r) = db_fields w /\
  (forall original,
     is_staff user = true ->
     FormViewSet.get_object user pk w = Some original ->
     (String.length (copy_name original) <= 255)%nat ->
     existsb (fun f => String.eqb (Form.name f) (copy_name original)) (db_forms w)
     = false ->
     next_version_number (versions_of (next_uuid w) w) <= MAX_INTEGER ->
     let copy := Form.mk (next_uuid w) (copy_name original)
                   (Form.description original) (Some (user_pk user)) false
                   (Some (N.succ (next_uuid w))) [] None in
     get_row Form.id (next_uuid w) (db_forms (snd r)) = Some copy /\
     In (FormVersion.mk (N.succ (next_uuid w)) (next_uuid w)
           (next_version_number (versions_of (next_uuid w) w)) (JObj []))
        (db_versions (snd r)) /\
     (fst r = FormViewSet.DuplicateNameError <->
      exists version, Form.current_version original = Some version /\
                      version_fields version w <> []) /\
     (fst r = FormViewSet.DuplicateCreated copy <->
      Form.current_version original = None \/
      exists version, Form.current_version original = Some version /\
                      version_fields version w = [])).
Proof.
  intros r. subst r. unfold FormViewSet.duplicate. split.
  - destruct (is_staff user); simpl; [|reflexivity].
    destruct (FormViewSet.get_object user pk w) as [original|]; [|reflexivity].
    destruct (255 <? _)%nat; [reflexivity|].
    destruct (existsb _ (db_forms w)); [reflexivity|].
    unfold FormViewSet.copy_form. cbn [uuid4].
    match goal with
    | |- context [create_new_version ?f ?w1] =>
        destruct (create_new_version f w1) as [[[v nf] w2]|e] eqn:Hrun
    end.
    + destruct (create_new_version_ok _ _ _ _ _ Hrun)
        as (_ & _ & _ & _ & _ & Hw2).
      destruct (Form.current_version original) as [version|];
        [|rewrite Hw2; reflexivity].
      match goal with
      | |- context [match ?x with [] => _ | _ :: _ => _ end] => destruct x
      end; rewrite Hw2; reflexivity.
    + destruct e; reflexivity.
  - intros original Hstaff Hget Hlen Hfree Hmax.
    set (copy := Form.mk (next_uuid w) (copy_name original)
                   (Form.description original) (Some (user_pk user)) false
                   (Some (N.succ (next_uuid w))) [] None).
    rewrite Hstaff, Hget. cbn [negb]. fold (copy_name original).
    destruct (Nat.ltb_spec 255 (String.length (copy_name original))); [lia|].
    rewrite Hfree. unfold FormViewSet.copy_form. cbn [uuid4].
    fold (copy_name original).
    match goal with
    | |- context [create_new_version ?f ?w1] =>
        rewrite (create_new_version_inserted f w1 (db_forms w));
          [|reflexivity|exact Hfree|exact Hmax]
    end.
    unfold world_after_new_version.
    cbn [Form.id Form.set_current_version].
    change (versions_of (next_uuid w)
              (set_forms (set_next_uuid w (N.succ (next_uuid w))) _))
      with (versions_of (next_uuid w) w).
    cbn [db_forms db_versions db_fields db_rules db_submissions db_responses
         db_files db_notifications next_uuid clock set_forms set_next_uuid].
    assert (Hsame : forall version x y n c,
              version_fields version
                (mkWorld x y (db_fields w) (db_rules w) (db_submissions w)
                         (db_responses w) (db_files w) (db_notifications w) n c)
              = version_fields version w) by reflexivity.
    destruct (Form.current_version original) as [version|] eqn:Hcur.
    + rewrite Hsame.
      destruct (version_fields version w) as [|f fs] eqn:Hfields;
        cbn [fst snd db_forms db_versions];
        (split; [change (next_uuid w) with (Form.id copy) at 1;
                 apply get_row_save_row|]);
        (split; [apply in_or_app; right; left; reflexivity|]).
      * split; split.
        -- discriminate.
        -- intros [x [Hx Hne]]. inversion Hx; subst x. exfalso. now apply Hne.
        -- intros _. right. exists version. auto.
        -- reflexivity.
      * split; split.
        -- intros _. exists version. split; [reflexivity|].
           rewrite Hfields. discriminate.
        -- reflexivity.
        -- discriminate.
        -- intros [C|[x [Hx Hnil]]]; [discriminate|].
           inversion Hx; subst x. rewrite Hfields in Hnil. discriminate.
    + cbn [fst snd db_forms db_versions set_forms set_next_uuid].
      split; [change (next_uuid w) with (Form.id copy) at 1;
              apply get_row_save_row|].
      split; [apply in_or_app; right; left; reflexivity|].
      split; split.
      * discriminate.
      * intros [x [Hx _]]. discriminate.
      * intros _. now left.
      * reflexivity.
Qed.

Lemma duplicate_never_copies_fields_witness :
  fst (FormViewSet.duplicate admin 100%N catalogue_world)
  = FormViewSet.DuplicateNameError /\
  db_fields (snd (FormViewSet.duplicate admin 100%N catalogue_world))
  = db_fields catalogue_world /\
  exists copy,
    fst (FormViewSet.duplicate admin 100%N bare_world)
    = FormViewSet.DuplicateCreated copy /\
    Form.name copy = "KYC Form (Copy)" /\ Form.is_active copy = false.
Proof.
  destruct (duplicate_never_copies_fields admin 100%N catalogue_world)
    as [Hfields Hstaff].
  destruct (Hstaff (Form.set_current_version kyc_form (Some 1%N))
              eq_refl eq_refl) as [_ [_ [Herr _]]].
  { simpl. lia. }
  { reflexivity. }
  { vm_compute. discriminate. }
  destruct (duplicate_never_copies_fields admin 100%N bare_world) as [_ Hbare].
  destruct (Hbare (Form.set_current_version kyc_form (Some 1%N))
              eq_refl eq_refl) as [_ [_ [_ Hok]]].
  { simpl. lia. }
  { reflexivity. }
  { vm_compute. discriminate. }
  split; [|split; [exact Hfields|]].
  - apply Herr. exists 1%N. split; [reflexivity|]. discriminate.
  - eexists. split.
    + apply Hok. right. exists 1%N. split; reflexivity.
    + split; reflexivity.
Defined.

(** Past the name checks, [duplicate] stores the copy whatever it ends
    in. *)
Lemma duplicate_stores_copy (user : User) (pk : UUID) (w : World)
    (original : Form.t) :
  supply_fresh w = true ->
  is_staff user = true ->
  FormViewSet.get_object user pk w = Some original ->
  (String.length (copy_name original) <= 255)%nat ->
  existsb (fun f => String.eqb (Form.name f) (copy_name original)) (db_forms w)
  = false ->
  exists copy0 copy,
    Form.id copy0 = next_uuid w /\ Form.id copy = next_uuid w /\
    Form.name copy = copy_name original /\
    db_forms (snd (FormViewSet.duplicate user pk w))
    = save_row Form.id copy (db_forms w ++ [copy0]).
Proof.
  intros Hfresh Hstaff Hget Hlen Hfree. unfold FormViewSet.duplicate.
  rewrite Hstaff, Hget. cbn [negb]. fold (copy_name original).
  destruct (Nat.ltb_spec 255 (String.length (copy_name original))); [lia|].
  rewrite Hfree. unfold FormViewSet.copy_form. cbn [uuid4].
  fold (copy_name original).
  match goal with
  | |- context [create_new_version ?f ?w1] =>
      rewrite (create_new_version_first f w1 (db_forms w));
        [|reflexivity|exact Hfree|exact (fresh_no_versions w Hfresh)]
  end.
  eexists _, _. split; [|split; [|split]].
  4:{ destruct (Form.current_version original) as [version|];
        [|reflexivity].
      match goal with
      | |- context [match ?x with [] => _ | _ :: _ => _ end] => destruct x
      end; reflexivity. }
  all: reflexivity.
Qed.

(** X19. A form is duplicated at most once.  In a world whose keys all
    come from the supply, once [duplicate] has got past its name checks,
    whether it then answered 201 or raised [NameError], a second
    [duplicate] of the same form raises [IntegrityError], the name of the
    copy being taken, and changes nothing. *)
Theorem duplicate_twice_raises (user : User) (pk : UUID) (w : World)
    (original : Form.t) :
  supply_fresh w = true ->
  is_staff user = true ->
  FormViewSet.get_object user pk w = Some original ->
  (String.length (copy_name original) <= 255)%nat ->
  existsb (fun f => String.eqb (Form.name f) (copy_name original)) (db_forms w)
  = false ->
  let w1 := snd (FormViewSet.duplicate user pk w) in
  FormViewSet.duplicate user pk w1 = (FormViewSet.DuplicateIntegrityError, w1).
Proof.
  intros Hfresh Hstaff Hget Hlen Hfree w1.
  destruct (supply_fresh_spec w Hfresh) as [Hforms _].
  destruct (duplicate_stores_copy user pk w original Hfresh Hstaff Hget Hlen
              Hfree)
    as [copy0 [copy [Hid0 [Hid [Hname Hw1]]]]].
  fold w1 in Hw1.
  assert (Hrow : get_row Form.id pk (db_forms w) = Some original).
  { unfold FormViewSet.get_object, FormViewSet.get_queryset in Hget.
    now rewrite Hstaff in Hget. }
  destruct (get_row_some _ _ _ _ Hrow) as [Hin Hpk].
  assert (Hget1 : FormViewSet.get_object user pk w1 = Some original).
  { unfold FormViewSet.get_object, FormViewSet.get_queryset.
    rewrite Hstaff. cbn [negb]. rewrite Hw1.
    rewrite get_row_save_row_other.
    - now apply get_row_app_some.
    - rewrite Hid. specialize (Hforms original Hin). lia. }
  unfold FormViewSet.duplicate. rewrite Hstaff, Hget1. cbn [negb].
  fold (copy_name original).
  destruct (Nat.ltb_spec 255 (String.length (copy_name original))); [lia|].
  assert (Htaken : existsb (fun f => String.eqb (Form.name f) (copy_name original))
                           (db_forms w1) = true).
  { apply existsb_exists. exists copy. split.
    - rewrite Hw1. apply in_save_row.
    - rewrite Hname. apply String.eqb_refl. }
  now rewrite Htaken.
Qed.

Lemma duplicate_twice_raises_witness :
  fst (FormViewSet.duplicate admin 100%N
         (snd (FormViewSet.duplicate admin 100%N bare_world)))
  = FormViewSet.DuplicateIntegrityError.
Proof.
  rewrite (duplicate_twice_raises admin 100%N bare_world
             (Form.set_current_version kyc_form (Some 1%N))).
  - reflexivity.
  - reflexivity.
  - reflexivity.
  - reflexivity.
  - simpl. lia.
  - reflexivity.
Defined.

(** ** Notification tasks *)

Lemma save_row_last {A} (pk : A -> UUID) (x x' : A) (rows : list A) :
  (forall r, In r rows -> pk r <> pk x) -> pk x' = pk x ->
  save_row pk x' (rows ++ [x]) = rows ++ [x'].
Proof.
  intros Hne Hpk. induction rows as [|r rows IH]; simpl.
  - rewrite Hpk, N.eqb_refl. reflexivity.
  - destruct (N.eqb_spec (pk r) (pk x')) as [E|E].
    + exfalso. apply (Hne r); [now left|congruence].
    + f_equal. apply IH. intros y Hy. apply Hne. now right.
Qed.

Lemma logs_fresh_spec (tw : TaskWorld) :
  logs_fresh tw = true <->
  forall l, In l (tw_logs tw) ->
            (NotificationLog.id l < next_uuid (tw_world tw))%N.
Proof.
  unfold logs_fresh. rewrite forallb_forall.
  split; intros H l Hl; specialize (H l Hl); now apply N.ltb_lt.
Qed.

Lemma create_accepted (env : Outside) (sid : UUID) (ch : Channel) (r : string)
    (st : LogStatus) (err : option TaskExn) (n : Z) (tw : TaskWorld) :
  log_refused env r = false ->
  Tasks.NotificationLog_objects_create env sid ch r st err n tw
  = Some (NotificationLog.mk (next_uuid (tw_world tw)) sid ch r st n err None
                             (clock (tw_world tw)),
          mkTaskWorld (ticked (tw_world tw))
            (tw_logs tw ++
             [NotificationLog.mk (next_uuid (tw_world tw)) sid ch r st n err None
                                 (clock (tw_world tw))])).
Proof.
  intros H. unfold Tasks.NotificationLog_objects_create. rewrite H. reflexivity.
Qed.

Lemma create_refused (env : Outside) (sid : UUID) (ch : Channel) (r : string)
    (st : LogStatus) (err : option TaskExn) (n : Z) (tw : TaskWorld) :
  log_refused env r = true ->
  Tasks.NotificationLog_objects_create env sid ch r st err n tw = None.
Proof.
  intros H. unfold Tasks.NotificationLog_objects_create. now rewrite H.
Qed.

Lemma fresh_after_append (w : World) (logs : list NotificationLog.t)
    (l : NotificationLog.t) (c : Z) :
  logs_fresh (mkTaskWorld w logs) = true ->
  NotificationLog.id l = next_uuid w ->
  logs_fresh (mkTaskWorld (set_clock (ticked w) c) (logs ++ [l])) = true.
Proof.
  intros Hf Hid. apply logs_fresh_spec. cbn.
  intros x Hx. apply in_app_or in Hx. destruct Hx as [Hx|[<-|[]]].
  - apply (proj1 (logs_fresh_spec _) Hf) in Hx. cbn in Hx. lia.
  - rewrite Hid. lia.
Qed.

Lemma fresh_ids_differ (tw : TaskWorld) (l : NotificationLog.t) :
  logs_fresh tw = true -> NotificationLog.id l = next_uuid (tw_world tw) ->
  forall r, In r (tw_logs tw) -> NotificationLog.id r <> NotificationLog.id l.
Proof.
  intros Hf Hid r Hr. apply (proj1 (logs_fresh_spec _) Hf) in Hr. lia.
Qed.

(** A turn of the mail loop whose log the database takes. *)
Lemma send_one_email_accepted (env : Outside) (s : FormSubmission.t)
    (r : string) (log : option NotificationLog.t) (tw : TaskWorld) :
  logs_fresh tw = true -> log_refused env r = false ->
  exists l tw',
    Tasks.send_one_email env s r log tw = (Done, Some l, tw')
    /\ tw_logs tw' = tw_logs tw ++ [l]
    /\ log_summary l
       = (FormSubmission.id s, channel_email, r, email_status env s r, 1)
    /\ NotificationLog.id l = next_uuid (tw_world tw)
    /\ (NotificationLog.sent_at l = None <-> email_status env s r = log_failed)
    /\ logs_fresh tw' = true
    /\ tables (tw_world tw') = tables (tw_world tw).
Proof.
  intros Hf Hr. unfold Tasks.send_one_email, email_status.
  rewrite (create_accepted _ _ _ _ _ _ _ _ Hr).
  destruct tw as [w logs]. cbn [tw_world tw_logs] in *.
  destruct (Tasks.email_failure env s r) as [e|].
  - unfold Tasks.log_failure, Tasks.NotificationLog_save. cbn [tw_world tw_logs].
    rewrite save_row_last;
      [|apply (fresh_ids_differ (mkTaskWorld w logs)); [exact Hf|reflexivity]
       |reflexivity].
    eexists. eexists. split; [reflexivity|]. cbn [tw_logs tw_world].
    split; [reflexivity|]. split; [reflexivity|]. split; [reflexivity|].
    split; [cbn; tauto|]. split; [|reflexivity].
    replace (ticked w) with (set_clock (ticked w) (clock w + 1)) by reflexivity.
    apply fresh_after_append; [exact Hf|reflexivity].
  - unfold Tasks.log_sent_now, Tasks.NotificationLog_save, timezone_now.
    cbn [tw_world tw_logs].
    rewrite save_row_last;
      [|apply (fresh_ids_differ (mkTaskWorld w logs)); [exact Hf|reflexivity]
       |reflexivity].
    eexists. eexists. split; [reflexivity|]. cbn [tw_logs tw_world].
    split; [reflexivity|]. split; [reflexivity|]. split; [reflexivity|].
    split; [cbn; split; discriminate|]. split; [|reflexivity].
    apply fresh_after_append; [exact Hf|reflexivity].
Qed.

Lemma send_each_email_accepted (env : Outside) (s : FormSubmission.t)
    (rs : list string) (log : option NotificationLog.t) (tw : TaskWorld) :
  logs_fresh tw = true ->
  (forall r, In r rs -> log_refused env r = false) ->
  exists new tw',
    Tasks.send_each_email env s rs log tw = (Done, tw')
    /\ tw_logs tw' = tw_logs tw ++ new
    /\ map log_summary new
       = map (fun r => (FormSubmission.id s, channel_email, r,
                        email_status env s r, 1)) rs
    /\ logs_fresh tw' = true
    /\ tables (tw_world tw') = tables (tw_world tw).
Proof.
  revert log tw. induction rs as [|r rs IH]; intros log tw Hf Hrs.
  - exists [], tw. cbn. rewrite app_nil_r. auto.
  - destruct (send_one_email_accepted env s r log tw Hf (Hrs r (or_introl eq_refl)))
      as (l & tw1 & Hrun & Hlogs & Hsum & _ & _ & Hf1 & Ht1).
    destruct (IH (Some l) tw1 Hf1 (fun x Hx => Hrs x (or_intror Hx)))
      as (new & tw' & Hrun' & Hlogs' & Hsum' & Hf' & Ht').
    exists (l :: new), tw'. cbn [Tasks.send_each_email]. rewrite Hrun.
    split; [exact Hrun'|]. split.
    + rewrite Hlogs', Hlogs, <- app_assoc. reflexivity.
    + split; [cbn [map]; now rewrite Hsum, Hsum'|].
      split; [exact Hf'|]. now rewrite Ht'.
Qed.

(** The status of the log of a webhook, given what happens to the
    request. *)
Lemma send_webhook_accepted (env : Outside) (s : FormSubmission.t)
    (url : string) (tw : TaskWorld) :
  logs_fresh tw = true -> log_refused env url = false ->
  exists l tw',
    Tasks.send_webhook_notification env s url tw
    = (match webhook_error env url with
       | None => Done
       | Some m => Raised (TaskDeliveryError m)
       end, tw')
    /\ tw_logs tw' = tw_logs tw ++ [l]
    /\ log_summary l
       = (FormSubmission.id s, channel_webhook, url,
          match webhook_error env url with
          | None => log_sent
          | Some _ => log_failed
          end, 1)
    /\ logs_fresh tw' = true
    /\ tables (tw_world tw') = tables (tw_world tw).
Proof.
  intros Hf Hr. unfold Tasks.send_webhook_notification.
  rewrite (create_accepted _ _ _ _ _ _ _ _ Hr).
  destruct tw as [w logs]. cbn [tw_world tw_logs] in *.
  destruct (webhook_error env url) as [m|].
  - unfold Tasks.log_failure, Tasks.NotificationLog_save. cbn [tw_world tw_logs snd].
    rewrite save_row_last;
      [|apply (fresh_ids_differ (mkTaskWorld w logs)); [exact Hf|reflexivity]
       |reflexivity].
    eexists. eexists. split; [reflexivity|]. cbn [tw_logs tw_world].
    split; [reflexivity|]. split; [reflexivity|]. split; [|reflexivity].
    replace (ticked w) with (set_clock (ticked w) (clock w + 1)) by reflexivity.
    apply fresh_after_append; [exact Hf|reflexivity].
  - unfold Tasks.log_sent_now, Tasks.NotificationLog_save, timezone_now.
    cbn [tw_world tw_logs snd].
    rewrite save_row_last;
      [|apply (fresh_ids_differ (mkTaskWorld w logs)); [exact Hf|reflexivity]
       |reflexivity].
    eexists. eexists. split; [reflexivity|]. cbn [tw_logs tw_world].
    split; [reflexivity|]. split; [reflexivity|]. split; [|reflexivity].
    apply fresh_after_append; [exact Hf|reflexivity].
Qed.

Lemma tables_submissions (w w' : World) :
  tables w = tables w' -> db_submissions w = db_submissions w'.
Proof. unfold tables. intros H. now inversion H. Qed.

Lemma tables_get_submission_and_form (sid : UUID) (w w' : World) :
  tables w = tables w' ->
  Tasks.get_submission_and_form sid w = Tasks.get_submission_and_form sid w'.
Proof.
  unfold tables, Tasks.get_submission_and_form. intros H. inversion H.
  reflexivity.
Qed.

(** A turn of the retry loop: the logs there stay as they are. *)
Lemma retry_one_spec (env : Outside) (c : NotificationLog.t) (tw : TaskWorld) :
  logs_fresh tw = true ->
  exists new,
    fst (Tasks.retry_one env c tw) = retry_counts env (tw_world tw) c
    /\ tw_logs (snd (Tasks.retry_one env c tw)) = tw_logs tw ++ new
    /\ logs_fresh (snd (Tasks.retry_one env c tw)) = true
    /\ tables (tw_world (snd (Tasks.retry_one env c tw))) = tables (tw_world tw).
Proof.
  intros Hf. unfold Tasks.retry_one, retry_counts.
  destruct (get_row FormSubmission.id (NotificationLog.submission c)
                    (db_submissions (tw_world tw))) as [s|].
  2:{ exists []. cbn. rewrite app_nil_r. auto. }
  destruct (NotificationLog.channel c).
  - destruct (log_refused env (NotificationLog.recipient c)) eqn:Hr.
    + unfold Tasks.send_email_notification. cbn [Tasks.send_each_email].
      unfold Tasks.send_one_email. rewrite (create_refused _ _ _ _ _ _ _ _ Hr).
      exists []. cbn. rewrite app_nil_r. auto.
    + unfold Tasks.send_email_notification.
      destruct (send_each_email_accepted env s [NotificationLog.recipient c]
                  None tw Hf) as (new & tw' & Hrun & Hlogs & _ & Hf' & Ht').
      { intros r [<-|[]]. exact Hr. }
      rewrite Hrun. exists new. cbn. auto.
  - destruct (log_refused env (NotificationLog.recipient c)) eqn:Hr.
    + unfold Tasks.send_webhook_notification.
      rewrite (create_refused _ _ _ _ _ _ _ _ Hr).
      exists []. cbn. rewrite app_nil_r. auto.
    + destruct (send_webhook_accepted env s (NotificationLog.recipient c) tw
                  Hf Hr) as (l & tw' & Hrun & Hlogs & _ & Hf' & Ht').
      rewrite Hrun. exists [l].
      destruct (webhook_error env (NotificationLog.recipient c)); cbn; auto.
  - exists []. cbn. rewrite app_nil_r. auto.
Qed.

Lemma retry_each_spec (env : Outside) (cs : list NotificationLog.t) (n : Z)
    (tw : TaskWorld) :
  logs_fresh tw = true ->
  exists new,
    fst (Tasks.retry_each env cs n tw)
    = n + Z.of_nat (List.length (filter (retry_counts env (tw_world tw)) cs))
    /\ tw_logs (snd (Tasks.retry_each env cs n tw)) = tw_logs tw ++ new
    /\ logs_fresh (snd (Tasks.retry_each env cs n tw)) = true
    /\ tables (tw_world (snd (Tasks.retry_each env cs n tw)))
       = tables (tw_world tw).
Proof.
  revert n tw. induction cs as [|c cs IH]; intros n tw Hf.
  - exists []. cbn. rewrite app_nil_r. split; [lia|auto].
  - destruct (retry_one_spec env c tw Hf) as (new1 & Hc & Hlogs & Hf1 & Ht1).
    cbn [Tasks.retry_each].
    destruct (Tasks.retry_one env c tw) as [counted tw1] eqn:Hone.
    cbn [fst snd] in *.
    destruct (IH (if counted then n + 1 else n) tw1 Hf1)
      as (new & Hn & Hlogs' & Hf' & Ht').
    exists (new1 ++ new). split.
    + rewrite Hn. cbn [filter]. rewrite <- Hc.
      assert (Hsame : forall x, retry_counts env (tw_world tw1) x
                                = retry_counts env (tw_world tw) x).
      { intros x. unfold retry_counts.
        now rewrite (tables_submissions _ _ Ht1). }
      rewrite (filter_ext _ _ Hsame).
      destruct counted; cbn [List.length]; lia.
    + split; [rewrite Hlogs', Hlogs, <- app_assoc; reflexivity|].
      split; [exact Hf'|]. now rewrite Ht'.
Qed.

Lemma log_task_failure_accepted (env : Outside) (retries : Z) (sid : UUID)
    (e : TaskExn) (tw : TaskWorld) :
  logs_fresh tw = true -> log_refused env "system" = false ->
  exists l tw',
    Tasks.log_task_failure env retries sid e tw = (Raised e, tw')
    /\ tw_logs tw' = tw_logs tw ++ [l]
    /\ log_summary l = (sid, channel_email, "system", log_failed, retries + 1)
    /\ logs_fresh tw' = true
    /\ tables (tw_world tw') = tables (tw_world tw).
Proof.
  intros Hf Hr. unfold Tasks.log_task_failure.
  rewrite (create_accepted _ _ _ _ _ _ _ _ Hr).
  destruct tw as [w logs]. cbn [tw_world tw_logs] in *.
  eexists. eexists. split; [reflexivity|]. cbn [tw_logs tw_world].
  split; [reflexivity|]. split; [reflexivity|]. split; [|reflexivity].
  replace (ticked w) with (set_clock (ticked w) (clock w + 1)) by reflexivity.
  apply fresh_after_append; [exact Hf|reflexivity].
Qed.

(** One execution of the task on a submission that is there, when the
    database takes every log. *)
Lemma send_submission_notification_spec (env : Outside) (retries : Z)
    (sid : UUID) (tw : TaskWorld) (s : FormSubmission.t) (form : Form.t) :
  logs_fresh tw = true ->
  Tasks.get_submission_and_form sid (tw_world tw) = Some (s, form) ->
  (forall r, log_refused env r = false) ->
  exists emails rest tw',
    snd (Tasks.send_submission_notification env retries sid tw) = tw'
    /\ tw_logs tw' = tw_logs tw ++ emails ++ rest
    /\ map log_summary emails
       = map (fun r => (sid, channel_email, r, email_status env s r, 1))
             (Form.notification_emails form)
    /\ match webhook_of form with
       | None =>
           fst (Tasks.send_submission_notification env retries sid tw) = Done
           /\ rest = []
       | Some url =>
           match webhook_error env url with
           | None =>
               fst (Tasks.send_submission_notification env retries sid tw) = Done
               /\ map log_summary rest = [(sid, channel_webhook, url, log_sent, 1)]
           | Some m =>
               fst (Tasks.send_submission_notification env retries sid tw)
               = Raised (TaskDeliveryError m)
               /\ map log_summary rest
                  = [(sid, channel_webhook, url, log_failed, 1);
                     (sid, channel_email, "system", log_failed, retries + 1)]
           end
       end
    /\ logs_fresh tw' = true
    /\ tables (tw_world tw') = tables (tw_world tw).
Proof.
  intros Hf Hget Hacc.
  assert (Hsid : FormSubmission.id s = sid).
  { unfold Tasks.get_submission_and_form in Hget.
    destruct (get_row FormSubmission.id sid (db_submissions (tw_world tw)))
      as [s0|] eqn:Hs; [|discriminate].
    apply get_row_some in Hs. destruct Hs as [_ Hs].
    destruct (get_row FormVersion.id _ _); [|discriminate].
    destruct (get_row Form.id _ _); [|discriminate].
    now inversion Hget; subst. }
  unfold Tasks.send_submission_notification. rewrite Hget.
  assert (Hmail : forall rs,
    match rs with
    | [] => (Done, tw)
    | r :: rest => Tasks.send_email_notification env s (r :: rest) tw
    end = Tasks.send_each_email env s rs None tw).
  { intros [|r rest]; reflexivity. }
  rewrite Hmail.
  destruct (send_each_email_accepted env s (Form.notification_emails form) None
              tw Hf (fun r _ => Hacc r))
    as (emails & tw1 & Hrun & Hlogs & Hsum & Hf1 & Ht1).
  rewrite Hrun, Hsid in *. unfold webhook_of.
  destruct (Form.webhook_url form) as [url|].
  2:{ exists emails, [], tw1. cbn [fst snd]. rewrite app_nil_r.
      split; [reflexivity|]. split; [exact Hlogs|]. split; [exact Hsum|].
      split; [split; reflexivity|]. split; [exact Hf1|exact Ht1]. }
  destruct (String.eqb url "").
  { exists emails, [], tw1. cbn [fst snd]. rewrite app_nil_r.
    split; [reflexivity|]. split; [exact Hlogs|]. split; [exact Hsum|].
    split; [split; reflexivity|]. split; [exact Hf1|exact Ht1]. }
  destruct (send_webhook_accepted env s url tw1 Hf1 (Hacc url))
    as (l & tw2 & Hrun2 & Hlogs2 & Hsum2 & Hf2 & Ht2).
  rewrite Hrun2, Hsid in *.
  destruct (webhook_error env url) as [m|].
  - destruct (log_task_failure_accepted env retries sid (TaskDeliveryError m)
                tw2 Hf2 (Hacc "system"))
      as (l3 & tw3 & Hrun3 & Hlogs3 & Hsum3 & Hf3 & Ht3).
    rewrite Hrun3. exists emails, [l; l3], tw3. cbn [fst snd].
    split; [reflexivity|]. split.
    { rewrite Hlogs3, Hlogs2, Hlogs, <- !app_assoc. reflexivity. }
    split; [exact Hsum|]. split.
    { split; [reflexivity|]. cbn [map]. now rewrite Hsum2, Hsum3. }
    split; [exact Hf3|]. now rewrite Ht3, Ht2.
  - exists emails, [l], tw2. cbn [fst snd].
    split; [reflexivity|]. split.
    { rewrite Hlogs2, Hlogs, <- !app_assoc. reflexivity. }
    split; [exact Hsum|]. split.
    { split; [reflexivity|]. cbn [map]. now rewrite Hsum2. }
    split; [exact Hf2|]. now rewrite Ht2.
Qed.

Lemma email_status_sent (env : Outside) (s : FormSubmission.t) (r : string) :
  email_status env s r = log_sent <->
  FormSubmission.submitted_by s <> None /\ mail_error env r = None.
Proof.
  unfold email_status, Tasks.email_failure.
  destruct (FormSubmission.submitted_by s) as [u|].
  - destruct (mail_error env r); cbn; split; try discriminate; try tauto.
    + intros [_ H]. discriminate.
    + intros _. split; [discriminate|reflexivity].
  - split; [discriminate|]. intros [H _]. now elim H.
Qed.

(** X20. [send_email_notification], when the database takes the logs:
    it does not raise, whatever happens to the mails; it adds one log per
    recipient, in the order of the recipients, after the logs there,
    which it leaves as they are; each new log has one attempt and is
    marked as sent when the submission has a submitter and the mail went
    through, as failed otherwise; the other tables stay as they are. *)
Theorem send_email_notification_logs_each_recipient (env : Outside)
    (s : FormSubmission.t) (rs : list string) (tw : TaskWorld) :
  logs_fresh tw = true ->
  (forall r, In r rs -> log_refused env r = false) ->
  exists new,
    fst (Tasks.send_email_notification env s rs tw) = Done
    /\ tw_logs (snd (Tasks.send_email_notification env s rs tw))
       = tw_logs tw ++ new
    /\ map log_summary new
       = map (fun r => (FormSubmission.id s, channel_email, r,
                        if match FormSubmission.submitted_by s with
                           | Some _ => true
                           | None => false
                           end
                           && match mail_error env r with
                              | None => true
                              | Some _ => false
                              end
                        then log_sent else log_failed, 1)) rs
    /\ tables (tw_world (snd (Tasks.send_email_notification env s rs tw)))
       = tables (tw_world tw).
Proof.
  intros Hf Hrs. unfold Tasks.send_email_notification.
  destruct (send_each_email_accepted env s rs None tw Hf Hrs)
    as (new & tw' & Hrun & Hlogs & Hsum & _ & Ht).
  rewrite Hrun. exists new. cbn [fst snd].
  split; [reflexivity|]. split; [exact Hlogs|]. split; [|exact Ht].
  rewrite Hsum. apply map_ext. intros r.
  unfold email_status, Tasks.email_failure.
  destruct (FormSubmission.submitted_by s); [|reflexivity].
  destruct (mail_error env r); reflexivity.
Qed.

Lemma send_email_notification_logs_each_recipient_witness :
  exists new,
    fst (Tasks.send_email_notification all_delivered notify_submission
           ["ops@example.com"; "kyc@example.com"] notify_world) = Done
    /\ tw_logs (snd (Tasks.send_email_notification all_delivered notify_submission
                       ["ops@example.com"; "kyc@example.com"] notify_world))
       = [] ++ new
    /\ map log_summary new
       = [(3%N, channel_email, "ops@example.com", log_sent, 1);
          (3%N, channel_email, "kyc@example.com", log_sent, 1)]
    /\ tables (tw_world (snd (Tasks.send_email_notification all_delivered
                                notify_submission
                                ["ops@example.com"; "kyc@example.com"]
                                notify_world)))
       = tables (tw_world notify_world).
Proof.
  apply (send_email_notification_logs_each_recipient all_delivered
           notify_submission ["ops@example.com"; "kyc@example.com"] notify_world).
  - reflexivity.
  - intros r _. reflexivity.
Defined.

(** X21. [send_email_notification], when the database refuses the log
    of a recipient.  For the first recipient: the handler reads [log]
    before any assignment, [UnboundLocalError] leaves the function and
    nothing is written.  For a recipient that follows one whose log was
    taken: the handler marks the log of the recipient before as failed,
    with a second attempt and the text of the database error, also when
    the mail to that recipient went through ([sent_at] is then set); the
    function does not raise and the refused recipient has no log. *)
Theorem send_email_notification_refused_log (env : Outside)
    (s : FormSubmission.t) (r1 r2 : string) (rest : list string)
    (tw : TaskWorld) :
  logs_fresh tw = true ->
  log_refused env r1 = false ->
  log_refused env r2 = true ->
  Tasks.send_email_notification env s (r2 :: rest) tw
  = (Raised TaskUnboundLocalError, tw)
  /\ exists l,
       fst (Tasks.send_email_notification env s [r1; r2] tw) = Done
       /\ tw_logs (snd (Tasks.send_email_notification env s [r1; r2] tw))
          = tw_logs tw ++ [l]
       /\ log_summary l = (FormSubmission.id s, channel_email, r1, log_failed, 2)
       /\ NotificationLog.error_message l = Some TaskDatabaseError
       /\ (NotificationLog.sent_at l <> None <->
           FormSubmission.submitted_by s <> None /\ mail_error env r1 = None).
Proof.
  intros Hf H1 H2. split.
  - unfold Tasks.send_email_notification. cbn [Tasks.send_each_email].
    unfold Tasks.send_one_email. now rewrite (create_refused _ _ _ _ _ _ _ _ H2).
  - unfold Tasks.send_email_notification. cbn [Tasks.send_each_email].
    destruct (send_one_email_accepted env s r1 None tw Hf H1)
      as (l & tw1 & Hrun & Hlogs & Hsum & Hid & Hsent & Hf1 & Ht1).
    rewrite Hrun. unfold Tasks.send_one_email.
    rewrite (create_refused _ _ _ _ _ _ _ _ H2).
    unfold Tasks.log_failure, Tasks.NotificationLog_save. cbn [fst snd tw_logs].
    rewrite Hlogs.
    rewrite save_row_last;
      [|apply (fresh_ids_differ tw); [exact Hf|exact Hid]|reflexivity].
    exists (NotificationLog.mark_failed l TaskDatabaseError).
    split; [reflexivity|]. split; [reflexivity|].
    unfold log_summary in *. injection Hsum as Ha Hb Hc Hd He.
    split; [cbn; rewrite Ha, Hb, Hc, He; reflexivity|]. split; [reflexivity|].
    cbn [NotificationLog.mark_failed NotificationLog.sent_at].
    rewrite <- email_status_sent.
    assert (Hcase : email_status env s r1 = log_sent
                    \/ email_status env s r1 = log_failed).
    { unfold email_status. destruct (Tasks.email_failure env s r1); auto. }
    destruct Hcase as [E|E]; rewrite E in *.
    + split; [reflexivity|]. intros _ H0. apply Hsent in H0. discriminate.
    + split; [|discriminate]. intros H. elim H. apply Hsent. reflexivity.
Qed.

Lemma send_email_notification_refused_log_witness :
  Tasks.send_email_notification long_refused notify_submission
    [long_recipient; "ops@example.com"] notify_world
  = (Raised TaskUnboundLocalError, notify_world)
  /\ exists l,
       fst (Tasks.send_email_notification long_refused notify_submission
              ["ops@example.com"; long_recipient] notify_world) = Done
       /\ tw_logs (snd (Tasks.send_email_notification long_refused
                          notify_submission
                          ["ops@example.com"; long_recipient] notify_world))
          = tw_logs notify_world ++ [l]
       /\ log_summary l = (3%N, channel_email, "ops@example.com", log_failed, 2)
       /\ NotificationLog.error_message l = Some TaskDatabaseError
       /\ (NotificationLog.sent_at l <> None <->
           FormSubmission.submitted_by notify_submission <> None
           /\ mail_error long_refused "ops@example.com" = None).
Proof.
  apply (send_email_notification_refused_log long_refused notify_submission
           "ops@example.com" long_recipient ["ops@example.com"] notify_world).
  - reflexivity.
  - reflexivity.
  - vm_compute. reflexivity.
Defined.

(** X22. One execution of [send_submission_notification] on a
    submission that is there, when the database takes every log.  Every
    recipient of the form gets one log (sent or failed, one attempt);
    what happens to the mails has no part in the result.  Without a
    webhook address the task ends normally.  With one, a log of the
    webhook follows those of the mails: when the request goes through the
    task ends normally; when it fails the task raises the error of the
    request, after a third kind of log, a failed one on the e-mail
    channel for the recipient [system] with [retries + 1] attempts. *)
Theorem send_submission_notification_outcome (env : Outside) (retries : Z)
    (sid : UUID) (tw : TaskWorld) (s : FormSubmission.t) (form : Form.t) :
  logs_fresh tw = true ->
  Tasks.get_submission_and_form sid (tw_world tw) = Some (s, form) ->
  (forall r, log_refused env r = false) ->
  exists emails rest,
    tw_logs (snd (Tasks.send_submission_notification env retries sid tw))
    = tw_logs tw ++ emails ++ rest
    /\ map log_summary emails
       = map (fun r => (sid, channel_email, r, email_status env s r, 1))
             (Form.notification_emails form)
    /\ match webhook_of form with
       | None =>
           fst (Tasks.send_submission_notification env retries sid tw) = Done
           /\ rest = []
       | Some url =>
           match webhook_error env url with
           | None =>
               fst (Tasks.send_submission_notification env retries sid tw) = Done
               /\ map log_summary rest = [(sid, channel_webhook, url, log_sent, 1)]
           | Some m =>
               fst (Tasks.send_submission_notification env retries sid tw)
               = Raised (TaskDeliveryError m)
               /\ map log_summary rest
                  = [(sid, channel_webhook, url, log_failed, 1);
                     (sid, channel_email, "system", log_failed, retries + 1)]
           end
       end.
Proof.
  intros Hf Hget Hacc.
  destruct (send_submission_notification_spec env retries sid tw s form
              Hf Hget Hacc) as (emails & rest & tw' & Hsnd & Hlogs & Hsum & Hres & _).
  exists emails, rest. rewrite Hsnd. auto.
Qed.

Lemma send_submission_notification_outcome_witness :
  exists emails rest,
    tw_logs (snd (Tasks.send_submission_notification webhook_down 0 3%N
                    notify_world))
    = tw_logs notify_world ++ emails ++ rest
    /\ map log_summary emails
       = map (fun r => (3%N, channel_email, r,
                        email_status webhook_down notify_submission r, 1))
             (Form.notification_emails notify_form)
    /\ match webhook_of notify_form with
       | None =>
           fst (Tasks.send_submission_notification webhook_down 0 3%N
                  notify_world) = Done
           /\ rest = []
       | Some url =>
           match webhook_error webhook_down url with
           | None =>
               fst (Tasks.send_submission_notification webhook_down 0 3%N
                      notify_world) = Done
               /\ map log_summary rest = [(3%N, channel_webhook, url, log_sent, 1)]
           | Some m =>
               fst (Tasks.send_submission_notification webhook_down 0 3%N
                      notify_world)
               = Raised (TaskDeliveryError m)
               /\ map log_summary rest
                  = [(3%N, channel_webhook, url, log_failed, 1);
                     (3%N, channel_email, "system", log_failed, 0 + 1)]
           end
       end.
Proof.
  apply (send_submission_notification_outcome webhook_down 0 3%N notify_world
           notify_submission notify_form).
  - reflexivity.
  - reflexivity.
  - intros r. reflexivity.
Defined.

Lemma mails_sent_app (sid : UUID) (tw tw' : TaskWorld)
    (new : list NotificationLog.t) :
  tw_logs tw' = tw_logs tw ++ new ->
  mails_sent sid tw'
  = (mails_sent sid tw + List.length (filter (is_mail_sent sid) new))%nat.
Proof.
  intros H. unfold mails_sent. now rewrite H, filter_app, length_app.
Qed.

Lemma is_mail_sent_summary (sid : UUID) (l : NotificationLog.t) :
  is_mail_sent sid l
  = let '(sub, ch, _, st, _) := log_summary l in
    match ch, st with
    | channel_email, log_sent => N.eqb sub sid
    | _, _ => false
    end.
Proof. reflexivity. Qed.

Lemma mails_sent_all (sid : UUID) (rs : list string)
    (logs : list NotificationLog.t) :
  map log_summary logs = map (fun r => (sid, channel_email, r, log_sent, 1)) rs ->
  List.length (filter (is_mail_sent sid) logs) = List.length rs.
Proof.
  revert rs. induction logs as [|l logs IH]; intros [|r rs] H;
    try discriminate; [reflexivity|].
  cbn [map] in H.
  pose proof (f_equal (hd (log_summary l)) H) as Hl.
  pose proof (f_equal (@tl _) H) as Hrest. cbn [hd tl] in Hl, Hrest.
  cbn [filter]. rewrite is_mail_sent_summary, Hl, N.eqb_refl.
  cbn [List.length]. f_equal. now apply IH.
Qed.

Lemma mails_sent_none (sid : UUID) (logs : list NotificationLog.t) :
  Forall (fun x => match x with
                   | (_, channel_email, _, log_sent, _) => False
                   | _ => True
                   end) (map log_summary logs) ->
  List.length (filter (is_mail_sent sid) logs) = 0%nat.
Proof.
  induction logs as [|l logs IH]; intros H; [reflexivity|].
  cbn [map] in H. inversion H as [|x xs Hx Hxs]; subst.
  cbn [filter]. rewrite is_mail_sent_summary.
  destruct (log_summary l) as [[[[sub ch] r] st] n].
  destruct ch, st; try contradiction; now apply IH.
Qed.

(** The mails an execution adds to the count of those sent, when every
    mail goes through. *)
Lemma send_submission_notification_mails (env : Outside) (retries : Z)
    (sid : UUID) (tw : TaskWorld) (s : FormSubmission.t) (form : Form.t) :
  logs_fresh tw = true ->
  Tasks.get_submission_and_form sid (tw_world tw) = Some (s, form) ->
  (forall r, log_refused env r = false) ->
  FormSubmission.submitted_by s <> None ->
  (forall r, mail_error env r = None) ->
  mails_sent sid (snd (Tasks.send_submission_notification env retries sid tw))
  = (mails_sent sid tw + List.length (Form.notification_emails form))%nat.
Proof.
  intros Hf Hget Hacc Hby Hmail.
  destruct (send_submission_notification_spec env retries sid tw s form
              Hf Hget Hacc) as (emails & rest & tw' & Hsnd & Hlogs & Hsum & Hres & _).
  rewrite Hsnd, (mails_sent_app sid tw tw' (emails ++ rest) Hlogs).
  rewrite filter_app, length_app. f_equal.
  assert (Hall : map log_summary emails
                 = map (fun r => (sid, channel_email, r, log_sent, 1))
                       (Form.notification_emails form)).
  { rewrite Hsum. apply map_ext. intros r.
    now rewrite (proj2 (email_status_sent env s r) (conj Hby (Hmail r))). }
  rewrite (mails_sent_all sid _ _ Hall).
  rewrite (mails_sent_none sid rest); [lia|].
  destruct (webhook_of form) as [url|].
  - destruct (webhook_error env url) as [m|]; destruct Hres as [_ ->];
      repeat constructor.
  - destruct Hres as [_ ->]. constructor.
Qed.

(** X23. The task is not idempotent.  When the request to the webhook
    fails, the execution raises (which makes the queue run the task
    again) after the mails were sent; the next execution mails every
    recipient again: with mails that go through, two executions add
    twice the number of recipients to the mails logged as sent for the
    submission. *)
Theorem send_submission_notification_retry_mails_again (env1 env2 : Outside)
    (retries : Z) (sid : UUID) (tw : TaskWorld) (s : FormSubmission.t)
    (form : Form.t) (url m : string) :
  logs_fresh tw = true ->
  Tasks.get_submission_and_form sid (tw_world tw) = Some (s, form) ->
  FormSubmission.submitted_by s <> None ->
  (forall r, log_refused env1 r = false) ->
  (forall r, log_refused env2 r = false) ->
  (forall r, mail_error env1 r = None) ->
  (forall r, mail_error env2 r = None) ->
  webhook_of form = Some url ->
  webhook_error env1 url = Some m ->
  let first := Tasks.send_submission_notification env1 retries sid tw in
  let second :=
    Tasks.send_submission_notification env2 (retries + 1) sid (snd first) in
  fst first = Raised (TaskDeliveryError m)
  /\ mails_sent sid (snd first)
     = (mails_sent sid tw + List.length (Form.notification_emails form))%nat
  /\ mails_sent sid (snd second)
     = (mails_sent sid tw + 2 * List.length (Form.notification_emails form))%nat.
Proof.
  intros Hf Hget Hby Hacc1 Hacc2 Hmail1 Hmail2 Hurl Hdown first second.
  destruct (send_submission_notification_spec env1 retries sid tw s form
              Hf Hget Hacc1)
    as (emails & rest & tw1 & Hsnd & _ & _ & Hres & Hf1 & Ht1).
  rewrite Hurl, Hdown in Hres. destruct Hres as [Hraised _].
  assert (Hfirst : mails_sent sid (snd first)
            = (mails_sent sid tw + List.length (Form.notification_emails form))%nat).
  { apply (send_submission_notification_mails env1 retries sid tw s form);
      assumption. }
  split; [exact Hraised|]. split; [exact Hfirst|].
  subst second. fold first in Hsnd.
  rewrite (send_submission_notification_mails env2 (retries + 1) sid (snd first)
             s form).
  - rewrite Hfirst. lia.
  - rewrite Hsnd. exact Hf1.
  - rewrite Hsnd, (tables_get_submission_and_form sid _ _ Ht1). exact Hget.
  - exact Hacc2.
  - exact Hby.
  - exact Hmail2.
Qed.

Lemma send_submission_notification_retry_mails_again_witness :
  let first := Tasks.send_submission_notification webhook_down 0 3%N notify_world in
  let second := Tasks.send_submission_notification webhook_down (0 + 1) 3%N
                  (snd first) in
  fst first = Raised (TaskDeliveryError "503 Server Error")
  /\ mails_sent 3%N (snd first) = (mails_sent 3%N notify_world + 2)%nat
  /\ mails_sent 3%N (snd second) = (mails_sent 3%N notify_world + 2 * 2)%nat.
Proof.
  apply (send_submission_notification_retry_mails_again webhook_down webhook_down
           0 3%N notify_world notify_submission notify_form
           "https://hooks.example.com/kyc" "503 Server Error").
  - reflexivity.
  - reflexivity.
  - discriminate.
  - intros r. reflexivity.
  - intros r. reflexivity.
  - intros r. reflexivity.
  - intros r. reflexivity.
  - reflexivity.
  - reflexivity.
Defined.

(** X24. [retry_failed_notifications] writes new logs and leaves the
    logs there as they are: the failed logs it selects are still failed,
    with the same attempts, and selected again by the next run, also
    after a retry that went through.  The number it returns counts the
    selected logs whose turn ends without an exception: a mail that fails
    again is counted, a webhook whose request fails again is not. *)
Theorem retry_failed_notifications_keeps_failed_logs (env : Outside)
    (tw : TaskWorld) :
  logs_fresh tw = true ->
  exists new,
    tw_logs (snd (Tasks.retry_failed_notifications env tw)) = tw_logs tw ++ new
    /\ (forall c, In c (Tasks.failed_notifications tw) ->
                  In c (Tasks.failed_notifications
                          (snd (Tasks.retry_failed_notifications env tw))))
    /\ fst (Tasks.retry_failed_notifications env tw)
       = Z.of_nat (List.length (filter (retry_counts env (tw_world tw))
                                       (Tasks.failed_notifications tw))).
Proof.
  intros Hf. unfold Tasks.retry_failed_notifications.
  destruct (retry_each_spec env (Tasks.failed_notifications tw) 0 tw Hf)
    as (new & Hn & Hlogs & _ & _).
  exists new. split; [exact Hlogs|]. split; [|rewrite Hn; lia].
  intros c Hc. unfold Tasks.failed_notifications in *.
  apply in_sort_by. apply in_sort_by in Hc.
  rewrite Hlogs, filter_app. apply in_or_app. now left.
Qed.

Lemma retry_failed_notifications_keeps_failed_logs_witness :
  exists new,
    tw_logs (snd (Tasks.retry_failed_notifications all_delivered
                    (snd (Tasks.send_submission_notification webhook_down 0 3%N
                            notify_world))))
    = tw_logs (snd (Tasks.send_submission_notification webhook_down 0 3%N
                      notify_world)) ++ new
    /\ (forall c,
          In c (Tasks.failed_notifications
                  (snd (Tasks.send_submission_notification webhook_down 0 3%N
                          notify_world))) ->
          In c (Tasks.failed_notifications
                  (snd (Tasks.retry_failed_notifications all_delivered
                          (snd (Tasks.send_submission_notification webhook_down
                                  0 3%N notify_world))))))
    /\ fst (Tasks.retry_failed_notifications all_delivered
              (snd (Tasks.send_submission_notification webhook_down 0 3%N
                      notify_world)))
       = Z.of_nat (List.length
                     (filter (retry_counts all_delivered
                                (tw_world (snd (Tasks.send_submission_notification
                                                  webhook_down 0 3%N notify_world))))
                             (Tasks.failed_notifications
                                (snd (Tasks.send_submission_notification
                                        webhook_down 0 3%N notify_world))))).
Proof.
  apply (retry_failed_notifications_keeps_failed_logs all_delivered
           (snd (Tasks.send_submission_notification webhook_down 0 3%N
                   notify_world))).
  vm_compute. reflexivity.
Defined.
